(** * EOmaps callback containers: a shallow embedding

    This development models [eomaps/_cb_container.py]: the registry of
    click, pick and keypress callbacks, the naming of attached callbacks,
    their removal, the execution order of a dispatch cycle and the
    forwarding of events between Maps objects.

    Python dictionaries are insertion ordered and the code relies on it
    ([sorted] is stable, the keypress dispatch iterates [items()]), so a
    dictionary is an association list in insertion order.  Exceptions and
    mutation are threaded through a small state-and-error monad that also
    records the observable calls (callback invocations, cleanup hooks,
    prints, redraw requests).

    What lies outside the file is not modelled but recorded or taken as a
    parameter: executing a callback or a cleanup hook is a recorded call
    (what the callback does, and whether it raises, is its own business);
    the callback classes are known by their catalog [_cb_list] and by
    their attributes, each a method or another value; pyproj, the picker
    of the Maps object and
    the iteration order of Python sets are the fields of [Runtime].  Maps
    objects are mutable and shared between containers, so they live in a
    store addressed by their identity. *)

From Stdlib Require Import List String Ascii Bool Arith ZArith Lia.
From Stdlib Require Import Permutation Sorted.
From Stdlib Require Import Recdef.
From Stdlib Require Decimal DecimalNat DecimalPos DecimalZ.
From Stdlib Require Import DecimalString.
Import ListNotations.

Open Scope string_scope.
Open Scope list_scope.

(** ** Python strings *)

Module PyStr.

Definition underscore : ascii := "_"%char.

(** [s.rsplit("_", 1)] when [s] holds an underscore: the text before the
    last underscore and the text after it.  [None] stands for the
    one-element list that Python returns when there is no underscore. *)
Fixpoint rsplit1 (s : string) : option (string * string) :=
  match s with
  | EmptyString => None
  | String c s' =>
      match rsplit1 s' with
      | Some (a, b) => Some (String c a, b)
      | None => if Ascii.eqb c underscore then Some (EmptyString, s') else None
      end
  end.

(** [s.rsplit("_", 1)[0]] *)
Definition rsplit_head (s : string) : string :=
  match rsplit1 s with
  | Some (a, _) => a
  | None => s
  end.

(** [s.rsplit("_", 1)[1]]; [None] is Python's IndexError. *)
Definition rsplit_tail (s : string) : option string :=
  match rsplit1 s with
  | Some (_, b) => Some b
  | None => None
  end.

(** [s.startswith(p)] *)
Definition startswith (s p : string) : bool := String.prefix p s.

(** [s.split("__")]: non-overlapping occurrences, scanned from the left. *)
Fixpoint split_dunder (s : string) : list string :=
  match s with
  | EmptyString => [EmptyString]
  | String c rest =>
      let keep :=
        match split_dunder rest with
        | hd :: tl => String c hd :: tl
        | [] => [String c EmptyString]
        end in
      match rest with
      | String c' rest' =>
          if Ascii.eqb c underscore && Ascii.eqb c' underscore
          then EmptyString :: split_dunder rest'
          else keep
      | EmptyString => keep
      end
  end.

(** [str(n)] for a non-negative integer. *)
Definition str_of_nat (n : nat) : string :=
  NilZero.string_of_uint (Nat.to_uint n).

(** [int(s)] on a string of decimal digits; [None] is Python's ValueError.
    Python also accepts a sign, surrounding blanks and digit separators;
    the tails of the keys built by [_add_callback] are plain digits. *)
Definition int_of_str (s : string) : option nat :=
  option_map Nat.of_uint (NilZero.uint_of_string s).

(** [str(z)] for a mouse-button number. *)
Definition str_of_Z (z : Z) : string :=
  NilZero.string_of_int (Z.to_int z).

(** [c.isspace()] and the value of a decimal digit.  A character is a
    code point below 256; among these Python's blanks are the codes 9 to
    13, 28 to 32, 133 and 160, and its decimal digits are [0] to [9]. *)
Definition is_space (c : ascii) : bool :=
  let n := nat_of_ascii c in
  ((9 <=? n) && (n <=? 13) || (28 <=? n) && (n <=? 32)
   || (n =? 133) || (n =? 160))%nat.

Definition digit_of (c : ascii) : option Z :=
  let n := nat_of_ascii c in
  if ((48 <=? n) && (n <=? 57))%nat then Some (Z.of_nat (n - 48)) else None.

Fixpoint lstrip (s : string) : string :=
  match s with
  | String c s' => if is_space c then lstrip s' else s
  | EmptyString => EmptyString
  end.

Fixpoint rstrip (s : string) : string :=
  match s with
  | EmptyString => EmptyString
  | String c s' =>
      match rstrip s' with
      | EmptyString => if is_space c then EmptyString else String c EmptyString
      | r => String c r
      end
  end.

(** The digits that follow a digit, [acc] being the value read so far: a
    digit, or one underscore and a digit. *)
Fixpoint digits_from (acc : Z) (s : string) : option Z :=
  match s with
  | EmptyString => Some acc
  | String c s' =>
      match digit_of c with
      | Some d => digits_from (10 * acc + d) s'
      | None =>
          if Ascii.eqb c underscore then
            match s' with
            | String c' s'' =>
                match digit_of c' with
                | Some d => digits_from (10 * acc + d) s''
                | None => None
                end
            | EmptyString => None
            end
          else None
      end
  end.

Definition unsigned_of_str (s : string) : option Z :=
  match s with
  | String c s' =>
      match digit_of c with
      | Some d => digits_from d s'
      | None => None
      end
  | EmptyString => None
  end.

(** [int(s)] for the button part of an identity, as Python reads a text
    in base 10: blanks around the number are dropped, a sign may come
    first, and single underscores may stand between digits.  Integers are
    unbounded, and so is their conversion.  [None] is Python's
    ValueError. *)
Definition Z_of_str (s : string) : option Z :=
  let t := rstrip (lstrip s) in
  match t with
  | String "+" r => unsigned_of_str r
  | String "-" r => option_map Z.opp (unsigned_of_str r)
  | _ => unsigned_of_str t
  end.

End PyStr.

(** ** Insertion-ordered dictionaries *)

(** A dictionary with keys in [K] and values in [V], oldest key first. *)
Abbreviation dict K V := (list (K * V)).

Section Dict.
Context {K V : Type}.
Variable keq : K -> K -> bool.

(** [d.get(k)] *)
Fixpoint dict_get (k : K) (d : dict K V) : option V :=
  match d with
  | [] => None
  | (k', v) :: d' => if keq k k' then Some v else dict_get k d'
  end.

(** [k in d] *)
Definition dict_mem (k : K) (d : dict K V) : bool :=
  match dict_get k d with Some _ => true | None => false end.

(** [d[k] = v]: an existing key keeps its place, a new key goes last. *)
Fixpoint dict_set (k : K) (v : V) (d : dict K V) : dict K V :=
  match d with
  | [] => [(k, v)]
  | (k', v') :: d' =>
      if keq k k' then (k', v) :: d' else (k', v') :: dict_set k v d'
  end.

(** [del d[k]] (keys of a dictionary are unique). *)
Definition dict_del (k : K) (d : dict K V) : dict K V :=
  filter (fun kv => negb (keq k (fst kv))) d.

(** [list(d)] *)
Definition dict_keys (d : dict K V) : list K := map fst d.

End Dict.


(** ** Exceptions, observable calls and the monad *)

Inductive assertion : Type :=
| ReservedKeyword                 (* a reserved name is used as keyword argument *)
| UnknownCallback (name : string) (* does not exist as a pre-defined callback *)
| MultipleAssignment (name : string).

Inductive exn : Type :=
| AssertionError (why : assertion)
| ValueError
| IndexError
| KeyError
| AttributeError
| TypeError
| NameError.

Inductive res (A : Type) : Type :=
| Ok (a : A)
| Raise (e : exn).

Arguments Ok {A} a.
Arguments Raise {A} e.

Section Monad.
Context {E : Type}.

(** A computation over a state [S] returns a result or raises, the state
    it leaves behind (mutations made before a raise persist, as in
    Python) and the calls it made, oldest first. *)
Definition M (S A : Type) : Type := S -> res A * S * list E.

Definition ret {S A} (a : A) : M S A := fun s => (Ok a, s, []).

Definition raise {S A} (e : exn) : M S A := fun s => (Raise e, s, []).

Definition bind {S A B} (m : M S A) (f : A -> M S B) : M S B :=
  fun s =>
    match m s with
    | (Ok a, s1, t1) =>
        match f a s1 with
        | (r, s2, t2) => (r, s2, t1 ++ t2)
        end
    | (Raise e, s1, t1) => (Raise e, s1, t1)
    end.

Definition get {S} : M S S := fun s => (Ok s, s, []).
Definition put {S} (s : S) : M S unit := fun _ => (Ok tt, s, []).
Definition modify {S} (f : S -> S) : M S unit := fun s => (Ok tt, f s, []).
Definition emit {S} (e : E) : M S unit := fun s => (Ok tt, s, [e]).

Definition lift_res {S A} (r : res A) : M S A := fun s => (r, s, []).

(** [assert c] *)
Definition assert_ {S} (c : bool) (why : assertion) : M S unit :=
  if c then ret tt else raise (AssertionError why).

(** [for x in l: body(x)] *)
Fixpoint for_each {S X} (l : list X) (body : X -> M S unit) : M S unit :=
  match l with
  | [] => ret tt
  | x :: l' => bind (body x) (fun _ => for_each l' body)
  end.

End Monad.

(** Run a computation on a part of the state, relabelling its calls. *)
Definition zoom {E E' S T A} (proj : T -> S) (upd : S -> T -> T) (tag : E -> E')
  (m : @M E S A) : @M E' T A :=
  fun t =>
    match m (proj t) with
    | (r, s', tr) => (r, upd s' t, map tag tr)
    end.

Declare Scope py_scope.
Delimit Scope py_scope with py.
Notation "x <- m ;; k" := (bind m (fun x => k))
  (at level 61, m at next level, right associativity) : py_scope.
Notation "m ;;; k" := (bind m (fun _ => k))
  (at level 61, right associativity) : py_scope.

Open Scope py_scope.

(** ** Data model *)

(** Python values that the containers store or hand over without looking
    inside them. *)
Inductive pyval : Type :=
| PyNone
| PyBool (b : bool)
| PyInt (z : Z)
| PyStr (s : string).

(** The extra keyword arguments of an attach call. *)
Abbreviation kwargs := (dict string pyval).

(** [functools.partial(callback, **kwargs)]; [func] is [callback.__name__]. *)
Record partial : Type := mk_partial {
  func : string;
  keywords : kwargs
}.

(** What [_add_callback] receives as [callback]: a string; a function or
    a bound method, with its [__name__]; or any other object, of which
    the method asks whether it is callable, whether it can be rebound (it
    has [__func__] with [__get__], or [__get__]) and for the [__name__] of
    the object it goes on with, if that has one. *)
Inductive callback : Type :=
| CbStr (s : string)
| CbFunc (name : string)
| CbObj (is_callable has_get : bool) (name : option string).

(** An attribute of the callback-class instance [self._cb], as far as the
    containers look at what [getattr(self._cb, name)] returns: a method
    defined under that name (it is callable and its [__name__] is that
    name), or another value, which has no [__name__] (as [_cb_list] or
    [m]). *)
Inductive attr : Type :=
| Method
| Value.

(** One classification bucket: [<name>_<count>] to the attached partial. *)
Abbreviation bucket := (dict string partial).

(** [defaultdict(lambda: defaultdict(dict))]: single/double, then button. *)
Abbreviation click_cbs := (dict string (dict Z bucket)).

(** [defaultdict(dict)]: key string to bucket. *)
Abbreviation keypress_cbs := (dict string bucket).

(** The dictionary of buttons under single or double, and the bucket of a
    button in it; both empty as long as the defaultdict has not created
    them. *)
Definition dsdict_of (r : click_cbs) (ds : string) : dict Z bucket :=
  match dict_get String.eqb ds r with
  | Some dsdict => dsdict
  | None => []
  end.

Definition bucket_of (r : click_cbs) (ds : string) (button : Z) : bucket :=
  match dict_get Z.eqb button (dsdict_of r ds) with
  | Some d => d
  | None => []
  end.

(** The registry after the bucket object of [ds] and [button] has been
    mutated into [d]. *)
Definition set_bucket (ds : string) (button : Z) (d : bucket) (r : click_cbs)
  : click_cbs :=
  dict_set String.eqb ds (dict_set Z.eqb button d (dsdict_of r ds)) r.

(** The bucket of a key of the keypress registry. *)
Definition key_bucket_of (r : keypress_cbs) (key : string) : bucket :=
  match dict_get String.eqb key r with
  | Some d => d
  | None => []
  end.

(** Host events.  [inaxes], [artist] and the figure attributes below are
    object identities. *)
Record mouse_event (coord : Type) : Type := mk_mouse_event {
  inaxes : option nat;
  dblclick : bool;
  button : option Z;
  xdata : coord;
  ydata : coord
}.

Arguments mk_mouse_event {coord}.
Arguments inaxes {coord}.
Arguments dblclick {coord}.
Arguments button {coord}.
Arguments xdata {coord}.
Arguments ydata {coord}.

(** A pick event carries the properties returned by the picker; the dummy
    event built when forwarding has no [mouseevent]. *)
Record pick_event (coord : Type) : Type := mk_pick_event {
  artist : option nat;
  p_dblclick : bool;
  p_button : option Z;
  p_ind : option nat;
  mouseevent : option (mouse_event coord)
}.

Arguments mk_pick_event {coord}.
Arguments artist {coord}.
Arguments p_dblclick {coord}.
Arguments p_button {coord}.
Arguments p_ind {coord}.
Arguments mouseevent {coord}.

(** What a container keeps in [self._event]: the event of its last
    dispatch cycle.  Of a key-press event the containers read the key
    only. *)
Inductive event (coord : Type) : Type :=
| MouseEvent (e : mouse_event coord)
| PickEvent (e : pick_event coord)
| KeyEvent (key : string).

Arguments MouseEvent {coord}.
Arguments PickEvent {coord}.
Arguments KeyEvent {coord}.

(** The attributes of a callback container ([_cb_container.__init__]).
    [_cb] holds the attributes of the callback-class instance by name;
    [cbs] is [self.get.cbs]; [_fwd_cbs] keeps the keys [id(m)] of the
    forwarding dictionary in insertion order (its values are the objects
    themselves); [_event] is [None] as long as no dispatch cycle has set
    the attribute. *)
Record container (coord R : Type) : Type := mk_container {
  _method : string;
  _cb_list : list string;
  _cb : dict string attr;
  cbs : R;
  _fwd_cbs : list nat;
  _event : option (event coord)
}.

Arguments container {coord} R.
Arguments mk_container {coord R}.
Arguments _method {coord R}.
Arguments _cb_list {coord R}.
Arguments _cb {coord R}.
Arguments cbs {coord R}.
Arguments _fwd_cbs {coord R}.
Arguments _event {coord R}.

Definition set_cbs {coord R} (r : R) (c : container (coord:=coord) R)
  : container (coord:=coord) R :=
  mk_container (_method c) (_cb_list c) (_cb c) r (_fwd_cbs c) (_event c).

Definition set_fwd_cbs {coord R} (f : list nat)
  (c : container (coord:=coord) R) : container (coord:=coord) R :=
  mk_container (_method c) (_cb_list c) (_cb c) (cbs c) f (_event c).

(** [self._event = event] *)
Definition set_event {coord R} (e : event coord)
  (c : container (coord:=coord) R) : container (coord:=coord) R :=
  mk_container (_method c) (_cb_list c) (_cb c) (cbs c) (_fwd_cbs c) (Some e).

(** [hasattr(self._cb, name)] *)
Definition hasattr {coord R} (c : container (coord:=coord) R) (name : string)
  : bool :=
  dict_mem String.eqb name (_cb c).

(** The keyword arguments a callback is executed with.  Coordinates are
    floats that the containers only copy and hand to the reprojection, so
    their type is left open. *)
Record clickdict (coord : Type) : Type := mk_clickdict {
  pos : coord * coord;
  ID : pyval;
  val : pyval;
  ind : option nat
}.

Arguments mk_clickdict {coord}.
Arguments pos {coord}.
Arguments ID {coord}.
Arguments val {coord}.
Arguments ind {coord}.

Inductive cb_kwargs (coord : Type) : Type :=
| ClickKw (d : clickdict coord)
| KeyKw (key : string).

Arguments ClickKw {coord}.
Arguments KeyKw {coord}.

(** The calls a container makes on its collaborators: a callback executed
    with its keyword arguments, a cleanup hook of the callback class, a
    print, a redraw request to the blit manager, a clear action queued on
    it, and [_reset_axes]. *)
Inductive call (coord : Type) : Type :=
| Invoke (method key : string) (cb : partial) (kw : cb_kwargs coord)
| Cleanup (hook : string)
| Print (text : string)
| BM_update (clear : string) (blit : option bool)
| After_update (obj_m : nat) (method : string)
| Reset_axes.

Arguments Invoke {coord}.
Arguments Cleanup {coord}.
Arguments Print {coord}.
Arguments BM_update {coord}.
Arguments After_update {coord}.
Arguments Reset_axes {coord}.

(** A Maps object, as far as the containers look at it: its projection,
    the identities of [figure.ax] and [figure.coll], the toolbar of its
    canvas ([None], or its mode), the drag modifier, the per-point arrays
    of [_props], its children and the three containers of [m.cb]. *)
Record Maps (coord crs : Type) : Type := mk_Maps {
  crs_plot : crs;
  figure_ax : nat;
  figure_coll : option nat;
  toolbar : option string;
  _modifier_pressed : bool;
  props_x0 : list coord;
  props_y0 : list coord;
  props_ids : list pyval;
  props_z_data : list pyval;
  _children : list nat;
  cb_click : container (coord:=coord) click_cbs;
  cb_pick : container (coord:=coord) click_cbs;
  cb_keypress : container (coord:=coord) keypress_cbs
}.

Arguments mk_Maps {coord crs}.
Arguments crs_plot {coord crs}.
Arguments figure_ax {coord crs}.
Arguments figure_coll {coord crs}.
Arguments toolbar {coord crs}.
Arguments _modifier_pressed {coord crs}.
Arguments props_x0 {coord crs}.
Arguments props_y0 {coord crs}.
Arguments props_ids {coord crs}.
Arguments props_z_data {coord crs}.
Arguments _children {coord crs}.
Arguments cb_click {coord crs}.
Arguments cb_pick {coord crs}.
Arguments cb_keypress {coord crs}.

Definition set_cb_click {coord crs} (c : container click_cbs) (m : Maps coord crs)
  : Maps coord crs :=
  mk_Maps (crs_plot m) (figure_ax m) (figure_coll m) (toolbar m)
    (_modifier_pressed m) (props_x0 m) (props_y0 m) (props_ids m)
    (props_z_data m) (_children m) c (cb_pick m) (cb_keypress m).

Definition set_cb_pick {coord crs} (c : container click_cbs) (m : Maps coord crs)
  : Maps coord crs :=
  mk_Maps (crs_plot m) (figure_ax m) (figure_coll m) (toolbar m)
    (_modifier_pressed m) (props_x0 m) (props_y0 m) (props_ids m)
    (props_z_data m) (_children m) (cb_click m) c (cb_keypress m).

Definition set_cb_keypress {coord crs} (c : container keypress_cbs)
  (m : Maps coord crs) : Maps coord crs :=
  mk_Maps (crs_plot m) (figure_ax m) (figure_coll m) (toolbar m)
    (_modifier_pressed m) (props_x0 m) (props_y0 m) (props_ids m)
    (props_z_data m) (_children m) (cb_click m) (cb_pick m) c.

(** The Maps objects alive in the process, addressed by [id(m)]. *)
Definition world (coord crs : Type) : Type := nat -> Maps coord crs.

Definition world_set {coord crs} (i : nat) (m : Maps coord crs)
  (w : world coord crs) : world coord crs :=
  fun j => if Nat.eqb j i then m else w j.

(** What the containers take from outside this file: the order in which
    Python iterates over a set of strings, pyproj's
    [Transformer.from_crs(crs_from, crs_to, always_xy=True).transform] and
    the index found by [m._pick_pixel(None, event)] ([None] when its
    second component is [None]). *)
Class Runtime (coord crs : Type) : Type := mk_Runtime {
  set_to_list : list string -> list string;
  transform : crs -> crs -> coord * coord -> coord * coord;
  _pick_pixel : nat -> Maps coord crs -> mouse_event coord -> option nat
}.

(** Computations of a container, of a Maps object, of the whole process;
    the calls of the latter are labelled with the Maps object they belong
    to. *)
Definition CM (coord R A : Type) : Type :=
  @M (call coord) (container (coord:=coord) R) A.
Definition MM (coord crs A : Type) : Type := @M (call coord) (Maps coord crs) A.
Definition WM (coord crs A : Type) : Type :=
  @M (nat * call coord) (world coord crs) A.

(** Run a computation of Maps object [i] in the process. *)
Definition at_maps {coord crs A} (i : nat) (m : MM coord crs A) : WM coord crs A :=
  zoom (fun w => w i) (world_set i) (pair i) m.

(** The container of one method on a Maps object: [getattr(m.cb, method)]. *)
Record accessor (coord crs R : Type) : Type := mk_accessor {
  getobj : Maps coord crs -> container (coord:=coord) R;
  setobj : container (coord:=coord) R -> Maps coord crs -> Maps coord crs
}.

Arguments getobj {coord crs R}.
Arguments setobj {coord crs R}.

Definition click_obj {coord crs} : accessor coord crs click_cbs :=
  mk_accessor _ _ _ cb_click set_cb_click.
Definition pick_obj {coord crs} : accessor coord crs click_cbs :=
  mk_accessor _ _ _ cb_pick set_cb_pick.
Definition keypress_obj {coord crs} : accessor coord crs keypress_cbs :=
  mk_accessor _ _ _ cb_keypress set_cb_keypress.

(** Run a computation of a container in its Maps object. *)
Definition at_obj {coord crs R A} (a : accessor coord crs R) (m : CM coord R A)
  : MM coord crs A :=
  zoom (getobj a) (setobj a) (fun e => e) m.

(** ** [_cb_container]: what every container inherits *)

Module _cb_container.

(** [a ^ b] on sets of strings, as a list of its members. *)
Definition sym_diff (a b : list string) : list string :=
  filter (fun x => negb (existsb (String.eqb x) b)) a ++
  filter (fun x => negb (existsb (String.eqb x) a)) b.

(** [l.index(x)]; [None] is Python's ValueError. *)
Fixpoint index (x : string) (l : list string) : option nat :=
  match l with
  | [] => None
  | y :: l' =>
      if String.eqb x y then Some 0
      else match index x l' with
           | Some n => Some (S n)
           | None => None
           end
  end.

(** The sort keys [sortp.index(w.rsplit("_", 1)[0])], computed for every
    element before sorting. *)
Fixpoint sort_keys (sortp : list string) (ws : list string)
  : res (list (nat * string)) :=
  match ws with
  | [] => Ok []
  | w :: ws' =>
      match index (PyStr.rsplit_head w) sortp with
      | None => Raise ValueError
      | Some k =>
          match sort_keys sortp ws' with
          | Ok l => Ok ((k, w) :: l)
          | Raise e => Raise e
          end
      end
  end.

(** [sorted] is stable: an element goes in front of the first element
    whose key is not smaller. *)
Fixpoint insert_sorted {A} (x : nat * A) (l : list (nat * A)) : list (nat * A) :=
  match l with
  | [] => [x]
  | y :: l' =>
      if (fst x <=? fst y)%nat then x :: l else y :: insert_sorted x l'
  end.

Fixpoint sorted {A} (l : list (nat * A)) : list (nat * A) :=
  match l with
  | [] => []
  | x :: l' => insert_sorted x (sorted l')
  end.

Section Defs.
Context {coord crs : Type} {RT : Runtime coord crs}.

Definition _sort_cbs (cb_list : list string) (cbs : bucket) : res (list string) :=
  match cbs with
  | [] => Ok []
  | _ :: _ =>
      let cbnames := map PyStr.rsplit_head (dict_keys cbs) in
      let sortp := cb_list ++ set_to_list (sym_diff cb_list cbnames) in
      match sort_keys sortp (dict_keys cbs) with
      | Ok l => Ok (map snd (sorted l))
      | Raise e => Raise e
      end
  end.

(** The loop shared by [_onclick] and [_onpick]:
    [for key in self._sort_cbs(bcbs): cb = bcbs[key]; if clickdict is not
    None: cb(clickdict)], the dictionary passed as keywords. *)
Definition run_sorted (bcbs : bucket) (clickdict : option (clickdict coord))
  : CM coord click_cbs unit :=
  c <- get ;;
  order <- lift_res (_sort_cbs (_cb_list c) bcbs) ;;
  for_each order (fun key =>
    match dict_get String.eqb key bcbs with
    | None => raise KeyError
    | Some cb =>
        match clickdict with
        | Some d => emit (Invoke (_method c) key cb (ClickKw d))
        | None => ret tt
        end
    end).

(** [self.get.cbs[ds]] on the outer defaultdict: a missing key is created. *)
Definition cbs_ds (ds : string) : CM coord click_cbs (dict Z bucket) :=
  c <- get ;;
  match dict_get String.eqb ds (cbs c) with
  | Some dsdict => ret dsdict
  | None =>
      put (set_cbs (dict_set String.eqb ds [] (cbs c)) c) ;;;
      ret []
  end.

(** [self._fwd_cbs[id(m)] = m] *)
Definition fwd_add (m : nat) (f : list nat) : list nat :=
  if existsb (Nat.eqb m) f then f else f ++ [m].

Definition forward_events {R} (args : list nat) : CM coord R unit :=
  for_each args (fun m => modify (fun c => set_fwd_cbs (fwd_add m (_fwd_cbs c)) c)).

(** [self._getobj(m1)._fwd_cbs[id(m2)] = m2] unless [m1 is m2]. *)
Definition share_with {R} (a : accessor coord crs R) (m1 m2 : nat)
  : WM coord crs unit :=
  if negb (Nat.eqb m1 m2) then
    at_maps m1 (at_obj a
      (modify (fun c => set_fwd_cbs (fwd_add m2 (_fwd_cbs c)) c)))
  else ret tt.

(** [share_events] of the container [a] of Maps object [self]. *)
Definition share_events {R} (a : accessor coord crs R) (self : nat)
  (args : list nat) : WM coord crs unit :=
  for_each (self :: args) (fun m1 =>
    for_each (self :: args) (share_with a m1)).

(** The object that [_add_callback] goes on with, as far as the method
    looks at it: whether [partial] takes it (it is callable), and its
    [__name__], if it has one. *)
Record resolved : Type := mk_resolved {
  is_callable : bool;
  __name__ : option string
}.

(** [getattr(self._cb, s)] for an attribute that is there. *)
Definition getattr_cb {R} (c : container (coord:=coord) R) (s : string) : resolved :=
  match dict_get String.eqb s (_cb c) with
  | Some Method => mk_resolved true (Some s)
  | _ => mk_resolved false None
  end.

(** The first lines of both [_add_callback]: a string is looked up on
    [self._cb] after the assertion; a callable is rebound to the Maps
    object, which raises AttributeError when it has neither [__func__]
    nor [__get__]; any other object is left as it is. *)
Definition resolve {R} (cb : callback) : CM coord R resolved :=
  match cb with
  | CbStr s =>
      c <- get ;;
      assert_ (hasattr c s) (UnknownCallback s) ;;;
      ret (getattr_cb c s)
  | CbFunc name => ret (mk_resolved true (Some name))
  | CbObj is_callable has_get name =>
      if is_callable then
        if has_get then ret (mk_resolved true name) else raise AttributeError
      else ret (mk_resolved false name)
  end.

(** [callback.__name__]; an object without the attribute raises
    AttributeError. *)
Definition name_of (o : resolved) : res string :=
  match __name__ o with
  | Some name => Ok name
  | None => Raise AttributeError
  end.

(** [partial(callback, kwargs)], which raises TypeError for an object that
    is not callable. *)
Definition make_partial (o : resolved) (name : string) (kw : kwargs)
  : res partial :=
  if is_callable o then Ok (mk_partial name kw) else Raise TypeError.

(** The sequence numbers of the entries whose key starts with [name]:
    [int(i.rsplit("_", 1)[1]) for i in d if i.startswith(name)]. *)
Fixpoint ncb_of (name : string) (keys : list string) : res (list nat) :=
  match keys with
  | [] => Ok []
  | i :: rest =>
      if PyStr.startswith i name then
        match PyStr.rsplit_tail i with
        | None => Raise IndexError
        | Some t =>
            match PyStr.int_of_str t with
            | None => Raise ValueError
            | Some n =>
                match ncb_of name rest with
                | Ok l => Ok (n :: l)
                | Raise e => Raise e
                end
            end
        end
      else ncb_of name rest
  end.

(** [max(ncb) + 1 if len(ncb) > 0 else 0] *)
Definition next_count (ncb : list nat) : nat :=
  if (0 <? List.length ncb)%nat then (list_max ncb + 1)%nat else 0%nat.

(** The cleanup and the print that follow [del bdict[name]] in both
    [remove]. *)
Definition after_removal {R} (name ID : string) : CM coord R unit :=
  c <- get ;;
  let fname := PyStr.rsplit_head name in
  let hook := ("_" ++ fname ++ "_cleanup")%string in
  (if hasattr c hook then emit (Cleanup hook) else ret tt) ;;;
  emit (Print ("Removed the " ++ _method c ++ " callback: '" ++ ID ++ "'.")%string).

End Defs.
End _cb_container.

Import _cb_container.

(** ** [_click_container]: the click and pick registries *)

Module _click_container.
Section Defs.
Context {coord crs : Type} {RT : Runtime coord crs}.

Local Abbreviation CM := (CM coord click_cbs).

Definition reserved : list string :=
  ["pos"; "ID"; "val"; "double_click"; "button"].

Definition multi_cb_functions : list string := ["mark"; "annotate"].

(** [self.get.cbs[ds][button]] on the nested defaultdict: missing levels
    are created, and the bucket is returned. *)
Definition cbs_at (ds : string) (button : Z) : CM bucket :=
  dsdict <- cbs_ds ds ;;
  match dict_get Z.eqb button dsdict with
  | Some d => ret d
  | None =>
      modify (fun c => set_cbs (set_bucket ds button [] (cbs c)) c) ;;;
      ret []
  end.

(** [d[cbkey] = v] for the bucket [d] of [ds] and [button]. *)
Definition bucket_set (ds : string) (button : Z) (cbkey : string) (v : partial)
  : CM unit :=
  modify (fun c =>
    let d := bucket_of (cbs c) ds button in
    set_cbs (set_bucket ds button (dict_set String.eqb cbkey v d) (cbs c)) c).

Definition _add_callback (cb : callback) (double_click : bool) (button : Z)
  (kw : kwargs) : CM string :=
  assert_ (negb (forallb (fun i => dict_mem String.eqb i kw) reserved))
    ReservedKeyword ;;;
  callback <- resolve cb ;;
  let ds := if double_click then "double" else "single" in
  d <- cbs_at ds button ;;
  name <- lift_res (name_of callback) ;;
  ncb <- lift_res (ncb_of name (dict_keys d)) ;;
  let cbkey := (name ++ "_" ++ PyStr.str_of_nat (next_count ncb))%string in
  (if negb (existsb (String.eqb name) multi_cb_functions)
   then assert_ (List.length ncb =? 0)%nat (MultipleAssignment name)
   else ret tt) ;;;
  v <- lift_res (make_partial callback name kw) ;;
  bucket_set ds button cbkey v ;;;
  ret (cbkey ++ "__" ++ ds ++ "__" ++ PyStr.str_of_Z button)%string.

(** [self.get.attached_callbacks] *)
Definition attached_callbacks (r : click_cbs) : list string :=
  flat_map (fun dsd =>
    flat_map (fun bd =>
      map (fun name =>
             (name ++ "__" ++ fst dsd ++ "__" ++ PyStr.str_of_Z (fst bd))%string)
          (dict_keys (snd bd)))
      (snd dsd)) r.

(** The local variables [name, ds, b] of [remove]: bound by unpacking
    [ID.split("__")] only when an [ID] is given. *)
Definition unpack3 (ID : option string)
  : CM (option (string * string * string)) :=
  match ID with
  | Some s =>
      match PyStr.split_dunder s with
      | [name; ds; b] => ret (Some (name, ds, b))
      | _ => raise ValueError
      end
  | None => ret None
  end.

Definition remove (ID : option string) : CM unit :=
  locals <- unpack3 ID ;;
  match locals with
  | None => raise NameError
  | Some (name, ds, b) =>
      c <- get ;;
      match dict_get String.eqb ds (cbs c) with
      | None => ret tt
      | Some dsdict =>
          match PyStr.Z_of_str b with
          | None => raise ValueError
          | Some button =>
              match dict_get Z.eqb button dsdict with
              | None => ret tt
              | Some bdict =>
                  if dict_mem String.eqb name bdict then
                    put (set_cbs (set_bucket ds button
                                    (dict_del String.eqb name bdict) (cbs c)) c) ;;;
                    after_removal name (match ID with Some s => s | None => EmptyString end)
                  else ret tt
              end
          end
      end
  end.

End Defs.
End _click_container.

(** ** [cb_click_container] *)

Module cb_click_container.
Section Defs.
Context {coord crs : Type} {RT : Runtime coord crs}.

Definition _get_clickdict (event : mouse_event coord) : clickdict coord :=
  mk_clickdict (xdata event, ydata event) PyNone PyNone None.

Definition _onclick (event : mouse_event coord) : CM coord click_cbs unit :=
  modify (set_event (MouseEvent event)) ;;;
  let clickdict := _get_clickdict event in
  cbs <- cbs_ds (if dblclick event then "double" else "single") ;;
  match button event with
  | None => ret tt
  | Some b =>
      match dict_get Z.eqb b cbs with
      | None => ret tt
      | Some bcbs => run_sorted bcbs (Some clickdict)
      end
  end.

(** [event.inaxes == m.figure.ax] *)
Definition in_axes_of (event : mouse_event coord) (m : Maps coord crs) : bool :=
  match inaxes event with
  | Some a => Nat.eqb a (figure_ax m)
  | None => false
  end.

(** One turn of the loop of [_fwd_cb] over [self._fwd_cbs], for the peer
    [m]; [self._getobj(m)] is the click container of [m]. *)
Definition forward_to (self : nat) (event : mouse_event coord) (m : nat)
  : WM coord crs unit :=
  w <- get ;;
  let xy := transform (crs_plot (w m)) (crs_plot (w self))
              (xdata event, ydata event) in
  let dummyevent :=
    mk_mouse_event (Some (figure_ax (w m))) (dblclick event) (button event)
      (fst xy) (snd xy) in
  at_maps m (at_obj click_obj (_onclick dummyevent)) ;;;
  emit (m, After_update m "click").

(** [_fwd_cb] of the click container of Maps object [self]. *)
Definition _fwd_cb (self : nat) (event : mouse_event coord) : WM coord crs unit :=
  w <- get ;;
  if negb (in_axes_of event (w self)) then ret tt
  else for_each (_fwd_cbs (cb_click (w self))) (forward_to self event).

(** [toolbar is not None] and [toolbar.mode] is not the empty string. *)
Definition toolbar_active (m : Maps coord crs) : bool :=
  match toolbar m with
  | Some mode => negb (String.eqb mode EmptyString)
  | None => false
  end.

(** One turn of the loop of [clickcb] and [movecb] over the parent and
    its children. *)
Definition click_on (event : mouse_event coord) (m : nat) : WM coord crs unit :=
  w <- get ;;
  if in_axes_of event (w m) then
    at_maps m (at_obj click_obj (_onclick event)) ;;;
    _fwd_cb m event ;;;
    emit (m, After_update m "click")
  else ret tt.

(** The body shared by [clickcb] and [movecb]: [_onclick] and [_fwd_cb] on
    the parent and on each child whose axes hold the event, then one
    redraw. *)
Definition click_family (self : nat) (event : mouse_event coord)
  : WM coord crs unit :=
  w <- get ;;
  for_each (self :: _children (w self)) (click_on event) ;;;
  w <- get ;;
  emit (self, BM_update (_method (cb_click (w self))) None).

(** The handler connected to [button_press_event] on the parent [self]. *)
Definition clickcb (self : nat) (event : mouse_event coord) : WM coord crs unit :=
  w <- get ;;
  if _modifier_pressed (w self) then ret tt
  else if toolbar_active (w self) then ret tt
  else click_family self event.

(** The handler connected to [motion_notify_event]. *)
Definition movecb (self : nat) (event : mouse_event coord) : WM coord crs unit :=
  w <- get ;;
  if _modifier_pressed (w self) then ret tt
  else if toolbar_active (w self) then ret tt
  else
    match button event with
    | None => ret tt
    | Some 0%Z => ret tt
    | Some _ => click_family self event
    end.

End Defs.
End cb_click_container.

(** ** [cb_pick_container] *)

Module cb_pick_container.
Section Defs.
Context {coord crs : Type} {RT : Runtime coord crs}.

Definition option_nat_eqb (a b : option nat) : bool :=
  match a, b with
  | Some x, Some y => Nat.eqb x y
  | None, None => true
  | _, _ => false
  end.

(** [l[ind]] *)
Definition item {A} (l : list A) (ind : nat) : res A :=
  match nth_error l ind with
  | Some v => Ok v
  | None => Raise IndexError
  end.

(** [None] when the event has no index or another artist. *)
Definition _get_pickdict (m : Maps coord crs) (event : pick_event coord)
  : res (option (clickdict coord)) :=
  match p_ind event with
  | None => Ok None
  | Some ind =>
      if option_nat_eqb (artist event) (figure_coll m) then
        match item (props_x0 m) ind, item (props_y0 m) ind,
              item (props_ids m) ind, item (props_z_data m) ind with
        | Ok x, Ok y, Ok i, Ok z => Ok (Some (mk_clickdict (x, y) i z (Some ind)))
        | Raise e, _, _, _ => Raise e
        | _, Raise e, _, _ => Raise e
        | _, _, Raise e, _ => Raise e
        | _, _, _, Raise e => Raise e
        end
      else Ok None
  end.

Definition _onpick (event : pick_event coord) : MM coord crs unit :=
  m <- get ;;
  if cb_click_container.toolbar_active m then ret tt
  else
    at_obj pick_obj (modify (set_event (PickEvent event))) ;;;
    if negb (option_nat_eqb (artist event) (figure_coll m)) then ret tt
    else
      clickdict <- lift_res (_get_pickdict m event) ;;
      cbs <- at_obj pick_obj
               (cbs_ds (if p_dblclick event then "double" else "single")) ;;
      match p_button event with
      | None => ret tt
      | Some b =>
          match dict_get Z.eqb b cbs with
          | None => ret tt
          | Some bcbs =>
              at_obj pick_obj (run_sorted bcbs clickdict) ;;;
              emit (BM_update (_method (cb_pick m)) (Some false))
          end
      end.

(** One turn of the loop of [_fwd_cb] over [self._fwd_cbs], for the peer
    [m]: the index is looked up again on [m]. *)
Definition forward_to (event : pick_event coord) (me : mouse_event coord)
  (m : nat) : WM coord crs unit :=
  w <- get ;;
  let dummymouseevent :=
    mk_mouse_event (Some (figure_ax (w m))) (p_dblclick event)
      (p_button event) (xdata me) (ydata me) in
  let dummyevent :=
    mk_pick_event (figure_coll (w m)) (p_dblclick event) (p_button event)
      (_pick_pixel m (w m) dummymouseevent) None in
  at_maps m (_onpick dummyevent).

(** [_fwd_cb] of the pick container of Maps object [self]. *)
Definition _fwd_cb (self : nat) (event : pick_event coord) : WM coord crs unit :=
  match mouseevent event with
  | None => raise AttributeError
  | Some me =>
      w <- get ;;
      if negb (cb_click_container.in_axes_of me (w self)) then ret tt
      else for_each (_fwd_cbs (cb_pick (w self))) (forward_to event me)
  end.

(** The handler connected to [pick_event] on the parent [self]. *)
Definition pickcb (self : nat) (event : pick_event coord) : WM coord crs unit :=
  w <- get ;;
  if _modifier_pressed (w self) then ret tt
  else if cb_click_container.toolbar_active (w self) then ret tt
  else
    for_each (self :: _children (w self)) (fun m =>
      at_maps m (_onpick event) ;;;
      _fwd_cb m event ;;;
      emit (self, After_update m "pick")).

End Defs.
End cb_pick_container.

(** ** [keypress_container] *)

Module keypress_container.
Section Defs.
Context {coord : Type}.

Local Abbreviation CM := (CM coord keypress_cbs).

(** [_onpress], the handler connected to [key_press_event]. *)
Definition _onpress (key : string) : CM unit :=
  modify (set_event (KeyEvent key)) ;;;
  c <- get ;;
  match dict_get String.eqb key (cbs c) with
  | None => ret tt
  | Some cbdict =>
      for_each cbdict (fun item =>
        emit (Invoke (_method c) (fst item) (snd item) (KeyKw key)))
  end.

(** [self.get.attached_callbacks] *)
Definition attached_callbacks (r : keypress_cbs) : list string :=
  flat_map (fun kd =>
    map (fun name => (name ++ "__" ++ fst kd)%string) (dict_keys (snd kd))) r.

(** The local variables [name, key] of [remove]. *)
Definition unpack2 (ID : option string) : CM (option (string * string)) :=
  match ID with
  | Some s =>
      match PyStr.split_dunder s with
      | [name; key] => ret (Some (name, key))
      | _ => raise ValueError
      end
  | None => ret None
  end.

Definition remove (ID : option string) : CM unit :=
  locals <- unpack2 ID ;;
  match locals with
  | None => raise NameError
  | Some (name, key) =>
      c <- get ;;
      match dict_get String.eqb key (cbs c) with
      | None => ret tt
      | Some cbdict =>
          if dict_mem String.eqb name cbdict then
            put (set_cbs (dict_set String.eqb key
                            (dict_del String.eqb name cbdict) (cbs c)) c) ;;;
            after_removal name (match ID with Some s => s | None => EmptyString end)
          else ret tt
      end
  end.

(** [self.get.cbs[key]] on the defaultdict. *)
Definition cbs_key (key : string) : CM bucket :=
  c <- get ;;
  match dict_get String.eqb key (cbs c) with
  | Some d => ret d
  | None =>
      put (set_cbs (dict_set String.eqb key [] (cbs c)) c) ;;;
      ret []
  end.

Definition _add_callback (cb : callback) (key : string) (kw : kwargs) : CM string :=
  callback <- resolve cb ;;
  cbdict <- cbs_key key ;;
  name <- lift_res (name_of callback) ;;
  ncb <- lift_res (ncb_of name (dict_keys cbdict)) ;;
  let cbkey := (name ++ "_" ++ PyStr.str_of_nat (next_count ncb))%string in
  v <- lift_res (make_partial callback name kw) ;;
  modify (fun c =>
    set_cbs (dict_set String.eqb key
               (dict_set String.eqb cbkey v cbdict) (cbs c)) c) ;;;
  ret (cbkey ++ "__" ++ key)%string.

End Defs.
End keypress_container.

(** ** [cb_container]: the object behind [m.cb] *)

Module cb_container.
Section Defs.
Context {coord crs : Type}.

(** [self._methods] *)
Definition _methods : list string := ["click"; "keypress"].

(** [for key in obj.get.attached_callbacks: obj.remove(key)] for
    [obj = getattr(self, method)]. *)
Definition remove_all (method : string) : MM coord crs unit :=
  m <- get ;;
  if String.eqb method "click" then
    for_each (_click_container.attached_callbacks (cbs (cb_click m)))
      (fun key => at_obj click_obj (_click_container.remove (Some key)))
  else if String.eqb method "pick" then
    for_each (_click_container.attached_callbacks (cbs (cb_pick m)))
      (fun key => at_obj pick_obj (_click_container.remove (Some key)))
  else if String.eqb method "keypress" then
    for_each (keypress_container.attached_callbacks (cbs (cb_keypress m)))
      (fun key => at_obj keypress_obj (keypress_container.remove (Some key)))
  else raise AttributeError.

Definition _on_close : MM coord crs unit :=
  for_each _methods remove_all ;;;
  emit Reset_axes.

End Defs.
End cb_container.

(** ** [cb_container._remove_default_keymaps] *)

Module keymaps.

(** [plt.rcParams], as far as the containers look at it: the keys bound to
    each keymap setting. *)
Abbreviation rcParams := (dict string (list string)).

(** The local dictionary [assignments] of [_remove_default_keymaps]. *)
Definition assignments : dict string (list string) :=
  [("keymap.back", ["c"; "left"]);
   ("keymap.forward", ["v"; "right"]);
   ("keymap.grid", ["g"]);
   ("keymap.grid_minor", ["G"]);
   ("keymap.home", ["h"; "r"]);
   ("keymap.pan", ["p"]);
   ("keymap.quit", ["q"]);
   ("keymap.save", ["s"]);
   ("keymap.xscale", ["k"; "L"]);
   ("keymap.yscale", ["l"])].

(** [l.remove(v)]: the first occurrence goes; [None] is Python's
    ValueError when there is none. *)
Fixpoint list_remove (v : string) (l : list string) : option (list string) :=
  match l with
  | [] => None
  | x :: l' =>
      if String.eqb x v then Some l'
      else match list_remove v l' with
           | Some r => Some (x :: r)
           | None => None
           end
  end.

Section Defs.
Context {E : Type}.

(** [plt.rcParams[key].remove(v)] *)
Definition remove_key (key v : string) : @M E rcParams unit :=
  rc <- get ;;
  match dict_get String.eqb key rc with
  | None => raise KeyError
  | Some l =>
      match list_remove v l with
      | None => raise ValueError
      | Some l' => put (dict_set String.eqb key l' rc)
      end
  end.

(** [try: body except Exception: pass] *)
Definition try_pass {S} (body : @M E S unit) : @M E S unit :=
  fun s =>
    match body s with
    | (Raise _, s', tr) => (Ok tt, s', tr)
    | (Ok a, s', tr) => (Ok a, s', tr)
    end.

Definition _remove_default_keymaps : @M E rcParams unit :=
  for_each assignments (fun item =>
    for_each (snd item) (fun v => try_pass (remove_key (fst item) v))).

End Defs.
End keymaps.

(** ** [_cb_container._clear_temporary_artists] *)

Module artists.

(** The state is the list [self._temporary_artists], artists being known
    by their identity; each [append] on the list that the blit manager
    keeps for the method is a recorded call, labelled with the method.
    The loop runs as long as the list is not empty, and each turn takes
    the last artist off it; the result is the list left behind and the
    calls made. *)
Function _clear_temporary_artists (method : string) (temp : list nat)
  {measure List.length temp} : list nat * list (string * nat) :=
  if (0 <? List.length temp)%nat then
    let art := last temp 0%nat in
    let rest := _clear_temporary_artists method (removelast temp) in
    (fst rest, (method, art) :: snd rest)
  else (temp, []).
Proof.
  intros method temp Hlen. apply Nat.ltb_lt in Hlen.
  destruct temp as [|x temp]; [cbn in Hlen; lia|].
  assert (H : (x :: temp) <> []) by discriminate.
  pose proof (app_removelast_last 0%nat H) as E.
  apply (f_equal (@List.length nat)) in E.
  rewrite length_app in E. cbn [List.length] in *. lia.
Defined.

End artists.

(** ** [_cb_container.__init__] and the [attach] accessor *)

Module construction.

(** A callback class, as far as the containers look at it: its class
    attribute [_cb_list] and the attributes of its instances. *)
Record cb_class : Type := mk_cb_class {
  cls_cb_list : list string;
  cls_attrs : dict string attr
}.

(** What the instance dictionary of the accessor [self.attach] holds: the
    container under [_parent], and for a pre-defined callback
    [partial(self._parent._add_callback, callback=cb)]. *)
Inductive accessor_attr : Type :=
| Parent
| Predefined (cb : string).

(** [setattr(self, name, value)] on the accessor, whose class defines no
    descriptor of its own: [__class__] and [__dict__] refuse a partial
    with TypeError, [__weakref__] is not writable, and any other name goes
    into the instance dictionary. *)
Definition setattr (name : string) (v : accessor_attr)
  (d : dict string accessor_attr) : res (dict string accessor_attr) :=
  if String.eqb name "__class__" || String.eqb name "__dict__"
  then Raise TypeError
  else if String.eqb name "__weakref__" then Raise AttributeError
  else Ok (dict_set String.eqb name v d).

(** The loop of [_attach.__init__] over [_cb_list].  Each turn reads
    [self._parent] twice, for [_add_callback] and for [_cb]: once a
    catalog name has replaced [_parent] by a partial, the next turn raises
    AttributeError, as does [getattr] for a name that is no attribute of
    the callback-class instance. *)
Fixpoint attach_loop (attrs : dict string attr) (catalog : list string)
  (d : dict string accessor_attr) : res (dict string accessor_attr) :=
  match catalog with
  | [] => Ok d
  | cb :: rest =>
      match dict_get String.eqb "_parent" d with
      | Some Parent =>
          if dict_mem String.eqb cb attrs then
            match setattr cb (Predefined cb) d with
            | Ok d' => attach_loop attrs rest d'
            | Raise e => Raise e
            end
          else Raise AttributeError
      | _ => Raise AttributeError
      end
  end.

(** [_attach.__init__(parent)]: the instance dictionary of the accessor. *)
Definition attach_init (attrs : dict string attr) (catalog : list string)
  : res (dict string accessor_attr) :=
  attach_loop attrs catalog [("_parent", Parent)].

(** [_cb_container.__init__(m, cb_class, method)] for a registry that
    starts as [empty]: the container is returned when the accessor could
    be built; the forwarding dictionary is empty and [_event] is not
    set. *)
Definition __init__ {coord R} (empty : R) (cb_cls : cb_class) (method : string)
  : res (container (coord:=coord) R) :=
  match attach_init (cls_attrs cb_cls) (cls_cb_list cb_cls) with
  | Ok _ =>
      Ok (mk_container method (cls_cb_list cb_cls) (cls_attrs cb_cls) empty []
            None)
  | Raise e => Raise e
  end.

Section Defs.
Context {coord : Type}.

(** Calling an instance attribute of the accessor of a click or pick
    container with [double_click], [button] and keyword arguments: the
    partial calls [_add_callback] with the name as [callback]; the
    container itself is not callable. *)
Definition call_attr (a : accessor_attr) (double_click : bool) (button : Z)
  (kw : kwargs) : CM coord click_cbs string :=
  match a with
  | Predefined cb =>
      _click_container._add_callback (CbStr cb) double_click button kw
  | Parent => raise TypeError
  end.

End Defs.
End construction.

(** * Notions used in the statements *)

(** The entry that an identity [name__ds__button] designates. *)
Definition click_lookup (r : click_cbs) (name ds : string) (button : Z)
  : option partial :=
  match dict_get String.eqb ds r with
  | Some dsdict =>
      match dict_get Z.eqb button dsdict with
      | Some bdict => dict_get String.eqb name bdict
      | None => None
      end
  | None => None
  end.

(** The entry that an identity [name__key] designates. *)
Definition keypress_lookup (r : keypress_cbs) (name key : string) : option partial :=
  match dict_get String.eqb key r with
  | Some cbdict => dict_get String.eqb name cbdict
  | None => None
  end.

(** [callback.__name__], for a callback that has one: of a string, the
    name of the method it designates. *)
Definition cb_name (cb : callback) : string :=
  match cb with
  | CbStr s => s
  | CbFunc name => name
  | CbObj _ _ (Some name) => name
  | CbObj _ _ None => EmptyString
  end.

(** [double] or [single], the first level of a click registry. *)
Definition ds_of (double_click : bool) : string :=
  if double_click then "double" else "single".

(** The key [<name>_<count>] of an entry. *)
Definition entry_key (name : string) (count : nat) : string :=
  (name ++ "_" ++ PyStr.str_of_nat count)%string.

(** The base name and the sequence number of a key. *)
Definition base_name (key : string) : string := PyStr.rsplit_head key.

Definition sequence (key : string) : nat :=
  match PyStr.rsplit_tail key with
  | Some t => match PyStr.int_of_str t with Some n => n | None => 0 end
  | None => 0
  end.

(** The number of entries of a bucket that belong to a base name. *)
Definition count_base (name : string) (d : bucket) : nat :=
  List.length (filter (fun k => String.eqb (base_name k) name) (dict_keys d)).

(** [n] is the smallest sequence number not in use for [name] in [d]. *)
Definition smallest_unused (name : string) (d : bucket) (n : nat) : Prop :=
  dict_get String.eqb (entry_key name n) d = None /\
  forall m, m < n -> dict_get String.eqb (entry_key name m) d <> None.

(** Two click registries that hold the same buckets. *)
Definition same_buckets (r r' : click_cbs) : Prop :=
  forall ds b, bucket_of r' ds b = bucket_of r ds b.

(** What reading [cbs[ds]] and [cbs[ds][button]] leaves behind in the
    nested defaultdict: the levels that were missing, empty. *)
Definition touch_ds (ds : string) (r : click_cbs) : click_cbs :=
  match dict_get String.eqb ds r with
  | Some _ => r
  | None => dict_set String.eqb ds [] r
  end.

Definition touch (ds : string) (button : Z) (r : click_cbs) : click_cbs :=
  match dict_get Z.eqb button (dsdict_of r ds) with
  | Some _ => touch_ds ds r
  | None => set_bucket ds button [] (touch_ds ds r)
  end.

Definition touch_key (key : string) (r : keypress_cbs) : keypress_cbs :=
  match dict_get String.eqb key r with
  | Some _ => r
  | None => dict_set String.eqb key [] r
  end.

(** The callback is one that [_add_callback] can attach: a string that
    names a method of the callback class, a function or a bound method,
    or another object that is callable, can be rebound and has a
    [__name__]. *)
Definition resolves {coord R} (c : container (coord:=coord) R) (cb : callback)
  : bool :=
  match cb with
  | CbStr s =>
      match dict_get String.eqb s (_cb c) with
      | Some Method => true
      | _ => false
      end
  | CbFunc _ => true
  | CbObj is_callable has_get (Some _) => is_callable && has_get
  | CbObj _ _ None => false
  end.

(** What the first lines of [_add_callback] make of the callback. *)
Definition resolve_outcome {coord R} (c : container (coord:=coord) R)
  (cb : callback) : res resolved :=
  match cb with
  | CbStr s =>
      if hasattr c s then Ok (getattr_cb c s)
      else Raise (AssertionError (UnknownCallback s))
  | CbFunc name => Ok (mk_resolved true (Some name))
  | CbObj true true name => Ok (mk_resolved true name)
  | CbObj true false _ => Raise AttributeError
  | CbObj false _ name => Ok (mk_resolved false name)
  end.

(** How a callback that cannot be attached is turned down, given the
    state [touched] that reading the bucket leaves behind and its keys:
    an unknown name fails the assertion and a callable that cannot be
    rebound raises AttributeError, both before the bucket is read; an
    object without [__name__] raises AttributeError after it; an object
    that has a name but is not callable gets as far as [partial], which
    raises TypeError. *)
Definition turned_down {coord R} (cb : callback) (multi : bool)
  (keys : list string) (c touched : container (coord:=coord) R)
  : res string * container (coord:=coord) R * list (call coord) :=
  match cb with
  | CbStr s =>
      if hasattr c s then (Raise AttributeError, touched, [])
      else (Raise (AssertionError (UnknownCallback s)), c, [])
  | CbFunc _ => (Raise AttributeError, touched, [])
  | CbObj true false _ => (Raise AttributeError, c, [])
  | CbObj _ _ None => (Raise AttributeError, touched, [])
  | CbObj _ _ (Some name) =>
      match ncb_of name keys with
      | Raise e => (Raise e, touched, [])
      | Ok ncb =>
          if negb multi && negb (List.length ncb =? 0)%nat
          then (Raise (AssertionError (MultipleAssignment name)), touched, [])
          else (Raise TypeError, touched, [])
      end
  end.

(** The identity returned for an entry of a click or pick bucket, and of a
    keypress bucket. *)
Definition click_identity (name : string) (count : nat) (ds : string) (button : Z)
  : string :=
  (entry_key name count ++ "__" ++ ds ++ "__" ++ PyStr.str_of_Z button)%string.

Definition keypress_identity (name : string) (count : nat) (key : string) : string :=
  (entry_key name count ++ "__" ++ key)%string.

(** The outcome of [_click_container._add_callback], case by case. *)
Definition click_attach_outcome {coord : Type} (cb : callback) (dbl : bool)
  (button : Z) (kw : kwargs) (c : container click_cbs)
  : res string * container click_cbs * list (call coord) :=
  let name := cb_name cb in
  let ds := ds_of dbl in
  let d := bucket_of (cbs c) ds button in
  let r1 := touch ds button (cbs c) in
  if forallb (fun i => dict_mem String.eqb i kw) _click_container.reserved
  then (Raise (AssertionError ReservedKeyword), c, [])
  else if negb (resolves c cb)
  then turned_down cb
         (existsb (String.eqb name) _click_container.multi_cb_functions)
         (dict_keys d) c (set_cbs r1 c)
  else
    match ncb_of name (dict_keys d) with
    | Raise e => (Raise e, set_cbs r1 c, [])
    | Ok ncb =>
        if negb (existsb (String.eqb name) _click_container.multi_cb_functions)
           && negb (List.length ncb =? 0)%nat
        then (Raise (AssertionError (MultipleAssignment name)), set_cbs r1 c, [])
        else
          (Ok (click_identity name (next_count ncb) ds button),
           set_cbs (set_bucket ds button
                      (d ++ [(entry_key name (next_count ncb), mk_partial name kw)])
                      r1) c,
           [])
    end.

(** The outcome of [keypress_container._add_callback], case by case. *)
Definition keypress_attach_outcome {coord : Type} (cb : callback) (key : string)
  (kw : kwargs) (c : container keypress_cbs)
  : res string * container keypress_cbs * list (call coord) :=
  let name := cb_name cb in
  let d := key_bucket_of (cbs c) key in
  if negb (resolves c cb)
  then turned_down cb true (dict_keys d) c (set_cbs (touch_key key (cbs c)) c)
  else
    match ncb_of name (dict_keys d) with
    | Raise e => (Raise e, set_cbs (touch_key key (cbs c)) c, [])
    | Ok ncb =>
        (Ok (keypress_identity name (next_count ncb) key),
         set_cbs (dict_set String.eqb key
                    (d ++ [(entry_key name (next_count ncb), mk_partial name kw)])
                    (cbs c)) c,
         [])
    end.

(** The state a computation leaves behind. *)
Definition state_of {E S A} (x : res A * S * list E) : S := snd (fst x).

(** The calls that change a click or pick container: attaching,
    removing, a dispatch cycle storing its event and reading [cbs[ds]],
    and forwarding set up with other Maps objects. *)
Inductive op (coord : Type) : Type :=
| Attach (cb : callback) (double_click : bool) (button : Z) (kw : kwargs)
| Remove (ID : option string)
| Store (e : event coord)
| Read (ds : string)
| Forward (args : list nat).

Arguments op {coord}.
Arguments Attach {coord}.
Arguments Remove {coord}.
Arguments Store {coord}.
Arguments Read {coord}.
Arguments Forward {coord}.

Definition run_op {coord : Type} (o : op) (c : container click_cbs)
  : container click_cbs :=
  match o with
  | Attach cb dbl button kw =>
      state_of (_click_container._add_callback (coord:=coord) cb dbl button kw c)
  | Remove ID => state_of (_click_container.remove (coord:=coord) ID c)
  | Store e => set_event e c
  | Read ds => state_of (cbs_ds (coord:=coord) ds c)
  | Forward args => state_of (forward_events (coord:=coord) args c)
  end.

Definition run_ops {coord : Type} (ops : list op) (c : container click_cbs)
  : container click_cbs :=
  fold_left (fun c o => run_op (coord:=coord) o c) ops c.

(** * The ordering policy, as the statements phrase it *)

(** The position of a name in a list; the length of the list when the
    name is not in it. *)
Fixpoint position (x : string) (l : list string) : nat :=
  match l with
  | [] => 0
  | y :: l' => if String.eqb x y then 0 else S (position x l')
  end.

(** [k1] runs before [k2]: its base name comes first in the extended list
    [ext], or both have the same base name and [k1] has the smaller
    sequence number. *)
Definition policy_before (ext : list string) (k1 k2 : string) : Prop :=
  position (base_name k1) ext < position (base_name k2) ext \/
  (base_name k1 = base_name k2 /\ sequence k1 < sequence k2).

(** [order] lists the keys of bucket [d], each once, sorted by the
    position of the base name in the catalog extended with the base names
    that are not in the catalog, ties broken by ascending sequence
    number. *)
Definition in_policy_order (cb_list : list string) (d : bucket)
  (order : list string) : Prop :=
  Permutation order (dict_keys d) /\
  exists others,
    (forall n, In n others <->
               ~ In n cb_list /\ exists k, In k (dict_keys d) /\ base_name k = n) /\
    StronglySorted (policy_before (cb_list ++ others)) order.

(** Within a bucket, the entries of one base name are stored in ascending
    order of their sequence numbers. *)
Definition seq_before (k1 k2 : string) : Prop :=
  base_name k1 = base_name k2 -> sequence k1 < sequence k2.

Definition bucket_inv (d : bucket) : Prop :=
  StronglySorted seq_before (dict_keys d).

Definition registry_inv (r : click_cbs) : Prop :=
  forall ds b, bucket_inv (bucket_of r ds b).

(** The calls [cb(clickdict)] of one dispatch cycle over bucket [d], in
    the order [order]. *)
Definition invoke_all {coord : Type} (method : string) (d : bucket)
  (kw : cb_kwargs coord) (order : list string) : list (call coord) :=
  flat_map (fun key =>
              match dict_get String.eqb key d with
              | Some cb => [Invoke method key cb kw]
              | None => []
              end) order.

(** The bucket a click or pick event of the given arity and button is
    dispatched to. *)
Definition matching_bucket (r : click_cbs) (dbl : bool) (button : option Z)
  : bucket :=
  match button with
  | Some b => bucket_of r (ds_of dbl) b
  | None => []
  end.

(** The redraw that follows the entries of a pick dispatch cycle. *)
Definition pick_redraw {coord : Type} (c : container (coord:=coord) click_cbs)
  (dbl : bool) (button : option Z) : list (call coord) :=
  match button with
  | Some b =>
      match dict_get Z.eqb b (dsdict_of (cbs c) (ds_of dbl)) with
      | Some _ => [BM_update (_method c) (Some false)]
      | None => []
      end
  | None => []
  end.

(** Smaller sort key first; with equal keys, the order [R] of the input. *)
Definition key_then {A} (R : A -> A -> Prop) (x y : nat * A) : Prop :=
  fst x < fst y \/ (fst x = fst y /\ R (snd x) (snd y)).

(** The keys of the entries executed by a list of calls. *)
Definition invoked_keys {coord : Type} (tr : list (call coord)) : list string :=
  flat_map (fun e => match e with Invoke _ key _ _ => [key] | _ => [] end) tr.

(** The list that [_sort_cbs] returns. *)
Definition sort_order {coord crs : Type} {RT : Runtime coord crs}
  (cb_list : list string) (d : bucket) : list string :=
  match d with
  | [] => []
  | _ :: _ =>
      let sortp :=
        cb_list ++ set_to_list (sym_diff cb_list (map base_name (dict_keys d))) in
      map snd (sorted (map (fun w => (position (base_name w) sortp, w))
                         (dict_keys d)))
  end.

(** The keys of the entries of Maps object [i] executed by a list of calls
    of the process. *)
Definition invoked_on {coord : Type} (i : nat) (tr : list (nat * call coord))
  : list string :=
  invoked_keys (map snd (filter (fun e => Nat.eqb (fst e) i) tr)).

(** A Maps object that differs from [m] at most in the registry and the
    forwarding dictionary of its click container. *)
Definition click_variant {coord crs : Type} (m m' : Maps coord crs) : Prop :=
  m' = set_cb_click
         (set_fwd_cbs (_fwd_cbs (cb_click m'))
            (set_cbs (cbs (cb_click m')) (cb_click m))) m.

(** A Maps object that differs from [m] at most in the registry, the
    forwarding dictionary and the last event of its click container. *)
Definition click_touched {coord crs : Type} (m m' : Maps coord crs) : Prop :=
  exists e,
    m' = set_cb_click
           (mk_container (_method (cb_click m)) (_cb_list (cb_click m))
              (_cb (cb_click m)) (cbs (cb_click m')) (_fwd_cbs (cb_click m')) e)
           m.

(** How [share_events] on the click containers of the Maps objects [S]
    may change the process: only forwarding dictionaries grow, by members
    of [S] other than the owner, and their keys stay unique. *)
Definition shares {coord crs : Type} (S : list nat) (w w' : world coord crs)
  : Prop :=
  forall i,
    click_variant (w i) (w' i) /\
    cbs (cb_click (w' i)) = cbs (cb_click (w i)) /\
    (forall x, In x (_fwd_cbs (cb_click (w i))) -> In x (_fwd_cbs (cb_click (w' i)))) /\
    (forall x, In x (_fwd_cbs (cb_click (w' i))) ->
               In x (_fwd_cbs (cb_click (w i))) \/ (In i S /\ In x S /\ x <> i)) /\
    (NoDup (_fwd_cbs (cb_click (w i))) -> NoDup (_fwd_cbs (cb_click (w' i)))).

(** The order in which a dispatch cycle for [event] runs the entries of a
    Maps object. *)
Definition click_order {coord crs : Type} {RT : Runtime coord crs}
  (m : Maps coord crs) (dbl : bool) (button : option Z)
  : list string :=
  sort_order (_cb_list (cb_click m)) (matching_bucket (cbs (cb_click m)) dbl button).

(** * Concrete containers and Maps objects

    A click container and a keypress container as [cb_container.__init__]
    builds them, over callback classes that offer the pre-defined
    callbacks named in the docstrings of the source as methods, cleanup
    hooks for [mark] and [annotate], and the catalog itself as the
    attribute [_cb_list]. *)

Module Example.

Definition click_catalog : list string :=
  ["annotate"; "mark"; "plot"; "print_to_console"; "get_values"; "load";
   "clear_annotations"; "clear_markers"].

Definition methods (names : list string) : dict string attr :=
  map (fun name => (name, Method)) names.

Definition click_attrs : dict string attr :=
  methods (click_catalog ++ ["_mark_cleanup"; "_annotate_cleanup"])
  ++ [("_cb_list", Value)].

Definition click0 : container (coord:=Z) click_cbs :=
  mk_container "click" click_catalog click_attrs [] [] None.

Definition pick0 : container (coord:=Z) click_cbs :=
  mk_container "pick" click_catalog click_attrs [] [] None.

Definition keypress0 : container (coord:=Z) keypress_cbs :=
  mk_container "keypress" ["switch_layer"]
    (methods ["switch_layer"] ++ [("_cb_list", Value)]) [] [] None.

(** [mark] attached twice to single click, button 1, then the first
    attachment removed. *)
Definition marks_after_removal : container click_cbs :=
  state_of
    ((_click_container._add_callback (coord:=Z) (CbStr "mark") false 1 [] ;;;
      _click_container._add_callback (CbStr "mark") false 1 [] ;;;
      _click_container.remove (Some "mark_0__single__1")) click0).

(** A custom callback and [switch_layer] attached, in this order, to the
    key [a]. *)
Definition keys_attached : container keypress_cbs :=
  state_of
    ((keypress_container._add_callback (coord:=Z) (CbFunc "show_help") "a" [] ;;;
      keypress_container._add_callback (CbStr "switch_layer") "a" []) keypress0).

(** A runtime for the examples: a set is iterated in the order of first
    occurrence, a projection is a false easting and the reprojection
    shifts by the difference, and no Maps object has a data point near
    the pointer. *)
Definition runtime : Runtime Z Z :=
  mk_Runtime Z Z
    (nodup string_dec)
    (fun crs_from crs_to xy => ((fst xy - crs_from + crs_to)%Z, snd xy))
    (fun _ _ _ => None).

(** A custom callback, [mark] twice and [clear_markers] attached to single
    click, button 1. *)
Definition attach_four : list (op (coord:=Z)) :=
  [Attach (CbFunc "zoom_to") false 1 [];
   Attach (CbStr "mark") false 1 [];
   Attach (CbStr "mark") false 1 [];
   Attach (CbStr "clear_markers") false 1 []].

(** A Maps object with the given identity, projection and containers, one
    plotted collection with two data points, figure and drag mode idle. *)
Definition maps (i : nat) (crs : Z) (click pick : container click_cbs)
  (keypress : container keypress_cbs) : Maps Z Z :=
  mk_Maps crs i (Some i) (Some EmptyString) false [10; 20]%Z [30; 40]%Z
    [PyInt 7; PyInt 8] [PyStr "a"; PyStr "b"] [] click pick keypress.

(** A single click with button 1 at (5, 6) in the axes of Maps object 0,
    and the pick event of that click on the collection of Maps object 0,
    data point 1. *)
Definition click_event : mouse_event Z :=
  mk_mouse_event (Some 0) false (Some 1%Z) 5%Z 6%Z.

Definition pick_event0 : pick_event Z :=
  mk_pick_event (Some 0) false (Some 1%Z) (Some 1) (Some click_event).

(** Containers with one attachment each. *)
Definition click_marked : container click_cbs :=
  run_ops (coord:=Z) [Attach (CbStr "mark") false 1 []] click0.

Definition pick_annotated : container click_cbs :=
  run_ops (coord:=Z) [Attach (CbStr "annotate") false 1 []] pick0.

Definition key_switched : container keypress_cbs :=
  state_of (keypress_container._add_callback (coord:=Z) (CbStr "switch_layer")
              "a" [("layer", PyInt 1)] keypress0).

(** Two Maps objects on figures of their own: object 0 in the projection
    with false easting 0, object 1 in the one with false easting 100, each
    with the three attachments above; every other address holds an
    object without attachments. *)
Definition two_maps : world Z Z :=
  fun i =>
    match i with
    | 0 => maps 0 0 click_marked pick_annotated key_switched
    | 1 => maps 1 100 click_marked pick_annotated key_switched
    | _ => maps i 0 click0 pick0 keypress0
    end.

(** The same after [m0.cb.click.forward_events(m1)] and
    [m0.cb.pick.forward_events(m1)]. *)
Definition forwarding : world Z Z :=
  world_set 0
    (set_cb_pick (set_fwd_cbs [1] pick_annotated)
       (set_cb_click (set_fwd_cbs [1] click_marked) (two_maps 0)))
    two_maps.

End Example.

(** * Notions used in the further properties *)

(** Whether a text holds two underscores in a row, the separator of the
    parts of an identity. *)
Fixpoint has_dunder (s : string) : bool :=
  match s with
  | EmptyString => false
  | String c rest =>
      match rest with
      | String c' _ =>
          (Ascii.eqb c PyStr.underscore && Ascii.eqb c' PyStr.underscore)
          || has_dunder rest
      | EmptyString => false
      end
  end.

(** A callback name that [ID.split("__")] gives back in one piece from an
    identity: it holds no double underscore and does not end with an
    underscore. *)
Definition plain_name (name : string) : bool := negb (has_dunder (name ++ "_")).

(** The number of parts that [s.split("__")] returns. *)
Definition parts (s : string) : nat := List.length (PyStr.split_dunder s).

(** The calls that follow a deletion in [remove]: the cleanup hook of the
    callback class, when it has one for the base name of the entry, then
    the message. *)
Definition removal_calls {coord R : Type} (c : container (coord:=coord) R)
  (name ID : string) : list (call coord) :=
  (if hasattr c ("_" ++ base_name name ++ "_cleanup")
   then [Cleanup ("_" ++ base_name name ++ "_cleanup")] else [])
  ++ [Print ("Removed the " ++ _method c ++ " callback: '" ++ ID ++ "'.")].

(** The outcome of [_click_container.remove] with an identity, case by
    case. *)
Definition click_remove_outcome {coord : Type} (ID : string)
  (c : container click_cbs) : res unit * container click_cbs * list (call coord) :=
  match PyStr.split_dunder ID with
  | [name; ds; b] =>
      match dict_get String.eqb ds (cbs c) with
      | None => (Ok tt, c, [])
      | Some dsdict =>
          match PyStr.Z_of_str b with
          | None => (Raise ValueError, c, [])
          | Some button =>
              match dict_get Z.eqb button dsdict with
              | None => (Ok tt, c, [])
              | Some bdict =>
                  if dict_mem String.eqb name bdict
                  then (Ok tt,
                        set_cbs (set_bucket ds button
                                   (dict_del String.eqb name bdict) (cbs c)) c,
                        removal_calls c name ID)
                  else (Ok tt, c, [])
              end
          end
      end
  | _ => (Raise ValueError, c, [])
  end.

(** The outcome of [keypress_container.remove] with an identity. *)
Definition keypress_remove_outcome {coord : Type} (ID : string)
  (c : container keypress_cbs)
  : res unit * container keypress_cbs * list (call coord) :=
  match PyStr.split_dunder ID with
  | [name; key] =>
      match dict_get String.eqb key (cbs c) with
      | None => (Ok tt, c, [])
      | Some cbdict =>
          if dict_mem String.eqb name cbdict
          then (Ok tt,
                set_cbs (dict_set String.eqb key
                           (dict_del String.eqb name cbdict) (cbs c)) c,
                removal_calls c name ID)
          else (Ok tt, c, [])
      end
  | _ => (Raise ValueError, c, [])
  end.

(** Every key of the bucket has the form [<name>_<count>] that
    [_add_callback] gives it. *)
Definition keys_formed (d : bucket) : Prop :=
  Forall (fun k => exists name n, k = entry_key name n) (dict_keys d).

(** Three Maps objects on figures of their own, each with [mark] attached
    to single click, button 1: object 0 forwards its clicks to object 1,
    and object 1 forwards its clicks to object 2. *)
Module Chain.

Definition maps3 : world Z Z :=
  fun i =>
    match i with
    | 0 => Example.maps 0 0 (set_fwd_cbs [1] Example.click_marked)
             Example.pick0 Example.keypress0
    | 1 => Example.maps 1 100 (set_fwd_cbs [2] Example.click_marked)
             Example.pick0 Example.keypress0
    | 2 => Example.maps 2 200 Example.click_marked Example.pick0 Example.keypress0
    | _ => Example.maps i 0 Example.click0 Example.pick0 Example.keypress0
    end.

End Chain.

(** The keys that [_remove_default_keymaps] takes off a keymap setting. *)
Definition assigned (key : string) : list string :=
  match dict_get String.eqb key keymaps.assignments with
  | Some vs => vs
  | None => []
  end.

(** A list without the first occurrence of [v], if it has one. *)
Definition remove_first (v : string) (l : list string) : list string :=
  match keymaps.list_remove v l with
  | Some l' => l'
  | None => l
  end.

(** A setting of [rcParams] changed by [f], when it is there. *)
Definition update (key : string) (f : list string -> list string)
  (rc : keymaps.rcParams) : keymaps.rcParams :=
  match dict_get String.eqb key rc with
  | Some l => dict_set String.eqb key (f l) rc
  | None => rc
  end.

(** No key occurs twice in the list. *)
Fixpoint distinct {K} (keq : K -> K -> bool) (l : list K) : bool :=
  match l with
  | [] => true
  | x :: l' => negb (existsb (keq x) l') && distinct keq l'
  end.

(** A click or pick registry as the defaultdict keeps it, whose
    identities [remove] can take apart again: the keys of every level are
    distinct, and the key of every entry and its single-or-double level
    are plain. *)
Definition click_registry_plain (r : click_cbs) : bool :=
  distinct String.eqb (dict_keys r) &&
  forallb (fun dsd =>
    distinct Z.eqb (dict_keys (snd dsd)) &&
    forallb (fun bd =>
      forallb (fun name => plain_name name && plain_name (fst dsd))
        (dict_keys (snd bd)))
      (snd dsd)) r.

(** The same for a keypress registry: distinct keys, plain entry keys and
    no double underscore in a key of the keyboard. *)
Definition keypress_registry_plain (r : keypress_cbs) : bool :=
  distinct String.eqb (dict_keys r) &&
  forallb (fun kd =>
    forallb (fun name => plain_name name && negb (has_dunder (fst kd)))
      (dict_keys (snd kd))) r.

(** A call made while removing: a cleanup hook or a message. *)
Definition removal_call {coord : Type} (e : call coord) : Prop :=
  exists s, e = Cleanup s \/ e = Print s.

(** A container that differs from [c] in its registry only, with the
    levels of [c] and, in every bucket, keys of the bucket of [c]. *)
Definition shrinks {coord : Type} (c c' : container (coord:=coord) click_cbs)
  : Prop :=
  c' = set_cbs (cbs c') c /\
  dict_keys (cbs c') = dict_keys (cbs c) /\
  (forall ds, dict_keys (dsdict_of (cbs c') ds) = dict_keys (dsdict_of (cbs c) ds)) /\
  (forall ds b, incl (dict_keys (bucket_of (cbs c') ds b))
                     (dict_keys (bucket_of (cbs c) ds b))).

Definition key_shrinks {coord : Type}
  (c c' : container (coord:=coord) keypress_cbs) : Prop :=
  c' = set_cbs (cbs c') c /\
  dict_keys (cbs c') = dict_keys (cbs c) /\
  (forall key, incl (dict_keys (key_bucket_of (cbs c') key))
                    (dict_keys (key_bucket_of (cbs c) key))).

(** The identity designates no entry of the registry. *)
Definition gone {coord : Type} (ID : string)
  (c : container (coord:=coord) click_cbs) : Prop :=
  match PyStr.split_dunder ID with
  | [name; ds; b] =>
      match PyStr.Z_of_str b with
      | Some button => click_lookup (cbs c) name ds button = None
      | None => True
      end
  | _ => True
  end.

Definition key_gone {coord : Type} (ID : string)
  (c : container (coord:=coord) keypress_cbs) : Prop :=
  match PyStr.split_dunder ID with
  | [name; key] => keypress_lookup (cbs c) name key = None
  | _ => True
  end.

(** A runtime in which the picker of every Maps object finds its first
    data point, sets are iterated in the order of first occurrence and
    reprojection leaves a position as it is. *)
Module Picking.

Definition runtime : Runtime Z Z :=
  mk_Runtime Z Z (nodup string_dec) (fun _ _ xy => xy) (fun _ _ _ => Some 0%nat).

End Picking.

(** * Properties *)

(** ** Dictionaries *)

Section DictFacts.
Context {K V : Type}.
Variable keq : K -> K -> bool.
Hypothesis keq_eq : forall a b, keq a b = true <-> a = b.

Lemma keq_refl (k : K) : keq k k = true.
Proof. apply keq_eq; reflexivity. Qed.

Lemma keq_neq (a b : K) : a <> b -> keq a b = false.
Proof.
  intros H. destruct (keq a b) eqn:E; [|reflexivity].
  apply keq_eq in E. contradiction.
Qed.

Lemma dict_get_set_same (k : K) (v : V) (d : dict K V) :
  dict_get keq k (dict_set keq k v d) = Some v.
Proof.
  induction d as [|[k' v'] d IH]; simpl.
  - now rewrite keq_refl.
  - destruct (keq k k') eqn:E; simpl; rewrite E; auto.
Qed.

Lemma dict_get_set_other (k k' : K) (v : V) (d : dict K V) :
  k <> k' -> dict_get keq k' (dict_set keq k v d) = dict_get keq k' d.
Proof.
  intros Hne. induction d as [|[k0 v0] d IH]; simpl.
  - rewrite keq_neq; auto.
  - destruct (keq k k0) eqn:E; simpl.
    + apply keq_eq in E; subst k0. rewrite !keq_neq; auto.
    + now rewrite IH.
Qed.

Lemma dict_set_same_value (k : K) (v : V) (d : dict K V) :
  dict_get keq k d = Some v -> dict_set keq k v d = d.
Proof.
  induction d as [|[k' v'] d IH]; simpl; [discriminate|].
  destruct (keq k k') eqn:E.
  - now intros [= ->].
  - intros H. now rewrite IH.
Qed.

Lemma dict_set_absent (k : K) (v : V) (d : dict K V) :
  dict_get keq k d = None -> dict_set keq k v d = d ++ [(k, v)].
Proof.
  induction d as [|[k' v'] d IH]; simpl; [reflexivity|].
  destruct (keq k k'); [discriminate|].
  intros H. now rewrite IH.
Qed.

Lemma dict_set_set (k : K) (v v' : V) (d : dict K V) :
  dict_set keq k v (dict_set keq k v' d) = dict_set keq k v d.
Proof.
  induction d as [|[k0 v0] d IH]; simpl.
  - now rewrite keq_refl.
  - destruct (keq k k0) eqn:E; simpl; rewrite E; [reflexivity|now rewrite IH].
Qed.

Lemma dict_get_del_same (k : K) (d : dict K V) :
  dict_get keq k (dict_del keq k d) = None.
Proof.
  induction d as [|[k' v'] d IH]; simpl; [reflexivity|].
  destruct (keq k k') eqn:E; simpl; [assumption|].
  now rewrite E.
Qed.

Lemma dict_del_absent (k : K) (d : dict K V) :
  dict_get keq k d = None -> dict_del keq k d = d.
Proof.
  induction d as [|[k' v'] d IH]; simpl; [reflexivity|].
  destruct (keq k k') eqn:E; simpl; [discriminate|].
  intros H. f_equal. now apply IH.
Qed.

Lemma dict_get_in_keys (k : K) (d : dict K V) (v : V) :
  dict_get keq k d = Some v -> In k (dict_keys d).
Proof.
  induction d as [|[k' v'] d IH]; simpl; [discriminate|].
  destruct (keq k k') eqn:E.
  - apply keq_eq in E. auto.
  - auto.
Qed.

Lemma dict_get_not_in_keys (k : K) (d : dict K V) :
  dict_get keq k d = None -> ~ In k (dict_keys d).
Proof.
  induction d as [|[k' v'] d IH]; simpl; [tauto|].
  destruct (keq k k') eqn:E; [discriminate|].
  intros H [Heq | Hin].
  - subst. rewrite keq_refl in E. discriminate.
  - now apply IH.
Qed.

Lemma in_keys_dict_get (k : K) (d : dict K V) :
  In k (dict_keys d) -> exists v, dict_get keq k d = Some v.
Proof.
  intros Hin. destruct (dict_get keq k d) eqn:E; eauto.
  apply dict_get_not_in_keys in E. contradiction.
Qed.

Lemma dict_keys_del (k : K) (d : dict K V) :
  dict_keys (dict_del keq k d) = filter (fun k' => negb (keq k k')) (dict_keys d).
Proof.
  induction d as [|[k' v'] d IH]; simpl; [reflexivity|].
  destruct (keq k k'); simpl; [|f_equal]; apply IH.
Qed.

End DictFacts.

Lemma string_eqb_eq (a b : string) : String.eqb a b = true <-> a = b.
Proof. apply String.eqb_eq. Qed.

Lemma Z_eqb_eq (a b : Z) : Z.eqb a b = true <-> a = b.
Proof. apply Z.eqb_eq. Qed.

(** ** Identity strings *)

Lemma split_dunder_not_nil (s : string) : PyStr.split_dunder s <> [].
Proof.
  destruct s as [|c rest]; simpl; [discriminate|].
  destruct rest as [|c' rest'].
  - simpl. discriminate.
  - destruct (Ascii.eqb c PyStr.underscore && Ascii.eqb c' PyStr.underscore);
      [discriminate|].
    destruct (PyStr.split_dunder (String c' rest')); discriminate.
Qed.

Lemma concat_cons (sep x : string) (l : list string) :
  l <> [] -> String.concat sep (x :: l) = (x ++ sep ++ String.concat sep l)%string.
Proof. destruct l; [congruence|reflexivity]. Qed.

(** Joining the parts of [ID.split("__")] with the separator gives [ID]
    back. *)
Lemma split_dunder_join (s : string) :
  String.concat "__" (PyStr.split_dunder s) = s.
Proof.
  remember (String.length s) as n eqn:Hn.
  revert s Hn. induction n as [n IH] using lt_wf_ind. intros s Hn.
  destruct s as [|c rest]; [reflexivity|].
  assert (Hkeep :
    String.concat "__"
      match PyStr.split_dunder rest with
      | hd :: tl => String c hd :: tl
      | [] => [String c EmptyString]
      end = String c rest).
  { pose proof (IH (String.length rest) ltac:(subst n; simpl; lia) rest eq_refl)
      as Hrest.
    pose proof (split_dunder_not_nil rest) as Hne.
    destruct (PyStr.split_dunder rest) as [|hd tl]; [congruence|].
    destruct tl as [|x tl].
    - simpl in *. now rewrite Hrest.
    - change (String.concat "__" (String c hd :: x :: tl))
        with (String c (String.concat "__" (hd :: x :: tl))).
      now rewrite Hrest. }
  destruct rest as [|c' rest']; [exact Hkeep|].
  cbn [PyStr.split_dunder]. cbn [PyStr.split_dunder] in Hkeep.
  destruct (Ascii.eqb c PyStr.underscore && Ascii.eqb c' PyStr.underscore) eqn:E;
    [|exact Hkeep].
  apply andb_true_iff in E as [Ec Ec'].
  apply Ascii.eqb_eq in Ec, Ec'. subst c c'.
  rewrite concat_cons by apply split_dunder_not_nil.
  rewrite (IH (String.length rest') ltac:(subst n; simpl; lia) rest' eq_refl).
  reflexivity.
Qed.

Lemma dict_get_in {K V} (keq : K -> K -> bool)
  (keq_eq : forall a b, keq a b = true <-> a = b) (k : K) (d : dict K V) (v : V) :
  dict_get keq k d = Some v -> In (k, v) d.
Proof.
  induction d as [|[k' v'] d IH]; simpl; [discriminate|].
  destruct (keq k k') eqn:E.
  - apply keq_eq in E. subst. intros [= ->]. now left.
  - auto.
Qed.

(** An identity that designates an entry is among the attached callbacks,
    provided its button is written the way [attached_callbacks] writes
    it. *)
Lemma click_lookup_attached (r : click_cbs) (ID name ds : string) (button : Z)
  (v : partial) :
  PyStr.split_dunder ID = [name; ds; PyStr.str_of_Z button] ->
  click_lookup r name ds button = Some v ->
  In ID (_click_container.attached_callbacks r).
Proof.
  intros Hs Hl. unfold click_lookup in Hl.
  destruct (dict_get String.eqb ds r) as [dsdict|] eqn:Hds; [|discriminate].
  destruct (dict_get Z.eqb button dsdict) as [bdict|] eqn:Hb; [|discriminate].
  apply (dict_get_in String.eqb string_eqb_eq) in Hds.
  apply (dict_get_in Z.eqb Z_eqb_eq) in Hb.
  apply (dict_get_in_keys String.eqb string_eqb_eq) in Hl.
  unfold _click_container.attached_callbacks.
  apply in_flat_map. exists (ds, dsdict). split; [assumption|].
  apply in_flat_map. exists (button, bdict). split; [assumption|].
  apply in_map_iff. exists name. split; [|assumption].
  cbn [fst snd]. rewrite <- (split_dunder_join ID), Hs. reflexivity.
Qed.

Lemma keypress_lookup_attached (r : keypress_cbs) (ID name key : string)
  (v : partial) :
  PyStr.split_dunder ID = [name; key] ->
  keypress_lookup r name key = Some v ->
  In ID (keypress_container.attached_callbacks r).
Proof.
  intros Hs Hl. unfold keypress_lookup in Hl.
  destruct (dict_get String.eqb key r) as [cbdict|] eqn:Hk; [|discriminate].
  apply (dict_get_in String.eqb string_eqb_eq) in Hk.
  apply (dict_get_in_keys String.eqb string_eqb_eq) in Hl.
  unfold keypress_container.attached_callbacks.
  apply in_flat_map. exists (key, cbdict). split; [assumption|].
  apply in_map_iff. exists name. split; [|assumption].
  cbn [fst snd]. rewrite <- (split_dunder_join ID), Hs. reflexivity.
Qed.

(** ** Removal *)

Ltac run_monad :=
  cbv beta iota delta
    [bind ret raise get put modify emit lift_res assert_ zoom at_obj at_maps
     _click_container.unpack3 keypress_container.unpack2 after_removal
     _click_container.cbs_at _click_container.bucket_set cbs_ds resolve
     keypress_container.cbs_key].

Section RemoveFacts.
Context {coord : Type}.

Lemma click_remove_present (c : container click_cbs) (ID name ds b : string)
  (button : Z) (dsdict : dict Z bucket) (bdict : bucket) (v : partial) :
  PyStr.split_dunder ID = [name; ds; b] ->
  PyStr.Z_of_str b = Some button ->
  dict_get String.eqb ds (cbs c) = Some dsdict ->
  dict_get Z.eqb button dsdict = Some bdict ->
  dict_get String.eqb name bdict = Some v ->
  exists tr,
    _click_container.remove (coord:=coord) (Some ID) c =
      (Ok tt,
       set_cbs (set_bucket ds button (dict_del String.eqb name bdict) (cbs c)) c,
       tr).
Proof.
  intros Hs Hb Hds Hbt Hn.
  unfold _click_container.remove. run_monad. rewrite Hs. cbv beta iota.
  rewrite Hds, Hb, Hbt. unfold dict_mem. rewrite Hn.
  match goal with |- context [hasattr ?x ?y] => destruct (hasattr x y) end;
    cbv beta iota; eauto.
Qed.

Lemma click_remove_absent (c : container click_cbs) (ID name ds b : string)
  (button : Z) :
  PyStr.split_dunder ID = [name; ds; b] ->
  PyStr.Z_of_str b = Some button ->
  click_lookup (cbs c) name ds button = None ->
  _click_container.remove (coord:=coord) (Some ID) c = (Ok tt, c, []).
Proof.
  intros Hs Hb Hl. unfold click_lookup in Hl.
  unfold _click_container.remove. run_monad. rewrite Hs. cbv beta iota.
  destruct (dict_get String.eqb ds (cbs c)) as [dsdict|]; [|reflexivity].
  rewrite Hb.
  destruct (dict_get Z.eqb button dsdict) as [bdict|]; [|reflexivity].
  unfold dict_mem. now rewrite Hl.
Qed.

Lemma keypress_remove_present (c : container keypress_cbs) (ID name key : string)
  (cbdict : bucket) (v : partial) :
  PyStr.split_dunder ID = [name; key] ->
  dict_get String.eqb key (cbs c) = Some cbdict ->
  dict_get String.eqb name cbdict = Some v ->
  exists tr,
    keypress_container.remove (coord:=coord) (Some ID) c =
      (Ok tt,
       set_cbs (dict_set String.eqb key (dict_del String.eqb name cbdict) (cbs c)) c,
       tr).
Proof.
  intros Hs Hk Hn.
  unfold keypress_container.remove. run_monad. rewrite Hs. cbv beta iota.
  rewrite Hk. unfold dict_mem. rewrite Hn.
  match goal with |- context [hasattr ?x ?y] => destruct (hasattr x y) end;
    cbv beta iota; eauto.
Qed.


Lemma click_lookup_after_remove (r : click_cbs) (name ds : string) (button : Z)
  (bdict : bucket) :
  click_lookup (set_bucket ds button (dict_del String.eqb name bdict) r)
    name ds button = None.
Proof.
  unfold click_lookup, set_bucket.
  rewrite (dict_get_set_same String.eqb string_eqb_eq).
  rewrite (dict_get_set_same Z.eqb Z_eqb_eq).
  apply (dict_get_del_same String.eqb).
Qed.

Lemma keypress_lookup_after_remove (r : keypress_cbs) (name key : string)
  (cbdict : bucket) :
  keypress_lookup
    (dict_set String.eqb key (dict_del String.eqb name cbdict) r) name key = None.
Proof.
  unfold keypress_lookup.
  rewrite (dict_get_set_same String.eqb string_eqb_eq).
  apply (dict_get_del_same String.eqb).
Qed.

(** [remove], case by case. *)
Lemma click_remove_run (ID : string) (c : container click_cbs) :
  _click_container.remove (coord:=coord) (Some ID) c = click_remove_outcome ID c.
Proof.
  unfold _click_container.remove, click_remove_outcome, removal_calls. run_monad.
  destruct (PyStr.split_dunder ID) as [|name [|ds [|b [|x l]]]]; try reflexivity.
  cbv beta iota.
  destruct (dict_get String.eqb ds (cbs c)) as [dsdict|]; [|reflexivity].
  destruct (PyStr.Z_of_str b) as [button|]; [|reflexivity].
  destruct (dict_get Z.eqb button dsdict) as [bdict|]; [|reflexivity].
  destruct (dict_mem String.eqb name bdict); [|reflexivity].
  cbv beta iota.
  change (hasattr (set_cbs ?r c) ?h) with (hasattr c h).
  unfold base_name.
  match goal with |- context [hasattr ?x ?y] => destruct (hasattr x y) end;
    reflexivity.
Qed.

Lemma keypress_remove_run (ID : string) (c : container keypress_cbs) :
  keypress_container.remove (coord:=coord) (Some ID) c =
  keypress_remove_outcome ID c.
Proof.
  unfold keypress_container.remove, keypress_remove_outcome, removal_calls.
  run_monad.
  destruct (PyStr.split_dunder ID) as [|name [|key [|x l]]]; try reflexivity.
  cbv beta iota.
  destruct (dict_get String.eqb key (cbs c)) as [cbdict|]; [|reflexivity].
  destruct (dict_mem String.eqb name cbdict); [|reflexivity].
  cbv beta iota.
  change (hasattr (set_cbs ?r c) ?h) with (hasattr c h).
  unfold base_name.
  match goal with |- context [hasattr ?x ?y] => destruct (hasattr x y) end;
    reflexivity.
Qed.


(** C10.  Without an identity ([ID=None]) neither [remove] returns: the
    names unpacked from the identity are unbound when they are read, and
    the call raises NameError, leaving the registry as it was. *)
Theorem remove_without_identity_raises
  (c : container click_cbs) (k : container keypress_cbs) :
  _click_container.remove (coord:=coord) None c = (Raise NameError, c, []) /\
  keypress_container.remove (coord:=coord) None k = (Raise NameError, k, []).
Proof. split; reflexivity. Qed.

End RemoveFacts.

(** ** Strings *)

Lemma rsplit1_app (name t : string) :
  PyStr.rsplit1 t = None ->
  PyStr.rsplit1 (name ++ "_" ++ t) = Some (name, t).
Proof.
  intros Ht. induction name as [|c name IH]; simpl.
  - now rewrite Ht.
  - simpl in IH. now rewrite IH.
Qed.

Lemma rsplit1_digits (d : Decimal.uint) :
  PyStr.rsplit1 (NilEmpty.string_of_uint d) = None.
Proof. induction d; simpl; try rewrite IHd; reflexivity. Qed.

Lemma rsplit1_str_of_nat (n : nat) : PyStr.rsplit1 (PyStr.str_of_nat n) = None.
Proof.
  unfold PyStr.str_of_nat, NilZero.string_of_uint.
  destruct (Nat.to_uint n); try reflexivity; apply rsplit1_digits.
Qed.

Lemma int_of_str_of_nat (n : nat) : PyStr.int_of_str (PyStr.str_of_nat n) = Some n.
Proof.
  unfold PyStr.int_of_str, PyStr.str_of_nat.
  pose proof (DecimalNat.Unsigned.of_to n) as H.
  destruct (Nat.to_uint n) eqn:E;
    [simpl in *; now rewrite <- H
    |rewrite NilZero.usu by discriminate; simpl; now rewrite H ..].
Qed.

Lemma rsplit1_entry_key (name : string) (n : nat) :
  PyStr.rsplit1 (entry_key name n) = Some (name, PyStr.str_of_nat n).
Proof. apply rsplit1_app, rsplit1_str_of_nat. Qed.

Lemma base_name_entry_key (name : string) (n : nat) :
  base_name (entry_key name n) = name.
Proof. unfold base_name, PyStr.rsplit_head. now rewrite rsplit1_entry_key. Qed.

Lemma sequence_entry_key (name : string) (n : nat) :
  sequence (entry_key name n) = n.
Proof.
  unfold sequence, PyStr.rsplit_tail.
  now rewrite rsplit1_entry_key, int_of_str_of_nat.
Qed.

Lemma startswith_app (name t : string) : PyStr.startswith (name ++ t) name = true.
Proof.
  unfold PyStr.startswith. induction name as [|c name IH]; simpl.
  - now destruct t.
  - destruct (ascii_dec c c); [assumption|contradiction].
Qed.

Lemma startswith_entry_key (name : string) (n : nat) :
  PyStr.startswith (entry_key name n) name = true.
Proof. apply startswith_app. Qed.

Lemma rsplit1_join (s a b : string) :
  PyStr.rsplit1 s = Some (a, b) -> s = (a ++ "_" ++ b)%string.
Proof.
  revert a b. induction s as [|c s IH]; simpl; [discriminate|].
  intros a b. destruct (PyStr.rsplit1 s) as [[a' b']|].
  - intros [= <- <-]. simpl. f_equal. now apply IH.
  - destruct (Ascii.eqb c PyStr.underscore) eqn:E; [|discriminate].
    intros [= <- <-]. apply Ascii.eqb_eq in E. now subst c.
Qed.

(** A key whose base name is [name] starts with [name]. *)
Lemma startswith_base_name (k name : string) :
  PyStr.rsplit1 k <> None -> base_name k = name -> PyStr.startswith k name = true.
Proof.
  unfold base_name, PyStr.rsplit_head.
  destruct (PyStr.rsplit1 k) as [[a b]|] eqn:E; [|congruence].
  intros _ <-. apply rsplit1_join in E. subst k. apply startswith_app.
Qed.

(** ** The sequence numbers collected by [_add_callback] *)

Lemma ncb_of_in (name : string) (keys : list string) (ncb : list nat) (k : string) :
  ncb_of name keys = Ok ncb ->
  In k keys -> PyStr.startswith k name = true ->
  PyStr.rsplit1 k <> None /\ In (sequence k) ncb.
Proof.
  revert ncb. induction keys as [|i keys IH]; simpl; [tauto|].
  intros ncb H Hin Hk.
  destruct (PyStr.startswith i name) eqn:Hi.
  - unfold PyStr.rsplit_tail in H.
    destruct (PyStr.rsplit1 i) as [[a t]|] eqn:Hr; [|discriminate].
    destruct (PyStr.int_of_str t) as [n|] eqn:Hn; [|discriminate].
    destruct (ncb_of name keys) as [l|e]; [|discriminate].
    injection H as <-.
    destruct Hin as [<- | Hin].
    + split; [congruence|]. left.
      unfold sequence, PyStr.rsplit_tail. now rewrite Hr, Hn.
    + destruct (IH l eq_refl Hin Hk). split; [assumption|now right].
  - destruct Hin as [<- | Hin]; [congruence|]. now apply IH.
Qed.

Lemma ncb_of_nil (name : string) (keys : list string) (k : string) :
  ncb_of name keys = Ok [] -> In k keys -> PyStr.startswith k name = false.
Proof.
  intros H Hin. destruct (PyStr.startswith k name) eqn:E; [|reflexivity].
  destruct (ncb_of_in _ _ _ _ H Hin E) as [_ []].
Qed.

Lemma next_count_above (ncb : list nat) (n : nat) : In n ncb -> n < next_count ncb.
Proof.
  intros Hin. unfold next_count.
  destruct ncb as [|x l]; [destruct Hin|].
  cbn [List.length Nat.ltb Nat.leb].
  assert (H : n <= list_max (x :: l)).
  { pose proof (proj1 (list_max_le (x :: l) (list_max (x :: l))) (le_n _)) as HF.
    rewrite Forall_forall in HF. now apply HF. }
  lia.
Qed.

(** The key chosen by [_add_callback] is not a key of the bucket. *)
Lemma fresh_key (name : string) (d : bucket) (ncb : list nat) :
  ncb_of name (dict_keys d) = Ok ncb ->
  dict_get String.eqb (entry_key name (next_count ncb)) d = None.
Proof.
  intros H.
  destruct (dict_get String.eqb (entry_key name (next_count ncb)) d) eqn:E;
    [|reflexivity].
  apply (dict_get_in_keys String.eqb string_eqb_eq) in E.
  destruct (ncb_of_in _ _ _ _ H E (startswith_entry_key _ _)) as [_ Hin].
  rewrite sequence_entry_key in Hin. apply next_count_above in Hin. lia.
Qed.

(** Every sequence number in use for [name] is below the one chosen. *)
Lemma next_count_unused (name : string) (d : bucket) (ncb : list nat) (k : string) :
  ncb_of name (dict_keys d) = Ok ncb ->
  In k (dict_keys d) -> PyStr.rsplit1 k <> None -> base_name k = name ->
  sequence k < next_count ncb.
Proof.
  intros H Hin Hr Hb.
  apply next_count_above.
  apply (ncb_of_in _ _ _ _ H Hin). now apply startswith_base_name.
Qed.

(** ** Running the monad *)

Section MonadFacts.
Context {E S A B : Type}.

Lemma bind_ok (m : @M E S A) (f : A -> @M E S B) (s s1 : S) (a : A) (t1 : list E) :
  m s = (Ok a, s1, t1) ->
  bind m f s = match f a s1 with (r, s2, t2) => (r, s2, t1 ++ t2) end.
Proof. intros H. unfold bind. now rewrite H. Qed.

Lemma bind_raise (m : @M E S A) (f : A -> @M E S B) (s s1 : S) (e : exn)
  (t1 : list E) :
  m s = (Raise e, s1, t1) -> bind m f s = (Raise e, s1, t1).
Proof. intros H. unfold bind. now rewrite H. Qed.

End MonadFacts.

(** ** The nested registry *)

Lemma set_cbs_same {coord R} (c : container (coord:=coord) R) :
  set_cbs (cbs c) c = c.
Proof. now destruct c. Qed.

Lemma set_cbs_set_event {coord R} (c : container (coord:=coord) R)
  (e : event coord) :
  set_cbs (cbs c) (set_event e c) = set_event e c.
Proof. now destruct c. Qed.

Lemma dsdict_of_set_bucket_same (r : click_cbs) (ds : string) (b : Z) (d : bucket) :
  dsdict_of (set_bucket ds b d r) ds = dict_set Z.eqb b d (dsdict_of r ds).
Proof.
  unfold set_bucket. unfold dsdict_of at 1.
  now rewrite (dict_get_set_same String.eqb string_eqb_eq).
Qed.

Lemma dsdict_of_set_bucket_other (r : click_cbs) (ds ds' : string) (b : Z)
  (d : bucket) :
  ds <> ds' -> dsdict_of (set_bucket ds b d r) ds' = dsdict_of r ds'.
Proof.
  intros Hne. unfold set_bucket. unfold dsdict_of at 1 3.
  now rewrite (dict_get_set_other String.eqb string_eqb_eq).
Qed.

Lemma bucket_of_set_bucket (r : click_cbs) (ds ds' : string) (b b' : Z) (d : bucket) :
  bucket_of (set_bucket ds b d r) ds' b' =
  if String.eqb ds' ds && Z.eqb b' b then d else bucket_of r ds' b'.
Proof.
  unfold bucket_of.
  destruct (String.eqb_spec ds' ds) as [-> | Hds]; simpl.
  - rewrite dsdict_of_set_bucket_same.
    destruct (Z.eqb_spec b' b) as [-> | Hb].
    + now rewrite (dict_get_set_same Z.eqb Z_eqb_eq).
    + rewrite (dict_get_set_other Z.eqb Z_eqb_eq); auto.
  - rewrite dsdict_of_set_bucket_other; auto.
Qed.

Lemma bucket_of_set_bucket_same (r : click_cbs) (ds : string) (b : Z) (d : bucket) :
  bucket_of (set_bucket ds b d r) ds b = d.
Proof. now rewrite bucket_of_set_bucket, String.eqb_refl, Z.eqb_refl. Qed.

(** Creating an empty level of the defaultdict changes no bucket. *)
Lemma bucket_of_new_ds (r : click_cbs) (ds ds' : string) (b' : Z) :
  dict_get String.eqb ds r = None ->
  bucket_of (dict_set String.eqb ds [] r) ds' b' = bucket_of r ds' b'.
Proof.
  intros H. unfold bucket_of, dsdict_of.
  destruct (String.eqb_spec ds ds') as [<- | Hne].
  - now rewrite (dict_get_set_same String.eqb string_eqb_eq), H.
  - now rewrite (dict_get_set_other String.eqb string_eqb_eq).
Qed.

Lemma bucket_of_new_button (r : click_cbs) (ds ds' : string) (b b' : Z) :
  dict_get Z.eqb b (dsdict_of r ds) = None ->
  bucket_of (set_bucket ds b [] r) ds' b' = bucket_of r ds' b'.
Proof.
  intros H. rewrite bucket_of_set_bucket.
  destruct (String.eqb_spec ds' ds) as [-> | Hds]; simpl; [|reflexivity].
  destruct (Z.eqb_spec b' b) as [-> | Hb]; [|reflexivity].
  unfold bucket_of. now rewrite H.
Qed.

Lemma same_buckets_touch_ds (ds : string) (r : click_cbs) :
  same_buckets r (touch_ds ds r).
Proof.
  intros ds' b'. unfold touch_ds.
  destruct (dict_get String.eqb ds r) eqn:E; [reflexivity|].
  now apply bucket_of_new_ds.
Qed.

Lemma dsdict_of_touch_ds (ds : string) (r : click_cbs) :
  dsdict_of (touch_ds ds r) ds = dsdict_of r ds.
Proof.
  unfold touch_ds, dsdict_of.
  destruct (dict_get String.eqb ds r) eqn:E; [now rewrite E|].
  now rewrite (dict_get_set_same String.eqb string_eqb_eq).
Qed.

Lemma same_buckets_touch (ds : string) (b : Z) (r : click_cbs) :
  same_buckets r (touch ds b r).
Proof.
  intros ds' b'. unfold touch.
  destruct (dict_get Z.eqb b (dsdict_of r ds)) eqn:E.
  - apply same_buckets_touch_ds.
  - rewrite bucket_of_new_button; [apply same_buckets_touch_ds|].
    now rewrite dsdict_of_touch_ds.
Qed.

(** Reading a bucket that exists creates nothing. *)
Lemma touch_set_bucket (ds : string) (b : Z) (d : bucket) (r : click_cbs) :
  touch ds b (set_bucket ds b d r) = set_bucket ds b d r.
Proof.
  unfold touch. rewrite dsdict_of_set_bucket_same.
  rewrite (dict_get_set_same Z.eqb Z_eqb_eq).
  unfold touch_ds, set_bucket.
  now rewrite (dict_get_set_same String.eqb string_eqb_eq).
Qed.

Section AttachFacts.
Context {coord : Type}.

(** [self.get.cbs[ds]] returns the dictionary of [ds] and changes no bucket. *)
Lemma cbs_ds_run (c : container click_cbs) (ds : string) :
  cbs_ds (coord:=coord) ds c =
    (Ok (dsdict_of (cbs c) ds), set_cbs (touch_ds ds (cbs c)) c, []).
Proof.
  unfold cbs_ds, touch_ds, dsdict_of. run_monad.
  destruct (dict_get String.eqb ds (cbs c)) as [dsdict|] eqn:E.
  - now rewrite set_cbs_same.
  - reflexivity.
Qed.

(** [self.get.cbs[ds][button]] returns the bucket and changes no bucket. *)
Lemma cbs_at_run (c : container click_cbs) (ds : string) (b : Z) :
  _click_container.cbs_at (coord:=coord) ds b c =
    (Ok (bucket_of (cbs c) ds b), set_cbs (touch ds b (cbs c)) c, []).
Proof.
  unfold _click_container.cbs_at, bind. rewrite cbs_ds_run.
  unfold bucket_of, touch.
  destruct (dict_get Z.eqb b (dsdict_of (cbs c) ds)) as [d|] eqn:E; reflexivity.
Qed.

Lemma resolve_run {R} (c : container R) (cb : callback) :
  resolve (coord:=coord) cb c = (resolve_outcome c cb, c, []).
Proof.
  destruct cb as [s|s|[|] [|] n]; cbn; try reflexivity.
  unfold bind, get, assert_, ret, raise. now destruct (hasattr c s).
Qed.

(** A callback that can be attached resolves to a callable named
    [cb_name]. *)
Lemma resolves_outcome {R} (c : container (coord:=coord) R) (cb : callback) :
  resolves c cb = true ->
  resolve_outcome c cb = Ok (mk_resolved true (Some (cb_name cb))).
Proof.
  destruct cb as [s|s|[|] [|] [n|]]; cbn; try discriminate; try reflexivity.
  unfold hasattr, dict_mem, getattr_cb.
  now destruct (dict_get String.eqb s (_cb c)) as [[|]|].
Qed.

(** A callback that is turned down is not attached. *)
Lemma turned_down_raises {R} (cb : callback) (multi : bool) (keys : list string)
  (c t : container (coord:=coord) R) :
  exists e, turned_down cb multi keys c t = (Raise e, c, []) \/
            turned_down cb multi keys c t = (Raise e, t, []).
Proof.
  unfold turned_down.
  destruct cb as [s|s|[|] [|] [n|]];
    try destruct (hasattr c s);
    try destruct (ncb_of n keys);
    try destruct (_ && _); eauto.
Qed.

Lemma turned_down_not_ok {R} (cb : callback) (multi : bool) (keys : list string)
  (c t c' : container (coord:=coord) R) (id : string) (tr : list (call coord)) :
  turned_down cb multi keys c t <> (Ok id, c', tr).
Proof.
  destruct (turned_down_raises cb multi keys c t) as [e [H|H]];
    rewrite H; discriminate.
Qed.

Lemma resolves_set_cbs {R} (c : container (coord:=coord) R) (r : R)
  (cb : callback) :
  resolves (set_cbs r c) cb = resolves c cb.
Proof. reflexivity. Qed.

(** [_click_container._add_callback] computes [click_attach_outcome]. *)
Lemma click_add_callback_run (c : container click_cbs) (cb : callback)
  (dbl : bool) (button : Z) (kw : kwargs) :
  _click_container._add_callback (coord:=coord) cb dbl button kw c =
  click_attach_outcome cb dbl button kw c.
Proof.
  unfold _click_container._add_callback, click_attach_outcome.
  cbv zeta. fold (ds_of dbl).
  set (name := cb_name cb). set (ds := ds_of dbl).
  set (d := bucket_of (cbs c) ds button).
  destruct (forallb (fun i => dict_mem String.eqb i kw) _click_container.reserved).
  { reflexivity. }
  erewrite bind_ok by reflexivity.
  destruct (resolves c cb) eqn:Hres; cbn [negb].
  2:{ unfold turned_down.
      destruct cb as [s|s|[|] [|] [n|]]; cbn [resolves] in Hres;
        try discriminate.
      - (* a string *)
        destruct (hasattr c s) eqn:Hh.
        + assert (Ho : resolve_outcome c (CbStr s) = Ok (mk_resolved false None)).
          { cbn [resolve_outcome]. rewrite Hh. unfold getattr_cb.
            now destruct (dict_get String.eqb s (_cb c)) as [[|]|]. }
          erewrite bind_ok by (rewrite resolve_run, Ho; reflexivity).
          erewrite bind_ok by apply cbs_at_run.
          erewrite bind_raise by reflexivity. reflexivity.
        + erewrite bind_raise
            by (rewrite resolve_run; cbn [resolve_outcome]; rewrite Hh;
                reflexivity).
          reflexivity.
      - (* callable, rebound, without a name *)
        erewrite bind_ok by (rewrite resolve_run; reflexivity).
        erewrite bind_ok by apply cbs_at_run.
        erewrite bind_raise by reflexivity. reflexivity.
      - (* callable that cannot be rebound *)
        erewrite bind_raise by (rewrite resolve_run; reflexivity). reflexivity.
      - erewrite bind_raise by (rewrite resolve_run; reflexivity). reflexivity.
      - (* not callable, with a name *)
        erewrite bind_ok by (rewrite resolve_run; reflexivity).
        erewrite bind_ok by apply cbs_at_run. fold d.
        erewrite bind_ok by reflexivity.
        cbn [cb_name] in name. fold name.
        destruct (ncb_of name (dict_keys d)) as [ncb|e] eqn:Hncb.
        2:{ erewrite bind_raise by reflexivity. reflexivity. }
        erewrite bind_ok by reflexivity.
        destruct (negb (existsb (String.eqb name)
                          _click_container.multi_cb_functions)).
        + destruct ncb as [|n0 ncb]; cbn [List.length Nat.eqb negb andb].
          * erewrite bind_ok by reflexivity.
            erewrite bind_raise by reflexivity. reflexivity.
          * erewrite bind_raise by reflexivity. reflexivity.
        + cbn [andb]. erewrite bind_ok by reflexivity.
          erewrite bind_raise by reflexivity. reflexivity.
      - erewrite bind_ok by (rewrite resolve_run; reflexivity).
        erewrite bind_ok by apply cbs_at_run.
        erewrite bind_raise by reflexivity. reflexivity.
      - (* not callable, with a name *)
        erewrite bind_ok by (rewrite resolve_run; reflexivity).
        erewrite bind_ok by apply cbs_at_run. fold d.
        erewrite bind_ok by reflexivity.
        cbn [cb_name] in name. fold name.
        destruct (ncb_of name (dict_keys d)) as [ncb|e] eqn:Hncb.
        2:{ erewrite bind_raise by reflexivity. reflexivity. }
        erewrite bind_ok by reflexivity.
        destruct (negb (existsb (String.eqb name)
                          _click_container.multi_cb_functions)).
        + destruct ncb as [|n0 ncb]; cbn [List.length Nat.eqb negb andb].
          * erewrite bind_ok by reflexivity.
            erewrite bind_raise by reflexivity. reflexivity.
          * erewrite bind_raise by reflexivity. reflexivity.
        + cbn [andb]. erewrite bind_ok by reflexivity.
          erewrite bind_raise by reflexivity. reflexivity.
      - erewrite bind_ok by (rewrite resolve_run; reflexivity).
        erewrite bind_ok by apply cbs_at_run.
        erewrite bind_raise by reflexivity. reflexivity. }
  erewrite bind_ok
    by (rewrite resolve_run, (resolves_outcome c cb Hres); reflexivity).
  erewrite bind_ok by apply cbs_at_run. fold d.
  erewrite bind_ok by reflexivity. fold name.
  destruct (ncb_of name (dict_keys d)) as [ncb|e] eqn:Hncb.
  2:{ erewrite bind_raise by reflexivity. reflexivity. }
  erewrite bind_ok by reflexivity.
  assert (Hset :
    _click_container.bucket_set (coord:=coord) ds button
      (entry_key name (next_count ncb)) (mk_partial name kw)
      (set_cbs (touch ds button (cbs c)) c) =
    (Ok tt,
     set_cbs (set_bucket ds button
                (d ++ [(entry_key name (next_count ncb), mk_partial name kw)])
                (touch ds button (cbs c))) c, [])).
  { unfold _click_container.bucket_set, modify. cbv beta zeta.
    change (cbs (set_cbs ?r c)) with r.
    rewrite (same_buckets_touch ds button (cbs c) ds button). fold d.
    rewrite (dict_set_absent String.eqb (entry_key name (next_count ncb)) _ d)
      by apply (fresh_key name d ncb Hncb).
    reflexivity. }
  destruct (negb (existsb (String.eqb name) _click_container.multi_cb_functions)).
  - destruct ncb as [|n ncb]; cbn [List.length Nat.eqb negb andb].
    + erewrite bind_ok by reflexivity.
      erewrite bind_ok by reflexivity.
      erewrite bind_ok by exact Hset. reflexivity.
    + erewrite bind_raise by reflexivity. reflexivity.
  - cbn [andb].
    erewrite bind_ok by reflexivity.
    erewrite bind_ok by reflexivity.
    erewrite bind_ok by exact Hset. reflexivity.
Qed.

Lemma dict_set_touch_key (key : string) (d : bucket) (r : keypress_cbs) :
  dict_set String.eqb key d (touch_key key r) = dict_set String.eqb key d r.
Proof.
  unfold touch_key. destruct (dict_get String.eqb key r) eqn:E; [reflexivity|].
  apply (dict_set_set String.eqb string_eqb_eq).
Qed.

(** [keypress_container._add_callback] computes [keypress_attach_outcome]. *)
Lemma keypress_add_callback_run (c : container keypress_cbs) (cb : callback)
  (key : string) (kw : kwargs) :
  keypress_container._add_callback (coord:=coord) cb key kw c =
  keypress_attach_outcome cb key kw c.
Proof.
  unfold keypress_container._add_callback, keypress_attach_outcome.
  cbv zeta. set (name := cb_name cb). set (d := key_bucket_of (cbs c) key).
  assert (Hkey :
    keypress_container.cbs_key (coord:=coord) key c =
    (Ok d, set_cbs (touch_key key (cbs c)) c, [])).
  { unfold keypress_container.cbs_key, touch_key, d, key_bucket_of. run_monad.
    destruct (dict_get String.eqb key (cbs c)); [now rewrite set_cbs_same|reflexivity]. }
  destruct (resolves c cb) eqn:Hres; cbn [negb].
  2:{ unfold turned_down.
      destruct cb as [s|s|[|] [|] [n|]]; cbn [resolves] in Hres;
        try discriminate.
      - destruct (hasattr c s) eqn:Hh.
        + assert (Ho : resolve_outcome c (CbStr s) = Ok (mk_resolved false None)).
          { cbn [resolve_outcome]. rewrite Hh. unfold getattr_cb.
            now destruct (dict_get String.eqb s (_cb c)) as [[|]|]. }
          erewrite bind_ok by (rewrite resolve_run, Ho; reflexivity).
          erewrite bind_ok by exact Hkey.
          erewrite bind_raise by reflexivity. reflexivity.
        + erewrite bind_raise
            by (rewrite resolve_run; cbn [resolve_outcome]; rewrite Hh;
                reflexivity).
          reflexivity.
      - erewrite bind_ok by (rewrite resolve_run; reflexivity).
        erewrite bind_ok by exact Hkey.
        erewrite bind_raise by reflexivity. reflexivity.
      - erewrite bind_raise by (rewrite resolve_run; reflexivity). reflexivity.
      - erewrite bind_raise by (rewrite resolve_run; reflexivity). reflexivity.
      - erewrite bind_ok by (rewrite resolve_run; reflexivity).
        erewrite bind_ok by exact Hkey.
        erewrite bind_ok by reflexivity.
        cbn [cb_name] in name. fold name.
        destruct (ncb_of name (dict_keys d)) as [ncb|e] eqn:Hncb.
        2:{ erewrite bind_raise by reflexivity. reflexivity. }
        erewrite bind_ok by reflexivity.
        erewrite bind_raise by reflexivity. reflexivity.
      - erewrite bind_ok by (rewrite resolve_run; reflexivity).
        erewrite bind_ok by exact Hkey.
        erewrite bind_raise by reflexivity. reflexivity.
      - erewrite bind_ok by (rewrite resolve_run; reflexivity).
        erewrite bind_ok by exact Hkey.
        erewrite bind_ok by reflexivity.
        cbn [cb_name] in name. fold name.
        destruct (ncb_of name (dict_keys d)) as [ncb|e] eqn:Hncb.
        2:{ erewrite bind_raise by reflexivity. reflexivity. }
        erewrite bind_ok by reflexivity.
        erewrite bind_raise by reflexivity. reflexivity.
      - erewrite bind_ok by (rewrite resolve_run; reflexivity).
        erewrite bind_ok by exact Hkey.
        erewrite bind_raise by reflexivity. reflexivity. }
  erewrite bind_ok
    by (rewrite resolve_run, (resolves_outcome c cb Hres); reflexivity).
  erewrite bind_ok by exact Hkey.
  erewrite bind_ok by reflexivity. fold name.
  destruct (ncb_of name (dict_keys d)) as [ncb|e] eqn:Hncb.
  2:{ erewrite bind_raise by reflexivity. reflexivity. }
  erewrite bind_ok by reflexivity.
  erewrite bind_ok by reflexivity.
  erewrite bind_ok by reflexivity.
  cbn [ret app]. change (cbs (set_cbs ?r c)) with r.
  rewrite dict_set_touch_key.
  rewrite (dict_set_absent String.eqb (name ++ "_" ++ _)%string _ d)
    by apply (fresh_key name d ncb Hncb).
  reflexivity.
Qed.

End AttachFacts.

(** ** Attaching *)

Lemma startswith_refl (s : string) : PyStr.startswith s s = true.
Proof.
  unfold PyStr.startswith. induction s as [|c s IH]; simpl; [reflexivity|].
  destruct (ascii_dec c c); [assumption|contradiction].
Qed.

Lemma startswith_of_base_name (k : string) :
  PyStr.startswith k (base_name k) = true.
Proof.
  unfold base_name, PyStr.rsplit_head.
  destruct (PyStr.rsplit1 k) as [[a b]|] eqn:E.
  - apply rsplit1_join in E. subst k. apply startswith_app.
  - apply startswith_refl.
Qed.

Lemma ncb_of_app (name : string) (l1 l2 : list string) (a b : list nat) :
  ncb_of name l1 = Ok a -> ncb_of name l2 = Ok b ->
  ncb_of name (l1 ++ l2) = Ok (a ++ b).
Proof.
  revert a. induction l1 as [|i l1 IH]; simpl; intros a Ha Hb.
  - now injection Ha as <-.
  - destruct (PyStr.startswith i name); [|now apply IH].
    destruct (PyStr.rsplit_tail i); [|discriminate].
    destruct (PyStr.int_of_str s); [|discriminate].
    destruct (ncb_of name l1) as [l|]; [|discriminate].
    injection Ha as <-. now rewrite (IH l eq_refl Hb).
Qed.

Lemma ncb_of_entry_key (name : string) (n : nat) :
  ncb_of name [entry_key name n] = Ok [n].
Proof.
  simpl. rewrite startswith_entry_key.
  unfold PyStr.rsplit_tail. now rewrite rsplit1_entry_key, int_of_str_of_nat.
Qed.

Lemma count_base_nil (name : string) (d : bucket) :
  ncb_of name (dict_keys d) = Ok [] -> count_base name d = 0.
Proof.
  intros H. unfold count_base.
  rewrite (proj2 (List.length_zero_iff_nil _)); [reflexivity|].
  induction (dict_keys d) as [|k l IH]; [reflexivity|].
  assert (Hk : PyStr.startswith k name = false)
    by (apply (ncb_of_nil _ _ _ H); now left).
  simpl in H. rewrite Hk in H. simpl.
  destruct (String.eqb_spec (base_name k) name) as [<- | _].
  - now rewrite startswith_of_base_name in Hk.
  - now apply IH.
Qed.

Lemma dict_keys_app {K V} (d : dict K V) (k : K) (v : V) :
  dict_keys (d ++ [(k, v)]) = dict_keys d ++ [k].
Proof. unfold dict_keys. now rewrite map_app. Qed.

Lemma count_base_app (name : string) (d : bucket) (k : string) (v : partial) :
  count_base name (d ++ [(k, v)]) =
  count_base name d + (if String.eqb (base_name k) name then 1 else 0).
Proof.
  unfold count_base, dict_keys.
  rewrite map_app, filter_app, length_app. simpl.
  now destruct (base_name k =? name)%string.
Qed.

(** The check on the keyword arguments asks for all five names at once,
    and [button] is a parameter of the method: it cannot fail. *)
Lemma reserved_check_passes (kw : kwargs) :
  dict_get String.eqb "button" kw = None ->
  forallb (fun i => dict_mem String.eqb i kw) _click_container.reserved = false.
Proof.
  intros H. unfold _click_container.reserved. simpl. unfold dict_mem at 5.
  rewrite H. now rewrite !andb_false_r.
Qed.

Section AttachTheorems.
Context {coord : Type}.

(** C2, amended.  An attach call that is accepted gives the new entry the
    sequence number 0 when no key of the bucket starts with the name of
    the callback, and otherwise one more than the largest sequence number
    among the keys of the bucket that start with that name.  This number
    is above every sequence number in use for the name, the key is new in
    the bucket, and the entries already there stay as they are, in front
    of the new one.  Click, pick and keypress containers alike. *)
Theorem attach_takes_next_sequence_number
  (c c' : container click_cbs) (cb : callback) (dbl : bool) (button : Z)
  (kw : kwargs) (id : string) (tr : list (call coord))
  (k k' : container keypress_cbs) (cbk : callback) (key : string)
  (kwk : kwargs) (idk : string) (trk : list (call coord)) :
  _click_container._add_callback cb dbl button kw c = (Ok id, c', tr) ->
  keypress_container._add_callback cbk key kwk k = (Ok idk, k', trk) ->
  (let name := cb_name cb in
   let d := bucket_of (cbs c) (ds_of dbl) button in
   exists ncb,
     ncb_of name (dict_keys d) = Ok ncb /\
     id = click_identity name (next_count ncb) (ds_of dbl) button /\
     (forall m, In (entry_key name m) (dict_keys d) -> m < next_count ncb) /\
     dict_get String.eqb (entry_key name (next_count ncb)) d = None /\
     bucket_of (cbs c') (ds_of dbl) button =
       d ++ [(entry_key name (next_count ncb), mk_partial name kw)]) /\
  (let name := cb_name cbk in
   let d := key_bucket_of (cbs k) key in
   exists ncb,
     ncb_of name (dict_keys d) = Ok ncb /\
     idk = keypress_identity name (next_count ncb) key /\
     (forall m, In (entry_key name m) (dict_keys d) -> m < next_count ncb) /\
     dict_get String.eqb (entry_key name (next_count ncb)) d = None /\
     key_bucket_of (cbs k') key =
       d ++ [(entry_key name (next_count ncb), mk_partial name kwk)]).
Proof.
  intros Hc Hk. split.
  - rewrite click_add_callback_run in Hc. unfold click_attach_outcome in Hc.
    cbv zeta in *.
    destruct (forallb _ _); [discriminate|].
    destruct (negb (resolves c cb)); [now apply turned_down_not_ok in Hc|].
    destruct (ncb_of (cb_name cb) _) as [ncb|e] eqn:Hncb; [|discriminate].
    destruct (_ && _); [discriminate|].
    injection Hc as <- <- <-. exists ncb.
    split; [reflexivity|]. split; [reflexivity|]. split; [|split].
    + intros m Hin.
      rewrite <- (sequence_entry_key (cb_name cb) m).
      apply (next_count_unused (cb_name cb) _ ncb _ Hncb Hin).
      * now rewrite rsplit1_entry_key.
      * apply base_name_entry_key.
    + apply (fresh_key _ _ _ Hncb).
    + apply bucket_of_set_bucket_same.
  - rewrite keypress_add_callback_run in Hk. unfold keypress_attach_outcome in Hk.
    cbv zeta in *.
    destruct (negb (resolves k cbk)); [now apply turned_down_not_ok in Hk|].
    destruct (ncb_of (cb_name cbk) _) as [ncb|e] eqn:Hncb; [|discriminate].
    injection Hk as <- <- <-. exists ncb.
    split; [reflexivity|]. split; [reflexivity|]. split; [|split].
    + intros m Hin.
      rewrite <- (sequence_entry_key (cb_name cbk) m).
      apply (next_count_unused (cb_name cbk) _ ncb _ Hncb Hin).
      * now rewrite rsplit1_entry_key.
      * apply base_name_entry_key.
    + apply (fresh_key _ _ _ Hncb).
    + unfold key_bucket_of at 1. cbn [cbs set_cbs].
      now rewrite (dict_get_set_same String.eqb string_eqb_eq).
Qed.

(** C3, amended.  In a click or pick container, once a callback other
    than [mark] and [annotate] is attached to a bucket, attaching it to
    that bucket again raises the assertion error on multiple assignments,
    leaves the container as it was, and the bucket holds exactly one entry
    of that name.  ([button] is a parameter of the method, so it is not
    among the extra keyword arguments of the second call.) *)
Theorem second_attach_is_rejected
  (c c1 : container click_cbs) (cb : callback) (dbl : bool) (button : Z)
  (kw kw' : kwargs) (id : string) (tr : list (call coord)) :
  existsb (String.eqb (cb_name cb)) _click_container.multi_cb_functions = false ->
  dict_get String.eqb "button" kw' = None ->
  _click_container._add_callback cb dbl button kw c = (Ok id, c1, tr) ->
  _click_container._add_callback (coord:=coord) cb dbl button kw' c1 =
    (Raise (AssertionError (MultipleAssignment (cb_name cb))), c1, []) /\
  count_base (cb_name cb) (bucket_of (cbs c1) (ds_of dbl) button) = 1.
Proof.
  intros Hmulti Hkw' Hc.
  rewrite click_add_callback_run in Hc. unfold click_attach_outcome in Hc.
  cbv zeta in Hc.
  destruct (forallb _ _); [discriminate|].
  destruct (resolves c cb) eqn:Hres;
    [|now apply turned_down_not_ok in Hc]. cbn [negb] in Hc.
  destruct (ncb_of (cb_name cb) _) as [ncb|e] eqn:Hncb; [|discriminate].
  rewrite Hmulti in Hc. cbn [negb andb] in Hc.
  destruct ncb as [|n ncb]; [|discriminate]. cbn [List.length Nat.eqb negb] in Hc.
  injection Hc as <- <- <-.
  set (d := bucket_of (cbs c) (ds_of dbl) button) in *.
  set (v := mk_partial (cb_name cb) kw).
  assert (Hb : bucket_of (set_bucket (ds_of dbl) button
                            (d ++ [(entry_key (cb_name cb) (next_count []), v)])
                            (touch (ds_of dbl) button (cbs c)))
                 (ds_of dbl) button =
               d ++ [(entry_key (cb_name cb) (next_count []), v)])
    by apply bucket_of_set_bucket_same.
  split.
  - rewrite click_add_callback_run. unfold click_attach_outcome. cbv zeta.
    rewrite (reserved_check_passes kw' Hkw').
    rewrite resolves_set_cbs, Hres.
    cbn [negb cbs set_cbs]. rewrite Hb.
    rewrite dict_keys_app.
    rewrite (ncb_of_app _ _ _ [] [next_count []] Hncb (ncb_of_entry_key _ _)).
    rewrite Hmulti. cbn [app List.length Nat.eqb negb andb].
    rewrite touch_set_bucket. reflexivity.
  - cbn [cbs set_cbs]. rewrite Hb, count_base_app, base_name_entry_key.
    rewrite String.eqb_refl, (count_base_nil _ _ Hncb). reflexivity.
Qed.

End AttachTheorems.

(** C2, the claim as stated fails.  With [mark_1] left in the bucket after
    [mark_0] was removed, a new [mark] gets the sequence number 2, while 0
    is the smallest number not in use. *)
Lemma attach_skips_free_sequence_number :
  fst (fst (_click_container._add_callback (coord:=Z) (CbStr "mark") false 1 []
              Example.marks_after_removal)) = Ok "mark_2__single__1" /\
  smallest_unused "mark" (bucket_of (cbs Example.marks_after_removal) "single" 1) 0 /\
  ~ smallest_unused "mark" (bucket_of (cbs Example.marks_after_removal) "single" 1) 2.
Proof.
  split; [reflexivity|]. split.
  - split; [reflexivity|]. intros m Hm. lia.
  - intros [_ H]. apply (H 0); [lia|reflexivity].
Qed.

(** C3, the claim as stated fails for the keypress class: a second
    [switch_layer] on the same key is accepted, and the bucket then holds
    two entries of that name. *)
Lemma keypress_accepts_second_attach :
  existsb (String.eqb "switch_layer") _click_container.multi_cb_functions = false /\
  exists k1 k2,
    keypress_container._add_callback (coord:=Z) (CbStr "switch_layer") "1" []
      Example.keypress0 = (Ok "switch_layer_0__1", k1, []) /\
    keypress_container._add_callback (coord:=Z) (CbStr "switch_layer") "1" []
      k1 = (Ok "switch_layer_1__1", k2, []) /\
    count_base "switch_layer" (key_bucket_of (cbs k2) "1") = 2.
Proof.
  split; [reflexivity|].
  eexists _, _. split; [reflexivity|]. split; reflexivity.
Qed.

(** C4.  An attach call whose keyword arguments use the reserved name
    [pos] is accepted: the entry is registered with that argument and its
    identity is returned. *)
Lemma reserved_keyword_is_accepted :
  _click_container._add_callback (coord:=Z) (CbStr "mark") false 1
    [("pos", PyInt 0)] Example.click0 =
  (Ok "mark_0__single__1",
   set_cbs [("single", [(1%Z, [("mark_0", mk_partial "mark" [("pos", PyInt 0)])])])]
     Example.click0,
   []).
Proof. reflexivity. Qed.

(** Witnesses. *)

Lemma attach_takes_next_sequence_number_witness :
  exists c' k',
    _click_container._add_callback (coord:=Z) (CbStr "mark") false 1 []
      Example.marks_after_removal = (Ok "mark_2__single__1", c', []) /\
    keypress_container._add_callback (coord:=Z) (CbStr "switch_layer") "1" []
      Example.keypress0 = (Ok "switch_layer_0__1", k', []) /\
    bucket_of (cbs c') "single" 1 =
      bucket_of (cbs Example.marks_after_removal) "single" 1
      ++ [("mark_2", mk_partial "mark" [])].
Proof.
  eexists _, _. split; [reflexivity|]. split; [reflexivity|].
  destruct (attach_takes_next_sequence_number (coord:=Z)
              Example.marks_after_removal _ (CbStr "mark") false 1 []
              _ _ Example.keypress0 _ (CbStr "switch_layer") "1" [] _ _
              eq_refl eq_refl) as [(ncb & Hncb & _ & _ & _ & Hb) _].
  vm_compute in Hncb. injection Hncb as <-. exact Hb.
Defined.

Lemma second_attach_is_rejected_witness :
  exists c1,
    _click_container._add_callback (coord:=Z) (CbStr "clear_markers") false 1 []
      Example.click0 = (Ok "clear_markers_0__single__1", c1, []) /\
    _click_container._add_callback (coord:=Z) (CbStr "clear_markers") false 1 []
      c1 = (Raise (AssertionError (MultipleAssignment "clear_markers")), c1, []) /\
    count_base "clear_markers" (bucket_of (cbs c1) "single" 1) = 1.
Proof.
  eexists. split; [reflexivity|].
  apply (second_attach_is_rejected (coord:=Z) Example.click0 _
           (CbStr "clear_markers") false 1 [] [] _ _ eq_refl eq_refl eq_refl).
Defined.



(** ** Stable sorting *)

Section SortFacts.
Context {A : Type}.

Lemma insert_sorted_perm (x : nat * A) (l : list (nat * A)) :
  Permutation (insert_sorted x l) (x :: l).
Proof.
  induction l as [|y l IH]; simpl; [reflexivity|].
  destruct (fst x <=? fst y)%nat; [reflexivity|].
  rewrite IH. apply perm_swap.
Qed.

Lemma sorted_perm (l : list (nat * A)) : Permutation (sorted l) l.
Proof.
  induction l as [|x l IH]; simpl; [reflexivity|].
  rewrite insert_sorted_perm. now constructor.
Qed.

Variable R : A -> A -> Prop.

Lemma insert_sorted_sorted (x : nat * A) (l : list (nat * A)) :
  StronglySorted (key_then R) l ->
  Forall (fun y => R (snd x) (snd y)) l ->
  StronglySorted (key_then R) (insert_sorted x l).
Proof.
  induction l as [|y l IH]; simpl; intros Hs Hx.
  - repeat constructor.
  - inversion Hs as [|? ? Hs' Hy]; subst.
    inversion Hx as [|? ? Hxy Hxl]; subst.
    destruct (Nat.leb_spec (fst x) (fst y)) as [Hle | Hlt].
    + constructor; [assumption|].
      constructor.
      * destruct (Nat.eq_dec (fst x) (fst y)); [right; auto | left; lia].
      * rewrite Forall_forall in *. intros z Hz.
        assert (Hyz : fst y <= fst z).
        { destruct (Hy z Hz) as [? | [? _]]; lia. }
        destruct (Nat.eq_dec (fst x) (fst z)); [right; auto | left; lia].
    + constructor; [now apply IH|].
      rewrite Forall_forall in *. intros z Hz.
      apply (Permutation_in _ (insert_sorted_perm x l)) in Hz.
      destruct Hz as [<- | Hz]; [left; lia | now apply Hy].
Qed.

Lemma sorted_stable (l : list (nat * A)) :
  StronglySorted (fun x y => R (snd x) (snd y)) l ->
  StronglySorted (key_then R) (sorted l).
Proof.
  induction l as [|x l IH]; simpl; intros Hs; [constructor|].
  inversion Hs as [|? ? Hs' Hx]; subst.
  apply insert_sorted_sorted; [now apply IH|].
  rewrite Forall_forall in *. intros y Hy.
  apply Hx. now apply (Permutation_in _ (sorted_perm l)).
Qed.

End SortFacts.

Lemma StronglySorted_map {A B} (f : A -> B) (R : B -> B -> Prop) (l : list A) :
  StronglySorted (fun x y => R (f x) (f y)) l -> StronglySorted R (map f l).
Proof.
  induction 1 as [|x l Hs IH Hx]; simpl; constructor; [assumption|].
  rewrite Forall_forall in *. intros y Hy.
  apply in_map_iff in Hy as (z & <- & Hz). now apply Hx.
Qed.

Lemma StronglySorted_map_inv {A B} (f : A -> B) (R : B -> B -> Prop) (l : list A) :
  StronglySorted R (map f l) -> StronglySorted (fun x y => R (f x) (f y)) l.
Proof.
  induction l as [|x l IH]; simpl; intros Hs; [constructor|].
  inversion Hs as [|? ? Hs' Hx]; subst. constructor; [now apply IH|].
  rewrite Forall_forall in *. intros y Hy. apply Hx. now apply in_map.
Qed.

Lemma StronglySorted_weaken {A} (R R' : A -> A -> Prop) (l : list A) :
  (forall a b, In a l -> In b l -> R a b -> R' a b) ->
  StronglySorted R l -> StronglySorted R' l.
Proof.
  intros H Hs. induction Hs as [|x l Hs IH Hx]; constructor.
  - apply IH. intros a b Ha Hb. apply H; now right.
  - rewrite Forall_forall in *. intros y Hy.
    apply H; [now left | now right | now apply Hx].
Qed.

Lemma StronglySorted_snoc {A} (R : A -> A -> Prop) (l : list A) (x : A) :
  StronglySorted R l -> Forall (fun y => R y x) l -> StronglySorted R (l ++ [x]).
Proof.
  induction 1 as [|y l Hs IH Hy]; simpl; intros Hx.
  - repeat constructor.
  - inversion Hx as [|? ? Hyx Hlx]; subst. constructor; [now apply IH|].
    apply Forall_app. split; [assumption|now constructor].
Qed.

Lemma StronglySorted_filter {A} (R : A -> A -> Prop) (p : A -> bool) (l : list A) :
  StronglySorted R l -> StronglySorted R (filter p l).
Proof.
  induction 1 as [|x l Hs IH Hx]; simpl; [constructor|].
  destruct (p x); [|assumption]. constructor; [assumption|].
  rewrite Forall_forall in *. intros y Hy.
  apply filter_In in Hy as [Hy _]. now apply Hx.
Qed.

(** ** Positions *)

Lemma index_position (x : string) (l : list string) :
  In x l -> index x l = Some (position x l).
Proof.
  induction l as [|y l IH]; simpl; [tauto|].
  destruct (String.eqb_spec x y) as [-> | Hne]; [reflexivity|].
  intros [-> | Hin]; [contradiction|]. now rewrite IH.
Qed.

Lemma position_lt_length (x : string) (l : list string) :
  In x l -> position x l < List.length l.
Proof.
  induction l as [|y l IH]; simpl; [tauto|].
  destruct (String.eqb_spec x y) as [-> | Hne]; [lia|].
  intros [-> | Hin]; [contradiction|]. apply IH in Hin. lia.
Qed.

Lemma position_app_l (x : string) (l1 l2 : list string) :
  In x l1 -> position x (l1 ++ l2) = position x l1.
Proof.
  induction l1 as [|y l1 IH]; simpl; [tauto|].
  destruct (String.eqb_spec x y) as [-> | Hne]; [reflexivity|].
  intros [-> | Hin]; [contradiction|]. now rewrite IH.
Qed.

Lemma position_app_r (x : string) (l1 l2 : list string) :
  ~ In x l1 -> position x (l1 ++ l2) = List.length l1 + position x l2.
Proof.
  induction l1 as [|y l1 IH]; simpl; [reflexivity|].
  intros Hn. destruct (String.eqb_spec x y) as [-> | Hne]; [tauto|].
  rewrite IH; tauto.
Qed.

Lemma position_inj (x y : string) (l : list string) :
  In x l -> In y l -> position x l = position y l -> x = y.
Proof.
  induction l as [|z l IH]; simpl; [tauto|].
  intros Hx Hy.
  destruct (String.eqb_spec x z) as [-> | Hxz];
    destruct (String.eqb_spec y z) as [-> | Hyz]; try discriminate; auto.
  intros [= H]. apply IH; [destruct Hx | destruct Hy |]; congruence.
Qed.

(** Dropping other names from a list keeps the relative position of two
    names that stay. *)
Lemma position_filter_lt (p : string -> bool) (x y : string) (l : list string) :
  p x = true -> p y = true ->
  position x l < position y l ->
  position x (filter p l) < position y (filter p l).
Proof.
  intros Hx Hy. induction l as [|z l IH]; simpl; [lia|].
  destruct (String.eqb_spec x z) as [-> | Hxz];
    destruct (String.eqb_spec y z) as [-> | Hyz]; try lia.
  - intros _. rewrite Hx. simpl. rewrite String.eqb_refl.
    destruct (String.eqb_spec y z); [contradiction|lia].
  - intros H. apply Nat.succ_lt_mono in H. apply IH in H.
    destruct (p z); [|assumption]. simpl.
    destruct (String.eqb_spec x z); [contradiction|].
    destruct (String.eqb_spec y z); [contradiction|]. lia.
Qed.

(** ** The order computed by [_sort_cbs] *)

Lemma existsb_eqb_in (x : string) (l : list string) :
  existsb (String.eqb x) l = true <-> In x l.
Proof.
  rewrite existsb_exists. split.
  - intros (y & Hy & E). apply String.eqb_eq in E. now subst.
  - intros H. exists x. split; [assumption|apply String.eqb_refl].
Qed.

Lemma in_sym_diff (x : string) (a b : list string) :
  In x (sym_diff a b) <-> (In x a /\ ~ In x b) \/ (In x b /\ ~ In x a).
Proof.
  unfold sym_diff. rewrite in_app_iff, !filter_In, !negb_true_iff.
  rewrite <- !not_true_iff_false, !existsb_eqb_in. tauto.
Qed.

Lemma sort_keys_run (sortp ws : list string) :
  (forall w, In w ws -> In (base_name w) sortp) ->
  sort_keys sortp ws = Ok (map (fun w => (position (base_name w) sortp, w)) ws).
Proof.
  induction ws as [|w ws IH]; simpl; intros H; [reflexivity|].
  fold (base_name w). rewrite index_position by (apply H; now left).
  rewrite IH; [reflexivity|]. intros w' Hw'. apply H. now right.
Qed.

Section SortCbs.
Context {coord crs : Type} {RT : Runtime coord crs}.

(** Iterating over a set visits the members of the set. *)
Hypothesis set_to_list_members :
  forall l x, In x (set_to_list l) <-> In x l.

Lemma sortp_complete (cb_list : list string) (d : bucket) (k : string) :
  In k (dict_keys d) ->
  In (base_name k)
     (cb_list ++ set_to_list (sym_diff cb_list (map base_name (dict_keys d)))).
Proof.
  intros Hk. apply in_app_iff.
  destruct (in_dec string_dec (base_name k) cb_list); [now left|].
  right. apply set_to_list_members, in_sym_diff. right.
  split; [now apply in_map|assumption].
Qed.

(** [_sort_cbs] never raises. *)
Lemma sort_cbs_run (cb_list : list string) (d : bucket) :
  _sort_cbs cb_list d = Ok (sort_order cb_list d).
Proof.
  unfold _sort_cbs, sort_order. destruct d as [|kv d0] eqn:Ed; [reflexivity|].
  rewrite <- Ed. clear Ed kv d0.
  change (map PyStr.rsplit_head (dict_keys d)) with (map base_name (dict_keys d)).
  now rewrite (sort_keys_run _ (dict_keys d) (sortp_complete cb_list d)).
Qed.

Lemma sort_order_perm (cb_list : list string) (d : bucket) :
  Permutation (sort_order cb_list d) (dict_keys d).
Proof.
  unfold sort_order. destruct d as [|kv d0] eqn:Ed; [constructor|].
  rewrite <- Ed. clear Ed kv d0.
  set (l := map _ (dict_keys d)).
  assert (Hl : map snd l = dict_keys d).
  { unfold l. rewrite map_map. apply map_id. }
  etransitivity; [apply Permutation_map, sorted_perm|now rewrite Hl].
Qed.

Lemma sort_order_policy (cb_list : list string) (d : bucket) :
  bucket_inv d -> in_policy_order cb_list d (sort_order cb_list d).
Proof.
  intros Hinv. split; [apply sort_order_perm|].
  unfold sort_order.
  destruct d as [|kv d0] eqn:Ed.
  { exists []. split; [|constructor].
    intros n. split; [intros []|]. now intros [_ (k & [] & _)]. }
  rewrite <- Ed in *. clear Ed kv d0.
  set (cbnames := map base_name (dict_keys d)).
  set (S := set_to_list (sym_diff cb_list cbnames)).
  set (sortp := cb_list ++ S).
  set (p := fun n => negb (existsb (String.eqb n) cb_list)).
  assert (Hp : forall n, p n = true <-> ~ In n cb_list).
  { intros n. unfold p. rewrite negb_true_iff, <- not_true_iff_false.
    now rewrite existsb_eqb_in. }
  assert (Hsortp : forall k, In k (dict_keys d) -> In (base_name k) sortp)
    by apply sortp_complete.
  set (rank := fun w => position (base_name w) sortp).
  set (l := map (fun w => (rank w, w)) (dict_keys d)).
  exists (filter p S). split.
  { intros n. rewrite filter_In, Hp. unfold S.
    rewrite set_to_list_members, in_sym_diff. unfold cbnames.
    rewrite in_map_iff. split.
    - intros [[[? ?] | [(k & ? & ?) ?]] ?]; [tauto|]. split; eauto.
    - intros [? (k & ? & ?)]. split; [|assumption]. right. split; eauto. }
  apply StronglySorted_map.
  apply (StronglySorted_weaken (key_then seq_before)).
  2:{ apply sorted_stable. unfold l. apply StronglySorted_map.
      exact Hinv. }
  intros a b Ha Hb Hab.
  assert (Hin : forall x, In x (sorted l) ->
                          fst x = rank (snd x) /\ In (snd x) (dict_keys d)).
  { intros x Hx. apply (Permutation_in _ (sorted_perm l)) in Hx.
    unfold l in Hx. apply in_map_iff in Hx as (w & <- & Hw). now split. }
  destruct (Hin a Ha) as [Ea Hka]. destruct (Hin b Hb) as [Eb Hkb].
  unfold policy_before. unfold rank in Ea, Eb.
  destruct Hab as [Hlt | [Heq Hseq]].
  - left. rewrite Ea, Eb in Hlt. unfold sortp in Hlt.
    set (na := base_name (snd a)) in *. set (nb := base_name (snd b)) in *.
    destruct (in_dec string_dec na cb_list) as [Hna | Hna];
      destruct (in_dec string_dec nb cb_list) as [Hnb | Hnb].
    + rewrite !position_app_l in Hlt by assumption.
      rewrite !position_app_l by assumption. exact Hlt.
    + rewrite (position_app_l na) by assumption.
      rewrite (position_app_r nb) by assumption.
      pose proof (position_lt_length na cb_list Hna). lia.
    + rewrite (position_app_l nb) in Hlt by assumption.
      rewrite (position_app_r na) in Hlt by assumption.
      pose proof (position_lt_length nb cb_list Hnb). lia.
    + rewrite !position_app_r in Hlt by assumption.
      rewrite !position_app_r by assumption.
      apply Nat.add_lt_mono_l. apply position_filter_lt; [now apply Hp..|]. lia.
  - right. rewrite Ea, Eb in Heq.
    assert (E : base_name (snd a) = base_name (snd b)).
    { apply (position_inj _ _ sortp); auto. }
    split; [assumption|now apply Hseq].
Qed.

(** The dispatch loop over a bucket runs its entries in the order of
    [_sort_cbs], each once. *)
Lemma for_each_invoke (c : container (coord:=coord) click_cbs) (bcbs : bucket)
  (d : clickdict coord) (order : list string) :
  (forall key, In key order -> In key (dict_keys bcbs)) ->
  for_each order (fun key =>
    match dict_get String.eqb key bcbs with
    | None => raise KeyError
    | Some cb => emit (Invoke (_method c) key cb (ClickKw d))
    end) c =
  (Ok tt, c, invoke_all (_method c) bcbs (ClickKw d) order).
Proof.
  induction order as [|key order IH]; intros Hin; [reflexivity|].
  destruct (in_keys_dict_get String.eqb string_eqb_eq key bcbs) as [cb Hcb].
  { apply Hin. now left. }
  cbn [for_each invoke_all flat_map]. rewrite Hcb.
  erewrite bind_ok by reflexivity.
  rewrite IH by (intros k Hk; apply Hin; now right). reflexivity.
Qed.

Lemma for_each_skip (c : container (coord:=coord) click_cbs) (bcbs : bucket)
  (order : list string) :
  (forall key, In key order -> In key (dict_keys bcbs)) ->
  for_each (E:=call coord) order (fun key =>
    match dict_get String.eqb key bcbs with
    | None => raise KeyError
    | Some cb => ret tt
    end) c =
  (Ok tt, c, []).
Proof.
  induction order as [|key order IH]; intros Hin; [reflexivity|].
  destruct (in_keys_dict_get String.eqb string_eqb_eq key bcbs) as [cb Hcb].
  { apply Hin. now left. }
  cbn [for_each]. rewrite Hcb.
  erewrite bind_ok by reflexivity.
  rewrite IH by (intros k Hk; apply Hin; now right). reflexivity.
Qed.

Lemma run_sorted_run (c : container click_cbs) (bcbs : bucket)
  (clickdict : option (clickdict coord)) :
  run_sorted bcbs clickdict c =
    (Ok tt, c,
     match clickdict with
     | Some d => invoke_all (_method c) bcbs (ClickKw d) (sort_order (_cb_list c) bcbs)
     | None => []
     end).
Proof.
  assert (Hin : forall key, In key (sort_order (_cb_list c) bcbs) ->
                            In key (dict_keys bcbs)).
  { intros key Hk.
    exact (Permutation_in _ (sort_order_perm (_cb_list c) bcbs) Hk). }
  unfold run_sorted.
  erewrite bind_ok by reflexivity.
  erewrite bind_ok by (unfold lift_res; rewrite sort_cbs_run; reflexivity).
  destruct clickdict as [d|].
  - now rewrite for_each_invoke.
  - now rewrite for_each_skip.
Qed.

End SortCbs.

(** ** The buckets keep their entries in attach order *)

Lemma next_count_above_base (name : string) (d : bucket) (ncb : list nat)
  (k : string) :
  ncb_of name (dict_keys d) = Ok ncb ->
  In k (dict_keys d) -> base_name k = name ->
  sequence k < next_count ncb.
Proof.
  intros H Hin Hb. apply next_count_above.
  apply (ncb_of_in _ _ _ _ H Hin). subst name. apply startswith_of_base_name.
Qed.

Lemma bucket_inv_nil : bucket_inv [].
Proof. constructor. Qed.

Lemma bucket_inv_append (name : string) (d : bucket) (ncb : list nat) (v : partial) :
  bucket_inv d -> ncb_of name (dict_keys d) = Ok ncb ->
  bucket_inv (d ++ [(entry_key name (next_count ncb), v)]).
Proof.
  intros Hinv Hncb. unfold bucket_inv. rewrite dict_keys_app.
  apply StronglySorted_snoc; [assumption|].
  rewrite Forall_forall. intros k Hk Hbase.
  rewrite base_name_entry_key in Hbase. rewrite sequence_entry_key.
  now apply (next_count_above_base name d).
Qed.

Lemma bucket_inv_del (name : string) (d : bucket) :
  bucket_inv d -> bucket_inv (dict_del String.eqb name d).
Proof.
  unfold bucket_inv. rewrite dict_keys_del. apply StronglySorted_filter.
Qed.

Lemma registry_inv_nil : registry_inv [].
Proof. intros ds b. apply bucket_inv_nil. Qed.

Lemma registry_inv_same (r r' : click_cbs) :
  same_buckets r r' -> registry_inv r -> registry_inv r'.
Proof. intros Hs Hr ds b. rewrite Hs. apply Hr. Qed.

Lemma registry_inv_set_bucket (ds : string) (b : Z) (d : bucket) (r : click_cbs) :
  registry_inv r -> bucket_inv d -> registry_inv (set_bucket ds b d r).
Proof.
  intros Hr Hd ds' b'. rewrite bucket_of_set_bucket.
  destruct (_ && _); [assumption|apply Hr].
Qed.

Section Reachable.
Context {coord : Type}.

Lemma click_remove_state (ID : option string) (c : container click_cbs) :
  state_of (_click_container.remove (coord:=coord) ID c) = c \/
  exists name ds b,
    state_of (_click_container.remove (coord:=coord) ID c) =
    set_cbs (set_bucket ds b (dict_del String.eqb name (bucket_of (cbs c) ds b))
               (cbs c)) c.
Proof.
  destruct ID as [s|]; [|now left].
  destruct (PyStr.split_dunder s) as [|name [|ds [|b [|x l]]]] eqn:Hs;
    try (left; unfold _click_container.remove, _click_container.unpack3;
         rewrite Hs; reflexivity).
  destruct (PyStr.Z_of_str b) as [button|] eqn:Hb.
  - destruct (click_lookup (cbs c) name ds button) as [v|] eqn:Hl.
    + unfold click_lookup in Hl.
      destruct (dict_get String.eqb ds (cbs c)) as [dsdict|] eqn:Hds; [|discriminate].
      destruct (dict_get Z.eqb button dsdict) as [bdict|] eqn:Hbt; [|discriminate].
      destruct (click_remove_present (coord:=coord) c s name ds b button
                  dsdict bdict v) as [tr Hr]; auto.
      right. exists name, ds, button. rewrite Hr.
      unfold bucket_of, dsdict_of. now rewrite Hds, Hbt.
    + left. now rewrite (click_remove_absent c s name ds b button).
  - left. unfold _click_container.remove, _click_container.unpack3.
    rewrite Hs. unfold bind, ret, get, raise. cbn.
    destruct (dict_get String.eqb ds (cbs c)); [rewrite Hb|]; reflexivity.
Qed.

Lemma forward_events_cbs {R} (args : list nat) (c : container R) :
  cbs (state_of (forward_events (coord:=coord) args c)) = cbs c.
Proof.
  unfold forward_events. revert c.
  induction args as [|m args IH]; intros c; [reflexivity|].
  cbn [for_each]. erewrite bind_ok by reflexivity.
  specialize (IH (set_fwd_cbs (fwd_add m (_fwd_cbs c)) c)).
  destruct (for_each args _ _) as [[r s] t]. exact IH.
Qed.

Lemma run_op_inv (o : op) (c : container click_cbs) :
  registry_inv (cbs c) -> registry_inv (cbs (run_op (coord:=coord) o c)).
Proof.
  intros Hinv. destruct o as [cb dbl button kw | ID | e | ds | args]; cbn [run_op];
    [| |assumption| |].
  - rewrite click_add_callback_run. unfold click_attach_outcome. cbv zeta.
    destruct (forallb _ _); [assumption|].
    assert (Ht : registry_inv (touch (ds_of dbl) button (cbs c)))
      by (apply (registry_inv_same (cbs c)); [apply same_buckets_touch|assumption]).
    destruct (negb (resolves c cb)).
    { match goal with
      | |- context [turned_down ?cb ?m ?k ?c ?t] =>
          destruct (turned_down_raises cb m k c t) as [e [H|H]]; rewrite H;
          assumption
      end. }
    destruct (ncb_of _ _) as [ncb|e] eqn:Hncb; [|assumption].
    destruct (_ && _); [assumption|].
    cbn [state_of fst snd cbs set_cbs].
    apply registry_inv_set_bucket; [assumption|].
    apply bucket_inv_append; [apply Hinv|assumption].
  - destruct (click_remove_state ID c) as [-> | (name & ds & b & ->)];
      [assumption|].
    cbn [cbs set_cbs]. apply registry_inv_set_bucket; [assumption|].
    apply bucket_inv_del, Hinv.
  - rewrite cbs_ds_run. cbn [state_of fst snd cbs set_cbs].
    apply (registry_inv_same (cbs c)); [apply same_buckets_touch_ds|assumption].
  - now rewrite forward_events_cbs.
Qed.

Lemma run_ops_inv (ops : list op) (c : container click_cbs) :
  registry_inv (cbs c) -> registry_inv (cbs (run_ops (coord:=coord) ops c)).
Proof.
  unfold run_ops. revert c.
  induction ops as [|o ops IH]; intros c Hinv; [assumption|].
  cbn [fold_left]. apply IH. now apply run_op_inv.
Qed.

End Reachable.

(** ** Dispatch cycles *)

Lemma zoom_run {E E' S T A} (proj : T -> S) (upd : S -> T -> T) (tag : E -> E')
  (m : @M E S A) (t : T) (r : res A) (s' : S) (tr : list E) :
  m (proj t) = (r, s', tr) ->
  zoom proj upd tag m t = (r, upd s' t, map tag tr).
Proof. intros H. unfold zoom. now rewrite H. Qed.

Lemma at_obj_run {coord crs R A} (a : accessor coord crs R) (m : CM coord R A)
  (mp : Maps coord crs) (r : res A) (c' : container R) (tr : list (call coord)) :
  m (getobj a mp) = (r, c', tr) ->
  at_obj a m mp = (r, setobj a c' mp, tr).
Proof.
  intros H. unfold at_obj. rewrite (zoom_run _ _ _ _ _ _ _ _ H).
  now rewrite map_id.
Qed.

Section Dispatch.
Context {coord crs : Type} {RT : Runtime coord crs}.

Hypothesis set_to_list_members :
  forall l x, In x (set_to_list l) <-> In x l.

(** A dispatch cycle over the bucket found for the event. *)
Lemma dispatch_bucket_run (c : container click_cbs) (ds : string)
  (button : option Z) (clickdict : option (clickdict coord)) :
  let c1 := set_cbs (touch_ds ds (cbs c)) c in
  let d := match button with Some b => bucket_of (cbs c) ds b | None => [] end in
  match button with
  | None => ret tt
  | Some b =>
      match dict_get Z.eqb b (dsdict_of (cbs c) ds) with
      | None => ret tt
      | Some bcbs => run_sorted bcbs clickdict
      end
  end c1 =
  (Ok tt, c1,
   match clickdict with
   | Some kw => invoke_all (_method c) d (ClickKw kw) (sort_order (_cb_list c) d)
   | None => []
   end).
Proof.
  intros c1 d.
  assert (Hempty :
            @ret (call coord) _ _ tt c1 =
            (Ok tt, c1,
             match clickdict with
             | Some kw => invoke_all (_method c) [] (ClickKw kw)
                            (sort_order (_cb_list c) [])
             | None => []
             end)) by now destruct clickdict.
  destruct button as [b|]; [|exact Hempty].
  unfold d, bucket_of.
  destruct (dict_get Z.eqb b (dsdict_of (cbs c) ds)) as [bcbs|]; [|exact Hempty].
  rewrite (run_sorted_run set_to_list_members). reflexivity.
Qed.

Lemma onclick_run (c : container click_cbs) (event : mouse_event coord) :
  let d := matching_bucket (cbs c) (dblclick event) (button event) in
  cb_click_container._onclick event c =
    (Ok tt,
     set_cbs (touch_ds (ds_of (dblclick event)) (cbs c))
       (set_event (MouseEvent event) c),
     invoke_all (_method c) d
       (ClickKw (cb_click_container._get_clickdict event))
       (sort_order (_cb_list c) d)).
Proof.
  intros d.
  pose proof (dispatch_bucket_run (set_event (MouseEvent event) c)
                (ds_of (dblclick event)) (button event)
                (Some (cb_click_container._get_clickdict event))) as Hrun.
  cbv zeta in Hrun.
  unfold cb_click_container._onclick. cbv zeta. fold (ds_of (dblclick event)).
  erewrite bind_ok by reflexivity.
  erewrite bind_ok by apply cbs_ds_run.
  cbn [cbs _method _cb_list set_event] in Hrun |- *.
  subst d. unfold matching_bucket in *.
  destruct (button event) as [b|];
    [destruct (dict_get Z.eqb b (dsdict_of (cbs c) (ds_of (dblclick event))))|];
    rewrite Hrun; reflexivity.
Qed.

Lemma onpick_run (m : Maps coord crs) (event : pick_event coord)
  (clickdict : option (clickdict coord)) :
  cb_click_container.toolbar_active m = false ->
  cb_pick_container.option_nat_eqb (artist event) (figure_coll m) = true ->
  cb_pick_container._get_pickdict m event = Ok clickdict ->
  let c := cb_pick m in
  let d := matching_bucket (cbs c) (p_dblclick event) (p_button event) in
  cb_pick_container._onpick event m =
    (Ok tt,
     set_cb_pick (set_cbs (touch_ds (ds_of (p_dblclick event)) (cbs c))
                    (set_event (PickEvent event) c)) m,
     match clickdict with
     | Some kw => invoke_all (_method c) d (ClickKw kw) (sort_order (_cb_list c) d)
     | None => []
     end ++ pick_redraw c (p_dblclick event) (p_button event)).
Proof.
  intros Htool Hart Hdict c d.
  pose proof (dispatch_bucket_run (set_event (PickEvent event) c)
                (ds_of (p_dblclick event)) (p_button event)
                clickdict) as Hrun.
  cbv zeta in Hrun. cbn [cbs _method _cb_list set_event] in Hrun.
  unfold cb_pick_container._onpick.
  erewrite bind_ok by reflexivity. rewrite Htool.
  erewrite bind_ok by (apply (at_obj_run pick_obj); reflexivity).
  rewrite Hart. cbn [negb].
  erewrite bind_ok by (unfold lift_res; rewrite Hdict; reflexivity).
  fold (ds_of (p_dblclick event)).
  erewrite bind_ok
    by (apply (at_obj_run pick_obj); apply cbs_ds_run).
  cbn [app getobj setobj pick_obj cb_pick set_cb_pick cbs set_event].
  unfold pick_redraw. fold c in Hrun |- *.
  set (c1 := set_cbs (touch_ds (ds_of (p_dblclick event)) (cbs c))
               (set_event (PickEvent event) c)) in *.
  subst d. unfold matching_bucket in *.
  destruct (p_button event) as [b|].
  2:{ clear Hrun. now destruct clickdict. }
  unfold bucket_of in *.
  destruct (dict_get Z.eqb b (dsdict_of (cbs c) (ds_of (p_dblclick event))))
    as [bcbs|].
  2:{ clear Hrun. now destruct clickdict. }
  erewrite bind_ok.
  2:{ apply (at_obj_run pick_obj). cbn [getobj pick_obj cb_pick set_cb_pick].
      exact Hrun. }
  cbn [setobj pick_obj]. unfold emit.
  replace (set_cb_pick c1 (set_cb_pick c1 m)) with (set_cb_pick c1 m)
    by reflexivity.
  reflexivity.
Qed.

(** A pick dispatch cycle that a guard stops, or whose index is out of
    range, executes nothing. *)
Lemma onpick_stopped (m : Maps coord crs) (event : pick_event coord) :
  let m1 := set_cb_pick (set_event (PickEvent event) (cb_pick m)) m in
  (cb_click_container.toolbar_active m = true ->
   cb_pick_container._onpick event m = (Ok tt, m, [])) /\
  (cb_click_container.toolbar_active m = false ->
   cb_pick_container.option_nat_eqb (artist event) (figure_coll m) = false ->
   cb_pick_container._onpick event m = (Ok tt, m1, [])) /\
  (forall e,
     cb_click_container.toolbar_active m = false ->
     cb_pick_container.option_nat_eqb (artist event) (figure_coll m) = true ->
     cb_pick_container._get_pickdict m event = Raise e ->
     cb_pick_container._onpick event m = (Raise e, m1, [])).
Proof.
  intros m1. unfold cb_pick_container._onpick. repeat split.
  - intros Htool. erewrite bind_ok by reflexivity. now rewrite Htool.
  - intros Htool Hart. erewrite bind_ok by reflexivity. rewrite Htool.
    erewrite bind_ok by (apply (at_obj_run pick_obj); reflexivity).
    rewrite Hart. reflexivity.
  - intros e Htool Hart Hdict. erewrite bind_ok by reflexivity. rewrite Htool.
    erewrite bind_ok by (apply (at_obj_run pick_obj); reflexivity).
    rewrite Hart. cbn [negb].
    erewrite bind_raise by (unfold lift_res; rewrite Hdict; reflexivity).
    reflexivity.
Qed.

(** C1, amended.  A click dispatch cycle, and a pick dispatch cycle that
    passes its guards and resolves a data point, run the entries of the
    bucket found for the event one after the other, each once, sorted by
    the position of the base name in the catalog extended with the base
    names outside the catalog, entries of one base name in ascending order
    of their sequence numbers.  A pick cycle that a guard stops (a toolbar
    mode is active, or the artist is not the collection of the Maps
    object) makes no call; one whose index lies outside the data raises
    and makes no call; one without an index executes no entry and only
    requests the redraw.  The container is any container reached from an
    empty registry by attach calls, removals, dispatch cycles and
    forwarding set-up. *)
Theorem click_and_pick_run_in_policy_order
  (method : string) (cb_list : list string) (attrs : dict string attr)
  (fwd : list nat) (ops : list op) (event : mouse_event coord)
  (m : Maps coord crs) (pevent : pick_event coord) :
  let c := run_ops (coord:=coord) ops
             (mk_container method cb_list attrs [] fwd None) in
  let mp := set_cb_pick c m in
  (let d := matching_bucket (cbs c) (dblclick event) (button event) in
   exists c' order,
     in_policy_order (_cb_list c) d order /\
     cb_click_container._onclick event c =
       (Ok tt, c',
        invoke_all (_method c) d
          (ClickKw (cb_click_container._get_clickdict event)) order)) /\
  (let d := matching_bucket (cbs c) (p_dblclick pevent) (p_button pevent) in
   exists m' order,
     in_policy_order (_cb_list c) d order /\
     cb_pick_container._onpick pevent mp =
       if cb_click_container.toolbar_active mp
          || negb (cb_pick_container.option_nat_eqb (artist pevent)
                     (figure_coll mp))
       then (Ok tt, m', [])
       else
         match cb_pick_container._get_pickdict mp pevent with
         | Raise e => (Raise e, m', [])
         | Ok None => (Ok tt, m', pick_redraw c (p_dblclick pevent) (p_button pevent))
         | Ok (Some kw) =>
             (Ok tt, m',
              invoke_all (_method c) d (ClickKw kw) order
              ++ pick_redraw c (p_dblclick pevent) (p_button pevent))
         end).
Proof.
  intros c mp.
  assert (Hinv : registry_inv (cbs c))
    by (apply run_ops_inv, registry_inv_nil).
  assert (Hb : forall dbl button, bucket_inv (matching_bucket (cbs c) dbl button)).
  { intros dbl [b|]; [apply Hinv|apply bucket_inv_nil]. }
  split.
  - eexists _, _. split; [|apply onclick_run].
    apply (sort_order_policy set_to_list_members), Hb.
  - cbv zeta.
    destruct (onpick_stopped mp pevent) as (Hstop1 & Hstop2 & Hstop3).
    destruct (cb_click_container.toolbar_active mp) eqn:Htool; cbn [orb].
    { eexists _, _. split; [|now apply Hstop1].
      apply (sort_order_policy set_to_list_members), Hb. }
    destruct (cb_pick_container.option_nat_eqb (artist pevent) (figure_coll mp))
      eqn:Hart; cbn [negb].
    2:{ eexists _, _. split; [|now apply Hstop2].
        apply (sort_order_policy set_to_list_members), Hb. }
    destruct (cb_pick_container._get_pickdict mp pevent) as [[kw|]|e] eqn:Hdict.
    + eexists _, _.
      split; [|apply (onpick_run mp pevent (Some kw) Htool Hart Hdict)].
      apply (sort_order_policy set_to_list_members), Hb.
    + eexists _, _.
      split; [|apply (onpick_run mp pevent None Htool Hart Hdict)].
      apply (sort_order_policy set_to_list_members), Hb.
    + eexists _, _. split; [|now apply Hstop3].
      apply (sort_order_policy set_to_list_members), Hb.
Qed.

End Dispatch.

(** C1, the claim as stated fails for the keypress class: the entries of a
    key run in the order in which they were attached.  With a custom
    callback attached before [switch_layer], the custom callback runs
    first, although [switch_layer] is in the catalog. *)
Lemma keypress_runs_in_attach_order :
  keypress_container._onpress (coord:=Z) "a" Example.keys_attached =
    (Ok tt, set_event (KeyEvent "a") Example.keys_attached,
     [Invoke "keypress" "show_help_0" (mk_partial "show_help" []) (KeyKw "a");
      Invoke "keypress" "switch_layer_0" (mk_partial "switch_layer" []) (KeyKw "a")]) /\
  ~ in_policy_order (_cb_list Example.keys_attached)
      (key_bucket_of (cbs Example.keys_attached) "a")
      ["show_help_0"; "switch_layer_0"].
Proof.
  split; [reflexivity|].
  intros [_ (others & _ & Hs)].
  inversion Hs as [|? ? _ Hall]; subst.
  inversion Hall as [|? ? Hfirst _]; subst.
  destruct Hfirst as [Hlt | [Heq _]].
  - vm_compute in Hlt. lia.
  - vm_compute in Heq. discriminate.
Qed.

Lemma click_and_pick_run_in_policy_order_witness :
  let c := run_ops (coord:=Z) Example.attach_four Example.click0 in
  exists c' order,
    in_policy_order (_cb_list c)
      (matching_bucket (cbs c) false (Some 1%Z)) order /\
    cb_click_container._onclick (RT:=Example.runtime) Example.click_event c =
      (Ok tt, c',
       invoke_all (_method c) (matching_bucket (cbs c) false (Some 1%Z))
         (ClickKw (cb_click_container._get_clickdict Example.click_event))
         order).
Proof.
  exact (proj1
           (click_and_pick_run_in_policy_order (RT:=Example.runtime)
              (fun l x => nodup_In string_dec l x)
              "click" Example.click_catalog Example.click_attrs
              [] Example.attach_four Example.click_event
              (Example.maps 0 0 Example.click0 Example.pick0 Example.keypress0)
              Example.pick_event0)).
Defined.

(** The order of that dispatch cycle, computed. *)
Example click_order_example :
  invoked_keys
    (snd (cb_click_container._onclick (RT:=Example.runtime) Example.click_event
            (run_ops (coord:=Z) Example.attach_four Example.click0))) =
  ["mark_0"; "mark_1"; "clear_markers_0"; "zoom_to_0"].
Proof. reflexivity. Qed.

(** ** The process: Maps objects that forward to each other *)

Section WorldFacts.
Context {coord crs : Type}.

Lemma world_set_same (i : nat) (m : Maps coord crs) (w : world coord crs) :
  world_set i m w i = m.
Proof. unfold world_set. now rewrite Nat.eqb_refl. Qed.

Lemma world_set_other (i j : nat) (m : Maps coord crs) (w : world coord crs) :
  j <> i -> world_set i m w j = w j.
Proof. intros H. unfold world_set. now rewrite (proj2 (Nat.eqb_neq j i) H). Qed.

Lemma at_maps_run {A} (i : nat) (m : MM coord crs A) (w : world coord crs)
  (r : res A) (mp : Maps coord crs) (tr : list (call coord)) :
  m (w i) = (r, mp, tr) ->
  at_maps i m w = (r, world_set i mp w, map (pair i) tr).
Proof. intros H. unfold at_maps. now rewrite (zoom_run _ _ _ _ _ _ _ _ H). Qed.

Lemma click_variant_refl (m : Maps coord crs) : click_variant m m.
Proof. unfold click_variant. now destruct m as [? ? ? ? ? ? ? ? ? ? [] ? ?]. Qed.

Lemma click_variant_trans (m1 m2 m3 : Maps coord crs) :
  click_variant m1 m2 -> click_variant m2 m3 -> click_variant m1 m3.
Proof.
  unfold click_variant. intros H12 H23. rewrite H23 at 1. rewrite H12 at 1 2.
  reflexivity.
Qed.

Lemma click_variant_set (m : Maps coord crs) (r : click_cbs) (f : list nat) :
  click_variant m (set_cb_click (set_fwd_cbs f (set_cbs r (cb_click m))) m).
Proof. reflexivity. Qed.

Lemma invoked_on_app (i : nat) (t1 t2 : list (nat * call coord)) :
  invoked_on i (t1 ++ t2) = invoked_on i t1 ++ invoked_on i t2.
Proof.
  unfold invoked_on, invoked_keys.
  now rewrite filter_app, map_app, flat_map_app.
Qed.

Lemma invoked_keys_invoke_all (method : string) (d : bucket)
  (kw : cb_kwargs coord) (order : list string) :
  (forall k, In k order -> In k (dict_keys d)) ->
  invoked_keys (invoke_all method d kw order) = order.
Proof.
  induction order as [|k order IH]; intros H; [reflexivity|].
  destruct (in_keys_dict_get String.eqb string_eqb_eq k d) as [cb Hcb].
  { apply H. now left. }
  unfold invoke_all, invoked_keys in *. cbn [flat_map]. rewrite Hcb.
  cbn [flat_map app]. f_equal. apply IH. intros k' Hk'. apply H. now right.
Qed.

Lemma invoked_on_tagged (i j : nat) (tr : list (call coord)) :
  invoked_on i (map (pair j) tr) = if Nat.eqb j i then invoked_keys tr else [].
Proof.
  unfold invoked_on.
  induction tr as [|e tr IH]; cbn [map filter fst]; [now destruct (Nat.eqb j i)|].
  destruct (Nat.eqb j i) eqn:E.
  - cbn [map snd]. unfold invoked_keys in *. cbn [flat_map]. now rewrite IH.
  - exact IH.
Qed.

End WorldFacts.

(** ** [share_events] *)

Lemma for_each_grow {E S X} (l : list X) (body : X -> @M E S unit)
  (R : S -> S -> Prop) (Post : X -> S -> Prop) :
  (forall s, R s s) ->
  (forall s1 s2 s3, R s1 s2 -> R s2 s3 -> R s1 s3) ->
  (forall x s s', R s s' -> Post x s -> Post x s') ->
  (forall x s, In x l -> exists s', body x s = (Ok tt, s', []) /\ R s s' /\ Post x s') ->
  forall s, exists s',
    for_each l body s = (Ok tt, s', []) /\ R s s' /\ forall x, In x l -> Post x s'.
Proof.
  intros Hrefl Htrans Hstable.
  induction l as [|x l IH]; intros Hbody s.
  - exists s. split; [reflexivity|]. split; [apply Hrefl|]. intros x [].
  - destruct (Hbody x s (or_introl eq_refl)) as (s1 & Hx & HR1 & HP1).
    destruct (IH (fun y t Hy => Hbody y t (or_intror Hy)) s1)
      as (s2 & Hl & HR2 & HP2).
    exists s2. split; [|split].
    + cbn [for_each]. erewrite bind_ok by exact Hx. now rewrite Hl.
    + now apply (Htrans s s1 s2).
    + intros y [<- | Hy]; [now apply (Hstable _ s1 s2)|now apply HP2].
Qed.

Lemma fwd_add_in (m x : nat) (f : list nat) :
  In x (fwd_add m f) <-> In x f \/ x = m.
Proof.
  unfold fwd_add. destruct (existsb (Nat.eqb m) f) eqn:E.
  - split; [tauto|]. intros [H | ->]; [assumption|].
    apply existsb_exists in E as (y & Hy & Ey). apply Nat.eqb_eq in Ey. now subst.
  - rewrite in_app_iff. simpl. intuition.
Qed.

Lemma fwd_add_nodup (m : nat) (f : list nat) : NoDup f -> NoDup (fwd_add m f).
Proof.
  intros H. unfold fwd_add. destruct (existsb (Nat.eqb m) f) eqn:E; [assumption|].
  apply NoDup_app; [assumption|repeat constructor; intros []|].
  intros x Hx [Heq | []]. subst x.
  assert (existsb (Nat.eqb m) f = true); [|congruence].
  apply existsb_exists. exists m. split; [assumption|apply Nat.eqb_refl].
Qed.

Section ShareFacts.
Context {coord crs : Type}.

Lemma shares_refl (S : list nat) (w : world coord crs) : shares S w w.
Proof.
  intros i. split; [apply click_variant_refl|]. repeat split; auto.
Qed.

Lemma shares_trans (S : list nat) (w1 w2 w3 : world coord crs) :
  shares S w1 w2 -> shares S w2 w3 -> shares S w1 w3.
Proof.
  intros H12 H23 i.
  destruct (H12 i) as (V12 & C12 & G12 & N12 & D12).
  destruct (H23 i) as (V23 & C23 & G23 & N23 & D23).
  split; [now apply (click_variant_trans _ (w2 i))|].
  split; [congruence|]. split; [auto|]. split; [|auto].
  intros x Hx. destruct (N23 x Hx) as [H | H]; [auto|now right].
Qed.

Lemma share_with_run (S : list nat) (m1 m2 : nat) (w : world coord crs) :
  In m1 S -> In m2 S ->
  exists w',
    share_with click_obj m1 m2 w = (Ok tt, w', []) /\
    shares S w w' /\
    (m1 <> m2 -> In m2 (_fwd_cbs (cb_click (w' m1)))).
Proof.
  intros H1 H2. unfold share_with.
  destruct (Nat.eqb_spec m1 m2) as [-> | Hne]; cbn [negb].
  { exists w. split; [reflexivity|]. split; [apply shares_refl|congruence]. }
  eexists. split.
  { erewrite at_maps_run by (apply (at_obj_run click_obj); reflexivity).
    reflexivity. }
  cbn [setobj getobj click_obj]. split.
  - intros i. destruct (Nat.eq_dec i m1) as [-> | Hi].
    + rewrite world_set_same. cbn [cb_click set_cb_click cbs _fwd_cbs set_fwd_cbs].
      split.
      { unfold click_variant. cbn.
        now destruct (w m1) as [? ? ? ? ? ? ? ? ? ? [] ? ?]. }
      split; [reflexivity|]. split; [intros x Hx; apply fwd_add_in; now left|].
      split; [|apply fwd_add_nodup].
      intros x Hx. apply fwd_add_in in Hx as [Hx | ->]; [now left|].
      right. repeat split; auto.
    + rewrite world_set_other by assumption. apply shares_refl.
  - intros _. rewrite world_set_same.
    cbn [cb_click set_cb_click _fwd_cbs set_fwd_cbs]. apply fwd_add_in. now right.
Qed.

(** [share_events] returns, registers forwarding between every two
    distinct Maps objects of the set and changes nothing else. *)
Lemma share_events_run (self : nat) (args : list nat) (w : world coord crs) :
  exists w',
    share_events click_obj self args w = (Ok tt, w', []) /\
    shares (self :: args) w w' /\
    forall m1 m2, In m1 (self :: args) -> In m2 (self :: args) -> m1 <> m2 ->
                  In m2 (_fwd_cbs (cb_click (w' m1))).
Proof.
  unfold share_events. set (S := self :: args).
  destruct (for_each_grow S (fun m1 => for_each S (share_with click_obj m1))
              (shares S)
              (fun m1 w' => forall m2, In m2 S -> m1 <> m2 ->
                                       In m2 (_fwd_cbs (cb_click (w' m1))))
              (shares_refl S) (shares_trans S)) with (s := w)
    as (w' & Hrun & Hsh & Hpost).
  - intros m1 s s' Hs Hp m2 Hm2 Hne.
    destruct (Hs m1) as (_ & _ & G & _). apply G. now apply Hp.
  - intros m1 s Hm1.
    destruct (for_each_grow S (share_with click_obj m1) (shares S)
                (fun m2 w' => m1 <> m2 -> In m2 (_fwd_cbs (cb_click (w' m1))))
                (shares_refl S) (shares_trans S)) with (s := s)
      as (s' & Hrun & Hsh & Hpost).
    + intros m2 t t' Ht Hp Hne.
      destruct (Ht m1) as (_ & _ & G & _). apply G. now apply Hp.
    + intros m2 t Hm2. now apply share_with_run.
    + exists s'. split; [exact Hrun|]. split; [exact Hsh|].
      intros m2 Hm2. now apply Hpost.
  - exists w'. split; [exact Hrun|]. split; [exact Hsh|].
    intros m1 m2 Hm1 Hm2. now apply Hpost.
Qed.

End ShareFacts.

(** ** A click on a Maps object that forwards *)

Section Touched.
Context {coord crs : Type}.

Lemma click_touched_refl (m : Maps coord crs) : click_touched m m.
Proof.
  exists (_event (cb_click m)).
  now destruct m as [? ? ? ? ? ? ? ? ? ? [] ? ?].
Qed.

Lemma click_touched_set (m : Maps coord crs) (c' : container click_cbs) :
  _method c' = _method (cb_click m) ->
  _cb_list c' = _cb_list (cb_click m) ->
  _cb c' = _cb (cb_click m) ->
  click_touched m (set_cb_click c' m).
Proof.
  intros H1 H2 H3. exists (_event c'). cbn [cb_click set_cb_click].
  rewrite <- H1, <- H2, <- H3. now destruct c'.
Qed.

Lemma click_touched_trans (m1 m2 m3 : Maps coord crs) :
  click_touched m1 m2 -> click_touched m2 m3 -> click_touched m1 m3.
Proof.
  intros [e2 H12] [e3 H23]. exists e3. rewrite H23 at 1. rewrite H12 at 1 2 3 4.
  reflexivity.
Qed.

Lemma click_variant_touched (m m' : Maps coord crs) :
  click_variant m m' -> click_touched m m'.
Proof.
  unfold click_variant. intros H. exists (_event (cb_click m)).
  rewrite H at 1. reflexivity.
Qed.

End Touched.

Section ClickForwarding.
Context {coord crs : Type} {RT : Runtime coord crs}.

Hypothesis set_to_list_members :
  forall l x, In x (set_to_list l) <-> In x l.

Lemma invoked_keys_onclick (c : container (coord:=coord) click_cbs) (d : bucket)
  (kw : cb_kwargs coord) :
  invoked_keys (invoke_all (_method c) d kw (sort_order (_cb_list c) d)) =
  sort_order (_cb_list c) d.
Proof.
  apply invoked_keys_invoke_all. intros k Hk.
  exact (Permutation_in _ (sort_order_perm (_cb_list c) d) Hk).
Qed.

(** A dispatch cycle on Maps object [m] of the process. *)
Lemma onclick_at_run (m : nat) (event : mouse_event coord) (w : world coord crs) :
  exists w' tr,
    at_maps m (at_obj click_obj (cb_click_container._onclick event)) w =
      (Ok tt, w', tr) /\
    (forall i, i <> m -> w' i = w i) /\
    (forall i, click_touched (w i) (w' i) /\
               _fwd_cbs (cb_click (w' i)) = _fwd_cbs (cb_click (w i))) /\
    (forall Y, invoked_on Y tr =
               if Nat.eqb m Y then click_order (w m) (dblclick event) (button event)
               else []).
Proof.
  eexists _, _. split.
  { apply at_maps_run, (at_obj_run click_obj).
    apply (onclick_run set_to_list_members). }
  cbn [getobj setobj click_obj]. split; [|split].
  - intros i Hi. now apply world_set_other.
  - intros i. destruct (Nat.eq_dec i m) as [-> | Hi].
    + rewrite world_set_same. split; [|reflexivity].
      now apply click_touched_set.
    + rewrite world_set_other by assumption.
      split; [apply click_touched_refl|reflexivity].
  - intros Y. rewrite invoked_on_tagged.
    destruct (Nat.eqb m Y); [|reflexivity]. apply invoked_keys_onclick.
Qed.

Lemma forward_to_run (self m : nat) (event : mouse_event coord)
  (w : world coord crs) :
  exists w' tr,
    cb_click_container.forward_to self event m w = (Ok tt, w', tr) /\
    (forall i, i <> m -> w' i = w i) /\
    (forall i, click_touched (w i) (w' i) /\
               _fwd_cbs (cb_click (w' i)) = _fwd_cbs (cb_click (w i))) /\
    (forall Y, invoked_on Y tr =
               if Nat.eqb m Y then click_order (w m) (dblclick event) (button event)
               else []).
Proof.
  unfold cb_click_container.forward_to.
  erewrite bind_ok by reflexivity. cbv zeta.
  match goal with
  | |- context [cb_click_container._onclick ?e] =>
      destruct (onclick_at_run m e w) as (w' & tr & Hrun & Hother & Hvar & Hinv)
  end.
  exists w'. eexists. split.
  { erewrite bind_ok by exact Hrun. reflexivity. }
  split; [exact Hother|]. split; [exact Hvar|].
  intros Y. cbn [app]. rewrite invoked_on_app, Hinv. cbn [dblclick button].
  unfold invoked_on. cbn [filter fst]. destruct (Nat.eqb m Y); now rewrite ?app_nil_r.
Qed.

Lemma forward_loop_run (self : nat) (event : mouse_event coord) (L : list nat) :
  NoDup L ->
  forall w : world coord crs,
  exists w' tr,
    for_each L (cb_click_container.forward_to self event) w = (Ok tt, w', tr) /\
    (forall i, ~ In i L -> w' i = w i) /\
    (forall i, click_touched (w i) (w' i) /\
               _fwd_cbs (cb_click (w' i)) = _fwd_cbs (cb_click (w i))) /\
    (forall Y, invoked_on Y tr =
               if in_dec Nat.eq_dec Y L
               then click_order (w Y) (dblclick event) (button event)
               else []).
Proof.
  induction 1 as [|m L Hm HL IH]; intros w.
  - exists w, []. split; [reflexivity|]. split; [reflexivity|].
    split; [|reflexivity].
    intros i. split; [apply click_touched_refl|reflexivity].
  - destruct (forward_to_run self m event w) as (w1 & t1 & H1 & O1 & V1 & I1).
    destruct (IH w1) as (w2 & t2 & H2 & O2 & V2 & I2).
    exists w2, (t1 ++ t2). split; [|split; [|split]].
    + cbn [for_each]. erewrite bind_ok by exact H1. now rewrite H2.
    + intros i Hi. rewrite O2, O1; [reflexivity| |]; intros ?; apply Hi;
        [now left|now right].
    + intros i. destruct (V1 i) as [A1 B1]. destruct (V2 i) as [A2 B2].
      split; [now apply (click_touched_trans _ (w1 i))|congruence].
    + intros Y. rewrite invoked_on_app, I1, I2.
      destruct (in_dec Nat.eq_dec Y (m :: L)) as [Hin | Hout];
        destruct (Nat.eqb_spec m Y) as [<- | Hne].
      * destruct (in_dec Nat.eq_dec m L); [contradiction|apply app_nil_r].
      * destruct (in_dec Nat.eq_dec Y L) as [HY | HY].
        -- rewrite O1 by congruence. reflexivity.
        -- destruct Hin; contradiction.
      * exfalso. apply Hout. now left.
      * destruct (in_dec Nat.eq_dec Y L) as [HY | HY]; [|reflexivity].
        exfalso. apply Hout. now right.
Qed.

(** The children whose axes do not hold the event are passed over. *)
Lemma click_on_skip (event : mouse_event coord) (a : nat) (L : list nat)
  (w : world coord crs) :
  inaxes event = Some a ->
  (forall ch, In ch L -> figure_ax (w ch) <> a) ->
  for_each L (cb_click_container.click_on event) w = (Ok tt, w, []).
Proof.
  intros Ha. induction L as [|ch L IH]; intros Hch; [reflexivity|].
  cbn [for_each].
  assert (Hskip : cb_click_container.click_on event ch w = (Ok tt, w, [])).
  { unfold cb_click_container.click_on. erewrite bind_ok by reflexivity.
    unfold cb_click_container.in_axes_of. rewrite Ha.
    rewrite (proj2 (Nat.eqb_neq a (figure_ax (w ch)))); [reflexivity|].
    intros E. apply (Hch ch); [now left|now symmetry]. }
  erewrite bind_ok by exact Hskip.
  rewrite IH; [reflexivity|]. intros c Hc. apply Hch. now right.
Qed.

Lemma click_touched_figure_ax (m m' : Maps coord crs) :
  click_touched m m' -> figure_ax m' = figure_ax m.
Proof. intros [e H]. rewrite H. reflexivity. Qed.

Lemma click_touched_guards (m m' : Maps coord crs) :
  click_touched m m' ->
  _modifier_pressed m' = _modifier_pressed m /\
  cb_click_container.toolbar_active m' = cb_click_container.toolbar_active m /\
  _children m' = _children m /\
  _cb_list (cb_click m') = _cb_list (cb_click m).
Proof. intros [e H]. rewrite H. repeat split. Qed.

(** A click in the axes of Maps object [X], whose children have other
    axes and which does not forward to itself: [X] runs its entries, then
    every Maps object it forwards to runs its own, each once. *)
Lemma clickcb_run (X : nat) (event : mouse_event coord) (w : world coord crs) :
  NoDup (X :: _fwd_cbs (cb_click (w X))) ->
  _modifier_pressed (w X) = false ->
  cb_click_container.toolbar_active (w X) = false ->
  inaxes event = Some (figure_ax (w X)) ->
  (forall ch, In ch (_children (w X)) -> figure_ax (w ch) <> figure_ax (w X)) ->
  exists w' tr,
    cb_click_container.clickcb X event w = (Ok tt, w', tr) /\
    forall Y,
      invoked_on Y tr =
      if in_dec Nat.eq_dec Y (X :: _fwd_cbs (cb_click (w X)))
      then click_order (w Y) (dblclick event) (button event)
      else [].
Proof.
  intros Hnd Hmod Htool Hax Hch.
  inversion Hnd as [|? ? HX HL]; subst.
  destruct (onclick_at_run X event w) as (w1 & t1 & H1 & O1 & V1 & I1).
  destruct (V1 X) as [VX FX].
  destruct (forward_loop_run X event (_fwd_cbs (cb_click (w1 X)))
              ltac:(now rewrite FX) w1) as (w2 & t2 & H2 & O2 & V2 & I2).
  assert (Hfwd : cb_click_container._fwd_cb X event w1 = (Ok tt, w2, t2)).
  { unfold cb_click_container._fwd_cb. erewrite bind_ok by reflexivity.
    unfold cb_click_container.in_axes_of.
    rewrite Hax, (click_touched_figure_ax _ _ VX), Nat.eqb_refl. cbn [negb].
    now rewrite H2. }
  assert (HonX : cb_click_container.click_on event X w =
                 (Ok tt, w2, t1 ++ t2 ++ [(X, After_update X "click")])).
  { unfold cb_click_container.click_on. erewrite bind_ok by reflexivity.
    unfold cb_click_container.in_axes_of. rewrite Hax, Nat.eqb_refl.
    erewrite bind_ok by exact H1. erewrite bind_ok by exact Hfwd.
    reflexivity. }
  assert (Hvar2 : forall i, click_touched (w i) (w2 i)).
  { intros i. apply (click_touched_trans _ (w1 i)); [apply V1|apply V2]. }
  assert (Hskip : for_each (_children (w X)) (cb_click_container.click_on event) w2
                  = (Ok tt, w2, [])).
  { apply (click_on_skip event (figure_ax (w X))); [assumption|].
    intros ch Hin. rewrite (click_touched_figure_ax _ _ (Hvar2 ch)). now apply Hch. }
  eexists _, _. split.
  { unfold cb_click_container.clickcb. erewrite bind_ok by reflexivity.
    rewrite Hmod, Htool. unfold cb_click_container.click_family.
    erewrite bind_ok by reflexivity. cbn [for_each].
    erewrite bind_ok.
    2:{ erewrite bind_ok by exact HonX. rewrite Hskip. reflexivity. }
    erewrite bind_ok by reflexivity. reflexivity. }
  intros Y. rewrite !app_nil_r, !invoked_on_app, I1, I2.
  replace (invoked_on Y [(X, After_update X "click")]) with (@nil string)
    by (unfold invoked_on; cbn [filter fst]; now destruct (Nat.eqb X Y)).
  replace (invoked_on Y [(X, BM_update (_method (cb_click (w2 X))) None)])
    with (@nil string)
    by (unfold invoked_on; cbn [filter fst]; now destruct (Nat.eqb X Y)).
  rewrite !app_nil_r. rewrite FX.
  destruct (in_dec Nat.eq_dec Y (X :: _fwd_cbs (cb_click (w X)))) as [Hin | Hout];
    destruct (Nat.eqb_spec X Y) as [<- | Hne].
  - destruct (in_dec Nat.eq_dec X (_fwd_cbs (cb_click (w X))));
      [contradiction|apply app_nil_r].
  - destruct (in_dec Nat.eq_dec Y (_fwd_cbs (cb_click (w X)))) as [HY | HY].
    + rewrite O1 by congruence. reflexivity.
    + destruct Hin; contradiction.
  - exfalso. apply Hout. now left.
  - destruct (in_dec Nat.eq_dec Y (_fwd_cbs (cb_click (w X)))) as [HY | HY];
      [|reflexivity].
    exfalso. apply Hout. now right.
Qed.

End ClickForwarding.

(** ** The position handed to a peer *)

Section ForwardedPosition.
Context {coord crs : Type} {RT : Runtime coord crs}.

Hypothesis set_to_list_members :
  forall l x, In x (set_to_list l) <-> In x l.

(** The entries of the peer [m] are executed with the position that
    [transform], built from the projection of the peer to the projection of
    the forwarding Maps object, makes of the coordinates of the event. *)
Lemma forwarded_click_position (self m : nat) (event : mouse_event coord)
  (w : world coord crs) :
  let c := cb_click (w m) in
  let d := matching_bucket (cbs c) (dblclick event) (button event) in
  let kw :=
    mk_clickdict
      (transform (crs_plot (w m)) (crs_plot (w self)) (xdata event, ydata event))
      PyNone PyNone None in
  snd (cb_click_container.forward_to self event m w) =
  map (pair m) (invoke_all (_method c) d (ClickKw kw) (sort_order (_cb_list c) d))
  ++ [(m, After_update m "click")].
Proof.
  intros c d kw. unfold cb_click_container.forward_to.
  erewrite bind_ok by reflexivity. cbv zeta.
  erewrite bind_ok
    by (apply at_maps_run, (at_obj_run click_obj);
        apply (onclick_run set_to_list_members)).
  cbn [snd app getobj click_obj dblclick button]. fold c. fold d.
  unfold cb_click_container._get_clickdict. cbn [xdata ydata].
  unfold kw. now rewrite <- surjective_pairing.
Qed.

(** With the same projection on both sides and a reprojection that is the
    identity there, the peer gets the position of the event. *)
Lemma forwarded_click_same_projection (self m : nat) (event : mouse_event coord)
  (w : world coord crs) :
  (forall c xy, transform c c xy = xy) ->
  crs_plot (w m) = crs_plot (w self) ->
  let c := cb_click (w m) in
  let d := matching_bucket (cbs c) (dblclick event) (button event) in
  snd (cb_click_container.forward_to self event m w) =
  map (pair m)
    (invoke_all (_method c) d
       (ClickKw (mk_clickdict (xdata event, ydata event) PyNone PyNone None))
       (sort_order (_cb_list c) d))
  ++ [(m, After_update m "click")].
Proof.
  intros Hid Hcrs c d. rewrite forwarded_click_position.
  now rewrite Hcrs, Hid.
Qed.

End ForwardedPosition.

(** ** Sharing *)

Section Sharing.
Context {coord crs : Type} {RT : Runtime coord crs}.

Hypothesis set_to_list_members :
  forall l x, In x (set_to_list l) <-> In x l.

(** X26.  After [share_events] on the click containers of a set of Maps
    objects, every object of the set forwards to every other one, and a
    click in the axes of one of them runs, on each object of the set, the
    entries of the bucket for that click, each entry once and in the
    order of [_sort_cbs].  The clicked object is one that did not forward
    to itself before, whose children have axes of their own and whose drag
    and toolbar modes are idle. *)
Theorem shared_click_runs_every_instance_once
  (self : nat) (args : list nat) (X : nat) (event : mouse_event coord)
  (w : world coord crs) :
  In X (self :: args) ->
  NoDup (X :: _fwd_cbs (cb_click (w X))) ->
  _modifier_pressed (w X) = false ->
  cb_click_container.toolbar_active (w X) = false ->
  inaxes event = Some (figure_ax (w X)) ->
  (forall ch, In ch (_children (w X)) -> figure_ax (w ch) <> figure_ax (w X)) ->
  exists w1 w2 tr,
    share_events click_obj self args w = (Ok tt, w1, []) /\
    (forall m1 m2, In m1 (self :: args) -> In m2 (self :: args) -> m1 <> m2 ->
                   In m2 (_fwd_cbs (cb_click (w1 m1)))) /\
    cb_click_container.clickcb X event w1 = (Ok tt, w2, tr) /\
    forall Y, In Y (self :: args) ->
      invoked_on Y tr = click_order (w Y) (dblclick event) (button event) /\
      Permutation (invoked_on Y tr)
        (dict_keys (matching_bucket (cbs (cb_click (w Y)))
                      (dblclick event) (button event))).
Proof.
  intros HX Hnd Hmod Htool Hax Hch.
  destruct (share_events_run self args w) as (w1 & Hshare & Hsh & Hall).
  assert (Hg : forall i, figure_ax (w1 i) = figure_ax (w i) /\
                         _modifier_pressed (w1 i) = _modifier_pressed (w i) /\
                         cb_click_container.toolbar_active (w1 i) =
                           cb_click_container.toolbar_active (w i) /\
                         _children (w1 i) = _children (w i) /\
                         _cb_list (cb_click (w1 i)) = _cb_list (cb_click (w i))).
  { intros i. destruct (Hsh i) as (V & _). apply click_variant_touched in V.
    split; [now apply click_touched_figure_ax|now apply click_touched_guards]. }
  destruct (Hg X) as (GaX & GmX & GtX & GcX & _).
  destruct (Hsh X) as (_ & _ & _ & NX & DX).
  inversion Hnd as [|? ? HXout HL]; subst.
  destruct (clickcb_run set_to_list_members X event w1) as (w2 & tr & Hrun & Hinv).
  { constructor; [|now apply DX].
    intros Hin. destruct (NX X Hin) as [H | (_ & _ & H)]; [contradiction|now apply H]. }
  { congruence. }
  { congruence. }
  { now rewrite GaX. }
  { intros ch Hin. rewrite GcX in Hin. destruct (Hg ch) as (Gach & _).
    rewrite Gach, GaX. now apply Hch. }
  exists w1, w2, tr. split; [exact Hshare|]. split; [exact Hall|].
  split; [exact Hrun|].
  intros Y HY.
  assert (E : invoked_on Y tr = click_order (w Y) (dblclick event) (button event)).
  { rewrite Hinv.
    destruct (in_dec Nat.eq_dec Y (X :: _fwd_cbs (cb_click (w1 X)))) as [_ | Hout].
    - unfold click_order. destruct (Hg Y) as (_ & _ & _ & _ & Gl).
      destruct (Hsh Y) as (_ & C & _). now rewrite Gl, C.
    - exfalso. apply Hout. destruct (Nat.eq_dec X Y) as [-> | Hne]; [now left|].
      right. now apply Hall. }
  split; [exact E|]. rewrite E. apply sort_order_perm.
Qed.

(** A pick dispatch cycle for an event without index runs no entry. *)
Lemma onpick_without_index (m : Maps coord crs) (event : pick_event coord) :
  p_ind event = None ->
  artist event = figure_coll m ->
  exists m' tr,
    cb_pick_container._onpick event m = (Ok tt, m', tr) /\
    Forall (fun e => exists clear, e = BM_update clear (Some false)) tr.
Proof.
  intros Hind Hart.
  destruct (cb_click_container.toolbar_active m) eqn:Htool.
  { exists m, []. split; [|constructor].
    unfold cb_pick_container._onpick. erewrite bind_ok by reflexivity.
    now rewrite Htool. }
  eexists _, _. split.
  { apply (onpick_run set_to_list_members m event None Htool).
    - rewrite Hart. destruct (figure_coll m); [apply Nat.eqb_refl|reflexivity].
    - unfold cb_pick_container._get_pickdict. now rewrite Hind. }
  cbn [app]. unfold pick_redraw.
  destruct (p_button event) as [b|]; [|constructor].
  destruct (dict_get Z.eqb b _); repeat constructor. eauto.
Qed.

(** C8, amended.  When a pick event is forwarded to Maps objects whose
    picker finds no data point for the forwarded event, forwarding
    returns without an error and none of their entries is executed: the
    only calls made are redraw requests.  (The keys of the forwarding
    dictionary are distinct.) *)
Theorem forwarded_pick_without_match_runs_no_entry
  (self : nat) (event : pick_event coord) (me : mouse_event coord)
  (w : world coord crs) :
  mouseevent event = Some me ->
  NoDup (_fwd_cbs (cb_pick (w self))) ->
  (forall m, In m (_fwd_cbs (cb_pick (w self))) ->
     _pick_pixel m (w m)
       (mk_mouse_event (Some (figure_ax (w m))) (p_dblclick event)
          (p_button event) (xdata me) (ydata me)) = None) ->
  exists w' tr,
    cb_pick_container._fwd_cb self event w = (Ok tt, w', tr) /\
    Forall (fun e => exists clear, snd e = BM_update clear (Some false)) tr /\
    invoked_keys (map snd tr) = [].
Proof.
  intros Hme Hnd Hnone.
  assert (Hloop : forall L, NoDup L ->
            (forall m, In m L -> In m (_fwd_cbs (cb_pick (w self)))) ->
            forall w0, (forall m, In m L -> w0 m = w m) ->
            exists w' tr,
              for_each L (cb_pick_container.forward_to event me) w0 = (Ok tt, w', tr) /\
              Forall (fun e => exists clear, snd e = BM_update clear (Some false)) tr).
  { induction 1 as [|m L Hm HL IH]; intros Hin w0 Hsame.
    - exists w0, []. split; [reflexivity|constructor].
    - destruct (onpick_without_index (w0 m)
                  (mk_pick_event (figure_coll (w0 m)) (p_dblclick event)
                     (p_button event) None None) eq_refl eq_refl)
        as (m' & t1 & H1 & F1).
      destruct (IH (fun x Hx => Hin x (or_intror Hx)) (world_set m m' w0))
        as (w' & t2 & H2 & F2).
      { intros x Hx. rewrite world_set_other by (intros ->; contradiction).
        apply Hsame. now right. }
      assert (Hpx : _pick_pixel m (w0 m)
                      (mk_mouse_event (Some (figure_ax (w0 m))) (p_dblclick event)
                         (p_button event) (xdata me) (ydata me)) = None).
      { rewrite (Hsame m (or_introl eq_refl)).
        apply Hnone, Hin. now left. }
      exists w', (map (pair m) t1 ++ t2). split.
      + cbn [for_each]. erewrite bind_ok.
        2:{ unfold cb_pick_container.forward_to. erewrite bind_ok by reflexivity.
            cbv zeta. rewrite Hpx.
            erewrite at_maps_run by exact H1. reflexivity. }
        now rewrite H2.
      + apply Forall_app. split; [|exact F2].
        rewrite Forall_forall in *. intros e He.
        apply in_map_iff in He as (c & <- & Hc). now apply F1. }
  destruct (Hloop (_fwd_cbs (cb_pick (w self))) Hnd (fun m H => H) w
              (fun m _ => eq_refl))
    as (w' & tr & Hrun & Hall).
  assert (Hkeys : forall t : list (nat * call coord),
            Forall (fun e => exists clear, snd e = BM_update clear (Some false)) t ->
            invoked_keys (map snd t) = []).
  { induction 1 as [|e t [clear He] _ IH]; [reflexivity|].
    unfold invoked_keys in *. cbn [map flat_map]. now rewrite He, IH. }
  unfold cb_pick_container._fwd_cb. rewrite Hme.
  destruct (negb (cb_click_container.in_axes_of me (w self))) eqn:Hax.
  - exists w, []. split; [|split; [constructor|reflexivity]].
    erewrite bind_ok by reflexivity. now rewrite Hax.
  - exists w', tr. split; [|split; [exact Hall|now apply Hkeys]].
    erewrite bind_ok by reflexivity. rewrite Hax. now rewrite Hrun.
Qed.

End Sharing.

Lemma shared_click_runs_every_instance_once_witness :
  exists w1 w2 tr,
    share_events click_obj 0 [1] Example.two_maps = (Ok tt, w1, []) /\
    cb_click_container.clickcb (RT:=Example.runtime) 0 Example.click_event w1 =
      (Ok tt, w2, tr) /\
    invoked_on 0 tr = ["mark_0"] /\ invoked_on 1 tr = ["mark_0"].
Proof.
  destruct (shared_click_runs_every_instance_once (RT:=Example.runtime)
              (fun l x => nodup_In string_dec l x)
              0 [1] 0 Example.click_event Example.two_maps
              (or_introl eq_refl)
              ltac:(repeat constructor; intros [])
              eq_refl eq_refl eq_refl
              ltac:(intros ch []))
    as (w1 & w2 & tr & Hs & _ & Hc & Hall).
  exists w1, w2, tr. split; [exact Hs|]. split; [exact Hc|]. split.
  - exact (proj1 (Hall 0 (or_introl eq_refl))).
  - exact (proj1 (Hall 1 (or_intror (or_introl eq_refl)))).
Defined.

Lemma forwarded_pick_without_match_runs_no_entry_witness :
  exists w' tr,
    cb_pick_container._fwd_cb (RT:=Example.runtime) 0 Example.pick_event0
      Example.forwarding = (Ok tt, w', tr) /\
    invoked_keys (map snd tr) = [].
Proof.
  destruct (forwarded_pick_without_match_runs_no_entry (RT:=Example.runtime)
              (fun l x => nodup_In string_dec l x)
              0 Example.pick_event0 Example.click_event Example.forwarding
              eq_refl
              ltac:(repeat constructor; intros [])
              (fun _ _ => eq_refl))
    as (w' & tr & Hrun & _ & Hk).
  exists w', tr. split; [exact Hrun|exact Hk].
Defined.

(** ** Forwarding, sharing and closing on concrete Maps objects *)

(** C6.  A click at (5, 6) on Maps object 0 (false easting 0) is forwarded
    to Maps object 1 (false easting 100).  Reprojected from the projection
    of object 0 into that of object 1 the position is (105, 6); the entry
    of object 1 is executed with (-95, 6), the position reprojected from
    the projection of object 1 into that of object 0. *)
Lemma forwarded_click_is_reprojected_backwards :
  snd (cb_click_container._fwd_cb (RT:=Example.runtime) 0 Example.click_event
         Example.forwarding) =
    [(1, Invoke "click" "mark_0" (mk_partial "mark" [])
           (ClickKw (mk_clickdict (-95, 6)%Z PyNone PyNone None)));
     (1, After_update 1 "click")] /\
  transform (Runtime:=Example.runtime)
    (crs_plot (Example.forwarding 0)) (crs_plot (Example.forwarding 1))
    (5, 6)%Z = (105, 6)%Z /\
  transform (Runtime:=Example.runtime)
    (crs_plot (Example.forwarding 1)) (crs_plot (Example.forwarding 0))
    (5, 6)%Z = (-95, 6)%Z.
Proof. repeat split; reflexivity. Qed.

(** C7.  After [share_events] on the keypress containers of Maps objects
    0 and 1, each forwards to the other, yet a key press on object 0 runs
    the entry of object 0 and no entry of object 1, whose bucket for the
    key holds one: [_onpress] never reads the forwarding dictionary. *)
Lemma shared_keypress_misses_the_peer :
  exists w1 w2 tr,
    share_events keypress_obj 0 [1] Example.two_maps =
      (Ok tt, w1, []) /\
    _fwd_cbs (cb_keypress (w1 0)) = [1] /\
    _fwd_cbs (cb_keypress (w1 1)) = [0] /\
    at_maps 0 (at_obj keypress_obj (keypress_container._onpress "a")) w1 =
      (Ok tt, w2, tr) /\
    invoked_on 0 tr = ["switch_layer_0"] /\
    invoked_on 1 tr = [] /\
    dict_keys (key_bucket_of (cbs (cb_keypress (w1 1))) "a") = ["switch_layer_0"].
Proof.
  eexists _, _, _. split; [reflexivity|].
  repeat split; reflexivity.
Qed.

(** C8, the claim as stated fails: a pick event forwarded to a Maps object
    that finds no data point for the forwarded event executes none of its
    entries; only the redraw is requested. *)
Lemma forwarded_pick_without_match_skips_entries :
  _pick_pixel (Runtime:=Example.runtime) 1 (Example.forwarding 1)
    (mk_mouse_event (Some 1) false (Some 1%Z) 5%Z 6%Z) = None /\
  dict_keys (bucket_of (cbs (cb_pick (Example.forwarding 1))) "single" 1) =
    ["annotate_0"] /\
  exists w',
    cb_pick_container._fwd_cb (RT:=Example.runtime) 0 Example.pick_event0
      Example.forwarding =
    (Ok tt, w', [(1, BM_update "pick" (Some false))]).
Proof.
  split; [reflexivity|]. split; [reflexivity|].
  eexists. reflexivity.
Qed.

(** C9.  When the figure of a Maps object with one click, one pick and one
    keypress attachment is closed, the click and the keypress attachment
    are removed and the pick attachment stays. *)
Lemma close_leaves_pick_callbacks_attached :
  _click_container.attached_callbacks (cbs (cb_pick (Example.two_maps 0))) =
    ["annotate_0__single__1"] /\
  exists m',
    cb_container._on_close (Example.two_maps 0) =
      (Ok tt, m',
       [Cleanup "_mark_cleanup";
        Print "Removed the click callback: 'mark_0__single__1'.";
        Print "Removed the keypress callback: 'switch_layer_0__a'.";
        Reset_axes]) /\
    _click_container.attached_callbacks (cbs (cb_click m')) = [] /\
    keypress_container.attached_callbacks (cbs (cb_keypress m')) = [] /\
    _click_container.attached_callbacks (cbs (cb_pick m')) =
      ["annotate_0__single__1"].
Proof.
  split; [reflexivity|].
  eexists. repeat split; reflexivity.
Qed.

(** * Further properties of the containers *)

(** ** Splitting identities *)

Lemma has_dunder_cons (c : ascii) (s : string) :
  has_dunder (String c s) = false -> has_dunder s = false.
Proof.
  destruct s as [|c' s']; [reflexivity|].
  change (has_dunder (String c (String c' s')))
    with ((Ascii.eqb c PyStr.underscore && Ascii.eqb c' PyStr.underscore)
          || has_dunder (String c' s')).
  intros H. apply orb_false_iff in H. apply H.
Qed.

(** With no double underscore up to and including the first underscore of
    the separator, the first part is cut at the separator. *)
Lemma split_dunder_prefix (a rest : string) :
  has_dunder (a ++ "_") = false ->
  PyStr.split_dunder (a ++ "__" ++ rest) = a :: PyStr.split_dunder rest.
Proof.
  induction a as [|c a IH]; intros H; [reflexivity|].
  assert (Ha : has_dunder (a ++ "_") = false) by (apply (has_dunder_cons c), H).
  specialize (IH Ha).
  change ((String c a ++ "__" ++ rest)%string)
    with (String c (a ++ "__" ++ rest)%string).
  destruct a as [|c' a'].
  - cbn in H. rewrite orb_false_r, andb_true_r in H.
    cbn [append] in *.
    change (PyStr.split_dunder (String c (String "_" (String "_" rest))))
      with (let keep :=
              match PyStr.split_dunder (String "_" (String "_" rest)) with
              | hd :: tl => String c hd :: tl
              | [] => [String c EmptyString]
              end in
            if Ascii.eqb c PyStr.underscore && Ascii.eqb "_" PyStr.underscore
            then EmptyString :: PyStr.split_dunder (String "_" rest)
            else keep).
    cbv zeta. change (Ascii.eqb "_" PyStr.underscore) with true.
    rewrite andb_true_r, H. now rewrite IH.
  - change ((String c' a' ++ "__" ++ rest)%string)
      with (String c' (a' ++ "__" ++ rest)%string) in *.
    change ((String c (String c' a') ++ "_")%string)
      with (String c (String c' (a' ++ "_")%string)) in H.
    change (has_dunder (String c (String c' (a' ++ "_")%string)))
      with ((Ascii.eqb c PyStr.underscore && Ascii.eqb c' PyStr.underscore)
            || has_dunder (String c' (a' ++ "_")%string)) in H.
    apply orb_false_iff in H. destruct H as [H _].
    change (PyStr.split_dunder (String c (String c' (a' ++ "__" ++ rest)%string)))
      with (let keep :=
              match PyStr.split_dunder (String c' (a' ++ "__" ++ rest)%string) with
              | hd :: tl => String c hd :: tl
              | [] => [String c EmptyString]
              end in
            if Ascii.eqb c PyStr.underscore && Ascii.eqb c' PyStr.underscore
            then EmptyString :: PyStr.split_dunder (a' ++ "__" ++ rest)%string
            else keep).
    cbv zeta. rewrite H. now rewrite IH.
Qed.

Lemma split_dunder_whole (s : string) :
  has_dunder s = false -> PyStr.split_dunder s = [s].
Proof.
  induction s as [|c s IH]; intros H; [reflexivity|].
  pose proof (has_dunder_cons _ _ H) as Hs. specialize (IH Hs).
  destruct s as [|c' s']; [reflexivity|].
  change (has_dunder (String c (String c' s')))
    with ((Ascii.eqb c PyStr.underscore && Ascii.eqb c' PyStr.underscore)
          || has_dunder (String c' s')) in H.
  apply orb_false_iff in H. destruct H as [H _].
  change (PyStr.split_dunder (String c (String c' s')))
    with (let keep :=
            match PyStr.split_dunder (String c' s') with
            | hd :: tl => String c hd :: tl
            | [] => [String c EmptyString]
            end in
          if Ascii.eqb c PyStr.underscore && Ascii.eqb c' PyStr.underscore
          then EmptyString :: PyStr.split_dunder s'
          else keep).
  cbv zeta. rewrite H. now rewrite IH.
Qed.

Lemma rsplit1_none_no_dunder (s : string) :
  PyStr.rsplit1 s = None -> has_dunder s = false.
Proof.
  induction s as [|c s IH]; [reflexivity|].
  cbn [PyStr.rsplit1]. destruct (PyStr.rsplit1 s) as [[a b]|]; [discriminate|].
  destruct (Ascii.eqb c PyStr.underscore) eqn:Hc; [discriminate|]. intros _.
  destruct s as [|c' s']; [reflexivity|].
  change (has_dunder (String c (String c' s')))
    with ((Ascii.eqb c PyStr.underscore && Ascii.eqb c' PyStr.underscore)
          || has_dunder (String c' s')).
  rewrite Hc. now apply IH.
Qed.

(** Text without an underscore, followed by one, holds no double
    underscore. *)
Lemma no_underscore_then_one (t : string) :
  PyStr.rsplit1 t = None -> has_dunder (t ++ "_") = false.
Proof.
  induction t as [|c t IH]; [reflexivity|].
  cbn [PyStr.rsplit1]. destruct (PyStr.rsplit1 t) as [[a b]|]; [discriminate|].
  destruct (Ascii.eqb c PyStr.underscore) eqn:Hc; [discriminate|]. intros _.
  specialize (IH eq_refl).
  change ((String c t ++ "_")%string) with (String c (t ++ "_")%string).
  destruct (t ++ "_")%string as [|c' s'] eqn:E; [reflexivity|].
  change (has_dunder (String c (String c' s')))
    with ((Ascii.eqb c PyStr.underscore && Ascii.eqb c' PyStr.underscore)
          || has_dunder (String c' s')).
  now rewrite Hc.
Qed.

(** Joining on one underscore two texts that hold no double underscore,
    the second not starting with an underscore. *)
Lemma has_dunder_join (a r : string) :
  has_dunder (a ++ "_") = false ->
  has_dunder (String "_" r) = false ->
  has_dunder (a ++ "_" ++ r) = false.
Proof.
  intros Ha Hr. induction a as [|c a IH]; [exact Hr|].
  pose proof (has_dunder_cons _ _ Ha) as Ha'. specialize (IH Ha').
  change ((String c a ++ "_" ++ r)%string) with (String c (a ++ "_" ++ r)%string).
  change ((String c a ++ "_")%string) with (String c (a ++ "_")%string) in Ha.
  destruct a as [|c' a'].
  - cbn [append] in *.
    change (has_dunder (String c (String "_" EmptyString)))
      with ((Ascii.eqb c PyStr.underscore && Ascii.eqb "_" PyStr.underscore)
            || has_dunder (String "_" EmptyString)) in Ha.
    change (has_dunder (String c (String "_" r)))
      with ((Ascii.eqb c PyStr.underscore && Ascii.eqb "_" PyStr.underscore)
            || has_dunder (String "_" r)).
    apply orb_false_iff in Ha. destruct Ha as [Ha _]. now rewrite Ha, Hr.
  - change ((String c' a' ++ "_")%string) with (String c' (a' ++ "_")%string) in Ha.
    change ((String c' a' ++ "_" ++ r)%string)
      with (String c' (a' ++ "_" ++ r)%string) in *.
    change (has_dunder (String c (String c' (a' ++ "_")%string)))
      with ((Ascii.eqb c PyStr.underscore && Ascii.eqb c' PyStr.underscore)
            || has_dunder (String c' (a' ++ "_")%string)) in Ha.
    change (has_dunder (String c (String c' (a' ++ "_" ++ r)%string)))
      with ((Ascii.eqb c PyStr.underscore && Ascii.eqb c' PyStr.underscore)
            || has_dunder (String c' (a' ++ "_" ++ r)%string)).
    apply orb_false_iff in Ha. destruct Ha as [Ha _]. now rewrite Ha, IH.
Qed.

Lemma str_of_nat_first (n : nat) :
  exists c t, PyStr.str_of_nat n = String c t /\ Ascii.eqb c PyStr.underscore = false.
Proof.
  pose proof (rsplit1_str_of_nat n) as H.
  pose proof (int_of_str_of_nat n) as Hi.
  destruct (PyStr.str_of_nat n) as [|c t]; [discriminate|].
  exists c, t. split; [reflexivity|].
  cbn [PyStr.rsplit1] in H. destruct (PyStr.rsplit1 t) as [[a b]|]; [discriminate|].
  destruct (Ascii.eqb c PyStr.underscore); [discriminate|reflexivity].
Qed.

Lemma append_assoc (a b c : string) : ((a ++ b) ++ c = a ++ (b ++ c))%string.
Proof. induction a as [|x a IH]; [reflexivity|]. cbn. now rewrite IH. Qed.

(** The key of an entry with a plain name is given back in one piece. *)
Lemma entry_key_plain (name : string) (n : nat) :
  plain_name name = true -> has_dunder (entry_key name n ++ "_") = false.
Proof.
  unfold plain_name, entry_key. intros H. apply negb_true_iff in H.
  rewrite !append_assoc.
  apply has_dunder_join; [exact H|].
  destruct (str_of_nat_first n) as (c & t & E & Hc).
  pose proof (no_underscore_then_one _ (rsplit1_str_of_nat n)) as Hd.
  rewrite E in *.
  change ((String c t ++ "_")%string) with (String c (t ++ "_")%string) in *.
  change (has_dunder (String "_" (String c (t ++ "_")%string)))
    with ((Ascii.eqb "_" PyStr.underscore && Ascii.eqb c PyStr.underscore)
          || has_dunder (String c (t ++ "_")%string)).
  now rewrite Hc, Hd.
Qed.

Lemma rsplit1_str_of_Z (z : Z) : PyStr.rsplit1 (PyStr.str_of_Z z) = None.
Proof.
  assert (Hu : forall d, PyStr.rsplit1 (NilZero.string_of_uint d) = None).
  { intros d. unfold NilZero.string_of_uint.
    destruct d; try reflexivity; apply rsplit1_digits. }
  unfold PyStr.str_of_Z, NilZero.string_of_int.
  destruct (Z.to_int z) as [d|d]; [apply Hu|].
  cbn [PyStr.rsplit1]. now rewrite Hu.
Qed.

(** The digits of a number, read back. *)
Lemma digits_from_of_uint (l : Decimal.uint) (acc : positive) :
  PyStr.digits_from (Z.pos acc) (NilEmpty.string_of_uint l) =
  Some (Z.pos (Pos.of_uint_acc l acc)).
Proof.
  revert acc.
  induction l; intros acc;
    cbn [NilEmpty.string_of_uint Pos.of_uint_acc]; [reflexivity|..];
    cbn [PyStr.digits_from];
    match goal with
    | |- context [PyStr.digit_of ?c] =>
        change (PyStr.digit_of c) with (Some (Z.of_nat (nat_of_ascii c - 48)))
    end;
    rewrite <- IHl; f_equal;
    match goal with
    | |- context [Z.of_nat ?n] =>
        let v := eval vm_compute in (Z.of_nat n) in change (Z.of_nat n) with v
    end; lia.
Qed.

Lemma digits_from_zero (l : Decimal.uint) :
  l <> Decimal.Nil ->
  PyStr.digits_from 0 (NilEmpty.string_of_uint l) = Some (Z.of_N (Pos.of_uint l)).
Proof.
  induction l; intros Hl; try contradiction;
    cbn [NilEmpty.string_of_uint Pos.of_uint];
    cbn [PyStr.digits_from];
    match goal with
    | |- context [PyStr.digit_of ?c] =>
        change (PyStr.digit_of c) with (Some (Z.of_nat (nat_of_ascii c - 48)))
    end.
  - destruct l; [reflexivity|apply IHl; discriminate ..].
  - apply (digits_from_of_uint l 1).
  - apply (digits_from_of_uint l 2).
  - apply (digits_from_of_uint l 3).
  - apply (digits_from_of_uint l 4).
  - apply (digits_from_of_uint l 5).
  - apply (digits_from_of_uint l 6).
  - apply (digits_from_of_uint l 7).
  - apply (digits_from_of_uint l 8).
  - apply (digits_from_of_uint l 9).
Qed.

Lemma unsigned_of_str_of_uint (l : Decimal.uint) :
  l <> Decimal.Nil ->
  PyStr.unsigned_of_str (NilEmpty.string_of_uint l) = Some (Z.of_N (Pos.of_uint l)).
Proof.
  intros Hl. destruct l; try contradiction;
    cbn [NilEmpty.string_of_uint Pos.of_uint PyStr.unsigned_of_str];
    match goal with
    | |- context [PyStr.digit_of ?c] =>
        change (PyStr.digit_of c) with (Some (Z.of_nat (nat_of_ascii c - 48)))
    end.
  - destruct l; [reflexivity|apply digits_from_zero; discriminate ..].
  - apply (digits_from_of_uint l 1).
  - apply (digits_from_of_uint l 2).
  - apply (digits_from_of_uint l 3).
  - apply (digits_from_of_uint l 4).
  - apply (digits_from_of_uint l 5).
  - apply (digits_from_of_uint l 6).
  - apply (digits_from_of_uint l 7).
  - apply (digits_from_of_uint l 8).
  - apply (digits_from_of_uint l 9).
Qed.

(** Stripping leaves a text of digits as it is. *)
Lemma rstrip_digits (l : Decimal.uint) :
  PyStr.rstrip (NilEmpty.string_of_uint l) = NilEmpty.string_of_uint l.
Proof.
  induction l; cbn [NilEmpty.string_of_uint PyStr.rstrip]; [reflexivity|..];
    rewrite IHl; now destruct (NilEmpty.string_of_uint l).
Qed.

Lemma Z_of_str_digits (l : Decimal.uint) :
  l <> Decimal.Nil ->
  PyStr.Z_of_str (NilEmpty.string_of_uint l) = Some (Z.of_N (Pos.of_uint l)) /\
  PyStr.Z_of_str (String "-" (NilEmpty.string_of_uint l)) =
    Some (- Z.of_N (Pos.of_uint l))%Z.
Proof.
  intros Hl. pose proof (unsigned_of_str_of_uint l Hl) as Hu.
  pose proof (rstrip_digits l) as Hr.
  unfold PyStr.Z_of_str.
  assert (Hls : PyStr.lstrip (NilEmpty.string_of_uint l) = NilEmpty.string_of_uint l)
    by (destruct l; reflexivity).
  rewrite Hls, Hr.
  change (PyStr.lstrip (String "-" ?s)) with (String "-" s).
  cbn [PyStr.rstrip]. rewrite Hr. split.
  - destruct l; try contradiction; exact Hu.
  - destruct l; try contradiction; cbn [NilEmpty.string_of_uint] in *;
      rewrite Hu; reflexivity.
Qed.

(** [int(str(b))] is [b]. *)
Lemma Z_of_str_of_Z (z : Z) : PyStr.Z_of_str (PyStr.str_of_Z z) = Some z.
Proof.
  unfold PyStr.str_of_Z.
  destruct z as [|p|p]; [reflexivity|..]; cbn [Z.to_int NilZero.string_of_int];
    pose proof (DecimalPos.Unsigned.to_uint_nonnil p) as Hn;
    pose proof (DecimalPos.Unsigned.of_to p) as Hp;
    destruct (Z_of_str_digits _ Hn) as [H1 H2]; rewrite Hp in H1, H2;
    unfold NilZero.string_of_uint;
    destruct (Pos.to_uint p); try contradiction; assumption.
Qed.

Lemma ds_of_plain (dbl : bool) : has_dunder (ds_of dbl ++ "_") = false.
Proof. destruct dbl; reflexivity. Qed.

(** An identity of a click or pick entry with a plain name splits into
    the key of the entry, single or double, and the button. *)
Lemma split_click_identity (name : string) (n : nat) (dbl : bool) (button : Z) :
  plain_name name = true ->
  PyStr.split_dunder (click_identity name n (ds_of dbl) button) =
    [entry_key name n; ds_of dbl; PyStr.str_of_Z button].
Proof.
  intros H. unfold click_identity.
  rewrite split_dunder_prefix by (apply entry_key_plain, H).
  rewrite split_dunder_prefix by apply ds_of_plain.
  rewrite split_dunder_whole by (apply rsplit1_none_no_dunder, rsplit1_str_of_Z).
  reflexivity.
Qed.

Lemma split_keypress_identity (name : string) (n : nat) (key : string) :
  plain_name name = true -> has_dunder key = false ->
  PyStr.split_dunder (keypress_identity name n key) = [entry_key name n; key].
Proof.
  intros H Hk. unfold keypress_identity.
  rewrite split_dunder_prefix by (apply entry_key_plain, H).
  now rewrite split_dunder_whole.
Qed.

(** ** Counting the parts of an identity *)

Lemma split_dunder_cons_length (c : ascii) (s : string) :
  (parts s <= parts (String c s) <= S (parts s))%nat.
Proof.
  unfold parts. revert c. induction s as [|c' s IH]; intros c; [cbn; lia|].
  change (PyStr.split_dunder (String c (String c' s)))
    with (let keep :=
            match PyStr.split_dunder (String c' s) with
            | hd :: tl => String c hd :: tl
            | [] => [String c EmptyString]
            end in
          if Ascii.eqb c PyStr.underscore && Ascii.eqb c' PyStr.underscore
          then EmptyString :: PyStr.split_dunder s
          else keep).
  cbv zeta. specialize (IH c').
  destruct (Ascii.eqb c PyStr.underscore && Ascii.eqb c' PyStr.underscore).
  - cbn [List.length]. lia.
  - pose proof (split_dunder_not_nil (String c' s)) as Hn.
    destruct (PyStr.split_dunder (String c' s)); [contradiction|].
    cbn [List.length]. lia.
Qed.

Lemma parts_app (x z : string) : (parts z <= parts (x ++ z))%nat.
Proof.
  induction x as [|c x IH]; [apply Nat.le_refl|].
  change ((String c x ++ z)%string) with (String c (x ++ z)%string).
  pose proof (split_dunder_cons_length c (x ++ z)). lia.
Qed.

Lemma parts_separator (x y : string) : (S (parts y) <= parts (x ++ "__" ++ y))%nat.
Proof.
  pose proof (parts_app x ("__" ++ y)) as H.
  change (parts ("__" ++ y)) with (S (parts y)) in H. exact H.
Qed.

Lemma parts_has_dunder (a r : string) :
  has_dunder a = true -> (S (parts r) <= parts (a ++ r))%nat.
Proof.
  induction a as [|c a IH]; [discriminate|].
  destruct a as [|c' a']; [discriminate|].
  change (has_dunder (String c (String c' a')))
    with ((Ascii.eqb c PyStr.underscore && Ascii.eqb c' PyStr.underscore)
          || has_dunder (String c' a')).
  change ((String c (String c' a') ++ r)%string)
    with (String c (String c' (a' ++ r)%string)).
  destruct (Ascii.eqb c PyStr.underscore && Ascii.eqb c' PyStr.underscore) eqn:E.
  - intros _. unfold parts at 2.
    change (PyStr.split_dunder (String c (String c' (a' ++ r)%string)))
      with (let keep :=
              match PyStr.split_dunder (String c' (a' ++ r)%string) with
              | hd :: tl => String c hd :: tl
              | [] => [String c EmptyString]
              end in
            if Ascii.eqb c PyStr.underscore && Ascii.eqb c' PyStr.underscore
            then EmptyString :: PyStr.split_dunder (a' ++ r)%string
            else keep).
    cbv zeta. rewrite E. cbn [List.length].
    pose proof (parts_app a' r). unfold parts in *. lia.
  - cbn [orb]. intros H. specialize (IH H).
    change ((String c' a' ++ r)%string) with (String c' (a' ++ r)%string) in IH.
    pose proof (split_dunder_cons_length c (String c' (a' ++ r)%string)). lia.
Qed.

Lemma parts_positive (s : string) : (1 <= parts s)%nat.
Proof.
  unfold parts. pose proof (split_dunder_not_nil s).
  destruct (PyStr.split_dunder s); [contradiction|cbn; lia].
Qed.

(** An identity built on a name that is not plain has more than three
    parts (click, pick) and more than two (keypress). *)
Lemma parts_click_identity (name : string) (n : nat) (ds : string) (button : Z) :
  plain_name name = false ->
  (4 <= parts (click_identity name n ds button))%nat.
Proof.
  unfold plain_name, click_identity, entry_key. intros H.
  apply negb_false_iff in H.
  rewrite <- (append_assoc name "_").
  rewrite (append_assoc (name ++ "_")).
  pose proof (parts_has_dunder (name ++ "_")
                (PyStr.str_of_nat n ++ "__" ++ ds ++ "__" ++ PyStr.str_of_Z button) H).
  pose proof (parts_separator (PyStr.str_of_nat n)
                (ds ++ "__" ++ PyStr.str_of_Z button)).
  pose proof (parts_separator ds (PyStr.str_of_Z button)).
  pose proof (parts_positive (PyStr.str_of_Z button)). lia.
Qed.

Lemma parts_keypress_identity (name : string) (n : nat) (key : string) :
  plain_name name = false ->
  (3 <= parts (keypress_identity name n key))%nat.
Proof.
  unfold plain_name, keypress_identity, entry_key. intros H.
  apply negb_false_iff in H.
  rewrite <- (append_assoc name "_").
  rewrite (append_assoc (name ++ "_")).
  pose proof (parts_has_dunder (name ++ "_") (PyStr.str_of_nat n ++ "__" ++ key) H).
  pose proof (parts_separator (PyStr.str_of_nat n) key).
  pose proof (parts_positive key). lia.
Qed.

(** ** Attaching, then removing *)

Lemma dict_get_app_last {K V} (keq : K -> K -> bool)
  (keq_eq : forall a b, keq a b = true <-> a = b) (k : K) (v : V) (d : dict K V) :
  dict_get keq k d = None -> dict_get keq k (d ++ [(k, v)]) = Some v.
Proof.
  intros H. rewrite <- (dict_set_absent keq k v d H).
  apply (dict_get_set_same keq keq_eq).
Qed.

Lemma dict_del_app_last {K V} (keq : K -> K -> bool)
  (keq_eq : forall a b, keq a b = true <-> a = b) (k : K) (v : V) (d : dict K V) :
  dict_get keq k d = None -> dict_del keq k (d ++ [(k, v)]) = d.
Proof.
  intros H. unfold dict_del. rewrite filter_app.
  fold (dict_del keq k d). rewrite (dict_del_absent keq k d H).
  cbn. rewrite (keq_refl keq keq_eq). cbn. apply app_nil_r.
Qed.

Lemma set_bucket_set_bucket (ds : string) (b : Z) (d d' : bucket) (r : click_cbs) :
  set_bucket ds b d (set_bucket ds b d' r) = set_bucket ds b d r.
Proof.
  unfold set_bucket at 1. rewrite dsdict_of_set_bucket_same.
  rewrite (dict_set_set Z.eqb Z_eqb_eq). unfold set_bucket.
  apply (dict_set_set String.eqb string_eqb_eq).
Qed.

(** Writing back the bucket that is there leaves the levels that reading
    it creates. *)
Lemma set_bucket_same (ds : string) (b : Z) (r : click_cbs) :
  set_bucket ds b (bucket_of r ds b) (touch ds b r) = touch ds b r.
Proof.
  unfold touch, bucket_of, touch_ds, dsdict_of.
  destruct (dict_get String.eqb ds r) as [D|] eqn:Hds.
  - destruct (dict_get Z.eqb b D) as [d0|] eqn:Hb.
    + unfold set_bucket, dsdict_of. rewrite Hds.
      rewrite (dict_set_same_value Z.eqb _ _ _ Hb).
      apply (dict_set_same_value String.eqb _ _ _ Hds).
    + apply set_bucket_set_bucket.
  - cbn [dict_get]. apply set_bucket_set_bucket.
Qed.

Section AttachInversion.
Context {coord : Type}.

(** What a successful [_add_callback] of a click or pick container has
    done. *)
Lemma click_attach_ok (c c1 : container click_cbs) (cb : callback) (dbl : bool)
  (button : Z) (kw : kwargs) (id : string) (tr : list (call coord)) :
  _click_container._add_callback cb dbl button kw c = (Ok id, c1, tr) ->
  let name := cb_name cb in
  let d := bucket_of (cbs c) (ds_of dbl) button in
  exists ncb,
    resolves c cb = true /\
    ncb_of name (dict_keys d) = Ok ncb /\
    id = click_identity name (next_count ncb) (ds_of dbl) button /\
    c1 = set_cbs (set_bucket (ds_of dbl) button
                    (d ++ [(entry_key name (next_count ncb), mk_partial name kw)])
                    (touch (ds_of dbl) button (cbs c))) c /\
    tr = [].
Proof.
  intros Hc. rewrite click_add_callback_run in Hc. unfold click_attach_outcome in Hc.
  cbv zeta in *.
  destruct (forallb _ _); [discriminate|].
  destruct (resolves c cb);
    [|now apply turned_down_not_ok in Hc]. cbn [negb] in Hc.
  destruct (ncb_of (cb_name cb) _) as [ncb|e] eqn:Hncb; [|discriminate].
  destruct (_ && _); [discriminate|].
  injection Hc as <- <- <-. exists ncb. repeat split. 
Qed.

Lemma keypress_attach_ok (c c1 : container keypress_cbs) (cb : callback)
  (key : string) (kw : kwargs) (id : string) (tr : list (call coord)) :
  keypress_container._add_callback cb key kw c = (Ok id, c1, tr) ->
  let name := cb_name cb in
  let d := key_bucket_of (cbs c) key in
  exists ncb,
    resolves c cb = true /\
    ncb_of name (dict_keys d) = Ok ncb /\
    id = keypress_identity name (next_count ncb) key /\
    c1 = set_cbs (dict_set String.eqb key
                    (d ++ [(entry_key name (next_count ncb), mk_partial name kw)])
                    (cbs c)) c /\
    tr = [].
Proof.
  intros Hc. rewrite keypress_add_callback_run in Hc.
  unfold keypress_attach_outcome in Hc. cbv zeta in *.
  destruct (resolves c cb);
    [|now apply turned_down_not_ok in Hc]. cbn [negb] in Hc.
  destruct (ncb_of (cb_name cb) _) as [ncb|e] eqn:Hncb; [|discriminate].
  injection Hc as <- <- <-. exists ncb. repeat split.
Qed.

End AttachInversion.

(** The identities listed for a registry. *)

Lemma flat_map_dict_set {K V B} (keq : K -> K -> bool)
  (keq_eq : forall a b, keq a b = true <-> a = b)
  (f : K * V -> list B) (k : K) (v : V) (d : dict K V) :
  (forall v0, dict_get keq k d = Some v0 -> f (k, v) = f (k, v0)) ->
  (dict_get keq k d = None -> f (k, v) = []) ->
  flat_map f (dict_set keq k v d) = flat_map f d.
Proof.
  induction d as [|[k' v'] d IH]; intros Hs Hn.
  - cbn. rewrite Hn by reflexivity. reflexivity.
  - cbn [dict_set dict_get] in *. destruct (keq k k') eqn:E.
    + apply keq_eq in E. subst k'. cbn [flat_map].
      now rewrite (Hs v' eq_refl).
    + cbn [flat_map]. now rewrite IH.
Qed.

Lemma attached_callbacks_touch_ds (ds : string) (r : click_cbs) :
  _click_container.attached_callbacks (touch_ds ds r) =
  _click_container.attached_callbacks r.
Proof.
  unfold touch_ds. destruct (dict_get String.eqb ds r) eqn:E; [reflexivity|].
  unfold _click_container.attached_callbacks.
  apply (flat_map_dict_set String.eqb string_eqb_eq); [congruence|reflexivity].
Qed.

Lemma attached_callbacks_touch (ds : string) (b : Z) (r : click_cbs) :
  _click_container.attached_callbacks (touch ds b r) =
  _click_container.attached_callbacks r.
Proof.
  unfold touch.
  destruct (dict_get Z.eqb b (dsdict_of r ds)) eqn:E;
    [apply attached_callbacks_touch_ds|].
  etransitivity; [|apply (attached_callbacks_touch_ds ds r)].
  rewrite <- (dsdict_of_touch_ds ds r) in E.
  unfold set_bucket, _click_container.attached_callbacks.
  apply (flat_map_dict_set String.eqb string_eqb_eq).
  - intros D HD. cbn [fst snd].
    unfold dsdict_of in *. rewrite HD in *.
    apply (flat_map_dict_set Z.eqb Z_eqb_eq); [congruence|reflexivity].
  - intros HD. cbn [fst snd]. unfold dsdict_of. rewrite HD. reflexivity.
Qed.

Lemma attached_callbacks_touch_key (key : string) (r : keypress_cbs) :
  keypress_container.attached_callbacks (touch_key key r) =
  keypress_container.attached_callbacks r.
Proof.
  unfold touch_key. destruct (dict_get String.eqb key r) eqn:E; [reflexivity|].
  unfold keypress_container.attached_callbacks.
  apply (flat_map_dict_set String.eqb string_eqb_eq); [congruence|reflexivity].
Qed.

Lemma in_flat_map_dict_set {K V B} (keq : K -> K -> bool)
  (keq_eq : forall a b, keq a b = true <-> a = b)
  (f : K * V -> list B) (k : K) (v : V) (d : dict K V) (x : B) :
  In x (f (k, v)) -> In x (flat_map f (dict_set keq k v d)).
Proof.
  intros Hx. induction d as [|[k' v'] d IH].
  - cbn. rewrite app_nil_r. exact Hx.
  - cbn [dict_set]. destruct (keq k k') eqn:E.
    + apply keq_eq in E. subst k'. cbn [flat_map]. apply in_or_app. now left.
    + cbn [flat_map]. apply in_or_app. now right.
Qed.

Section RoundTrip.
Context {coord : Type}.

(** X1.  Attaching to a click or pick container and removing by the
    returned identity is a round trip.  When [_add_callback] succeeds for a
    callback with a plain name, the identity it returns is listed by
    [attached_callbacks]; [remove] with that identity succeeds, runs the
    cleanup hook of the name when the callback class has one, prints the
    message, and leaves the registry as it was before the attachment, up
    to the empty levels that reading the bucket creates: the same
    identities are attached as before. *)
Theorem attach_then_remove_restores_registry
  (c c1 : container click_cbs) (cb : callback) (dbl : bool) (button : Z)
  (kw : kwargs) (id : string) (tr : list (call coord)) :
  plain_name (cb_name cb) = true ->
  _click_container._add_callback cb dbl button kw c = (Ok id, c1, tr) ->
  let hook := ("_" ++ cb_name cb ++ "_cleanup")%string in
  let c2 := set_cbs (touch (ds_of dbl) button (cbs c)) c in
  In id (_click_container.attached_callbacks (cbs c1)) /\
  _click_container.remove (coord:=coord) (Some id) c1 =
    (Ok tt, c2,
     (if hasattr c hook then [Cleanup hook] else [])
     ++ [Print ("Removed the " ++ _method c ++ " callback: '" ++ id ++ "'.")]) /\
  _click_container.attached_callbacks (cbs c2) =
    _click_container.attached_callbacks (cbs c) /\
  same_buckets (cbs c) (cbs c2).
Proof.
  intros Hplain Hc. cbv zeta.
  destruct (click_attach_ok _ _ _ _ _ _ _ _ Hc) as (ncb & _ & Hncb & -> & -> & ->).
  pose proof (fresh_key _ _ _ Hncb) as Hfresh.
  set (name := cb_name cb) in *. set (ds := ds_of dbl) in *.
  set (d := bucket_of (cbs c) ds button) in *.
  set (key := entry_key name (next_count ncb)) in *.
  split; [|split; [|split]].
  - cbn [cbs set_cbs]. unfold set_bucket, _click_container.attached_callbacks.
    apply (in_flat_map_dict_set String.eqb string_eqb_eq). cbn [fst snd].
    apply (in_flat_map_dict_set Z.eqb Z_eqb_eq). cbn [fst snd].
    rewrite dict_keys_app, map_app. apply in_or_app. right. now left.
  - rewrite click_remove_run. unfold click_remove_outcome.
    subst name ds key. rewrite (split_click_identity _ _ _ _ Hplain).
    cbn [cbs set_cbs]. unfold set_bucket at 1.
    rewrite (dict_get_set_same String.eqb string_eqb_eq).
    rewrite Z_of_str_of_Z.
    rewrite (dict_get_set_same Z.eqb Z_eqb_eq).
    unfold dict_mem.
    rewrite (dict_get_app_last String.eqb string_eqb_eq _ _ _ Hfresh).
    rewrite (dict_del_app_last String.eqb string_eqb_eq _ _ _ Hfresh).
    rewrite set_bucket_set_bucket. subst d.
    rewrite set_bucket_same.
    unfold removal_calls. rewrite base_name_entry_key.
    reflexivity.
  - apply attached_callbacks_touch.
  - apply same_buckets_touch.
Qed.

End RoundTrip.

Lemma attach_then_remove_restores_registry_witness :
  exists c1,
    _click_container._add_callback (coord:=Z) (CbStr "mark") false 1 []
      Example.click0 = (Ok "mark_0__single__1", c1, []) /\
    _click_container.remove (coord:=Z) (Some "mark_0__single__1") c1 =
      (Ok tt, set_cbs [("single", [(1%Z, [])])] Example.click0,
       [Cleanup "_mark_cleanup";
        Print "Removed the click callback: 'mark_0__single__1'."]).
Proof.
  eexists. split; [reflexivity|].
  exact (proj1 (proj2 (attach_then_remove_restores_registry (coord:=Z)
                         Example.click0 _ (CbStr "mark") false 1 [] _ _
                         eq_refl eq_refl))).
Defined.

Lemma touch_key_same (key : string) (r : keypress_cbs) :
  dict_set String.eqb key (key_bucket_of r key) r = touch_key key r.
Proof.
  unfold key_bucket_of, touch_key.
  destruct (dict_get String.eqb key r) as [d|] eqn:E; [|reflexivity].
  apply (dict_set_same_value String.eqb _ _ _ E).
Qed.

Section KeypressRoundTrip.
Context {coord : Type}.

(** X2.  The same round trip for a keypress container: for a callback
    with a plain name and a key without a double underscore, the identity
    returned by [_add_callback] is listed by [attached_callbacks], and
    [remove] with it succeeds, runs the cleanup hook when there is one,
    prints the message and leaves the registry as before the attachment,
    up to the empty bucket that reading the key creates. *)
Theorem keypress_attach_then_remove_restores_registry
  (c c1 : container keypress_cbs) (cb : callback) (key : string)
  (kw : kwargs) (id : string) (tr : list (call coord)) :
  plain_name (cb_name cb) = true ->
  has_dunder key = false ->
  keypress_container._add_callback cb key kw c = (Ok id, c1, tr) ->
  let hook := ("_" ++ cb_name cb ++ "_cleanup")%string in
  let c2 := set_cbs (touch_key key (cbs c)) c in
  In id (keypress_container.attached_callbacks (cbs c1)) /\
  keypress_container.remove (coord:=coord) (Some id) c1 =
    (Ok tt, c2,
     (if hasattr c hook then [Cleanup hook] else [])
     ++ [Print ("Removed the " ++ _method c ++ " callback: '" ++ id ++ "'.")]) /\
  keypress_container.attached_callbacks (cbs c2) =
    keypress_container.attached_callbacks (cbs c).
Proof.
  intros Hplain Hkey Hc. cbv zeta.
  destruct (keypress_attach_ok _ _ _ _ _ _ _ Hc) as (ncb & _ & Hncb & -> & -> & ->).
  pose proof (fresh_key _ _ _ Hncb) as Hfresh.
  split; [|split].
  - cbn [cbs set_cbs]. unfold keypress_container.attached_callbacks.
    apply (in_flat_map_dict_set String.eqb string_eqb_eq). cbn [fst snd].
    rewrite dict_keys_app, map_app. apply in_or_app. right. now left.
  - rewrite keypress_remove_run. unfold keypress_remove_outcome.
    rewrite (split_keypress_identity _ _ _ Hplain Hkey).
    cbn [cbs set_cbs].
    rewrite (dict_get_set_same String.eqb string_eqb_eq).
    unfold dict_mem.
    rewrite (dict_get_app_last String.eqb string_eqb_eq _ _ _ Hfresh).
    rewrite (dict_del_app_last String.eqb string_eqb_eq _ _ _ Hfresh).
    rewrite (dict_set_set String.eqb string_eqb_eq).
    rewrite touch_key_same.
    unfold removal_calls. rewrite base_name_entry_key.
    reflexivity.
  - apply attached_callbacks_touch_key.
Qed.

(** X3.  A callback whose name holds a double underscore, or ends with an
    underscore, can be attached but not removed: the identity that
    [_add_callback] returns is attached, and [remove] with it raises
    ValueError when unpacking the parts of the identity, before it looks
    at the registry.  Click, pick and keypress containers alike. *)
Theorem attached_name_with_separator_cannot_be_removed
  (c c1 : container click_cbs) (cb : callback) (dbl : bool) (button : Z)
  (kw : kwargs) (id : string) (tr : list (call coord))
  (k k1 : container keypress_cbs) (cbk : callback) (key : string)
  (kwk : kwargs) (idk : string) (trk : list (call coord)) :
  plain_name (cb_name cb) = false ->
  plain_name (cb_name cbk) = false ->
  _click_container._add_callback cb dbl button kw c = (Ok id, c1, tr) ->
  keypress_container._add_callback cbk key kwk k = (Ok idk, k1, trk) ->
  (In id (_click_container.attached_callbacks (cbs c1)) /\
   _click_container.remove (coord:=coord) (Some id) c1 = (Raise ValueError, c1, [])) /\
  (In idk (keypress_container.attached_callbacks (cbs k1)) /\
   keypress_container.remove (coord:=coord) (Some idk) k1 =
     (Raise ValueError, k1, [])).
Proof.
  intros Hn Hnk Hc Hk.
  destruct (click_attach_ok _ _ _ _ _ _ _ _ Hc) as (ncb & _ & _ & -> & -> & ->).
  destruct (keypress_attach_ok _ _ _ _ _ _ _ Hk) as (ncbk & _ & _ & -> & -> & ->).
  split; split.
  - cbn [cbs set_cbs]. unfold set_bucket, _click_container.attached_callbacks.
    apply (in_flat_map_dict_set String.eqb string_eqb_eq). cbn [fst snd].
    apply (in_flat_map_dict_set Z.eqb Z_eqb_eq). cbn [fst snd].
    rewrite dict_keys_app, map_app. apply in_or_app. right. now left.
  - rewrite click_remove_run. unfold click_remove_outcome.
    pose proof (parts_click_identity _ (next_count ncb) (ds_of dbl) button Hn) as Hp.
    unfold parts in Hp.
    destruct (PyStr.split_dunder _) as [|x1 [|x2 [|x3 [|x4 l]]]];
      cbn [List.length] in Hp; try lia; reflexivity.
  - cbn [cbs set_cbs]. unfold keypress_container.attached_callbacks.
    apply (in_flat_map_dict_set String.eqb string_eqb_eq). cbn [fst snd].
    rewrite dict_keys_app, map_app. apply in_or_app. right. now left.
  - rewrite keypress_remove_run. unfold keypress_remove_outcome.
    pose proof (parts_keypress_identity _ (next_count ncbk) key Hnk) as Hp.
    unfold parts in Hp.
    destruct (PyStr.split_dunder _) as [|x1 [|x2 [|x3 l]]];
      cbn [List.length] in Hp; try lia; reflexivity.
Qed.

End KeypressRoundTrip.

Lemma keypress_attach_then_remove_restores_registry_witness :
  exists k1,
    keypress_container._add_callback (coord:=Z) (CbStr "switch_layer") "a" []
      Example.keypress0 = (Ok "switch_layer_0__a", k1, []) /\
    keypress_container.remove (coord:=Z) (Some "switch_layer_0__a") k1 =
      (Ok tt, set_cbs [("a", [])] Example.keypress0,
       [Print "Removed the keypress callback: 'switch_layer_0__a'."]).
Proof.
  eexists. split; [reflexivity|].
  exact (proj1 (proj2 (keypress_attach_then_remove_restores_registry (coord:=Z)
                         Example.keypress0 _ (CbStr "switch_layer") "a" [] _ _
                         eq_refl eq_refl eq_refl))).
Defined.

Lemma attached_name_with_separator_cannot_be_removed_witness :
  exists c1 k1,
    _click_container._add_callback (coord:=Z) (CbFunc "my__callback") false 1 []
      Example.click0 = (Ok "my__callback_0__single__1", c1, []) /\
    _click_container.remove (coord:=Z) (Some "my__callback_0__single__1") c1 =
      (Raise ValueError, c1, []) /\
    keypress_container._add_callback (coord:=Z) (CbFunc "on_key_") "a" []
      Example.keypress0 = (Ok "on_key__0__a", k1, []) /\
    keypress_container.remove (coord:=Z) (Some "on_key__0__a") k1 =
      (Raise ValueError, k1, []).
Proof.
  eexists. eexists.
  pose proof (attached_name_with_separator_cannot_be_removed (coord:=Z)
                Example.click0 _ (CbFunc "my__callback") false 1 [] _ _
                Example.keypress0 _ (CbFunc "on_key_") "a" [] _ _
                eq_refl eq_refl eq_refl eq_refl) as [[_ H1] [_ H2]].
  split; [reflexivity|]. split; [exact H1|]. split; [reflexivity|exact H2].
Defined.

(** ** Removing an entry that is there *)

Lemma click_lookup_bucket (r : click_cbs) (name ds : string) (button : Z) :
  click_lookup r name ds button = dict_get String.eqb name (bucket_of r ds button).
Proof.
  unfold click_lookup, bucket_of, dsdict_of.
  destruct (dict_get String.eqb ds r) as [D|]; [|reflexivity].
  destruct (dict_get Z.eqb button D); reflexivity.
Qed.

Lemma dict_get_del_other {K V} (keq : K -> K -> bool)
  (keq_eq : forall a b, keq a b = true <-> a = b) (k k' : K) (d : dict K V) :
  k <> k' -> dict_get keq k' (dict_del keq k d) = dict_get keq k' d.
Proof.
  intros Hne. induction d as [|[k0 v0] d IH]; [reflexivity|].
  unfold dict_del in *. cbn [filter fst dict_get].
  destruct (keq k k0) eqn:E; cbn [negb].
  - apply keq_eq in E. subst k0.
    rewrite IH. destruct (keq k' k) eqn:E'; [|reflexivity].
    apply keq_eq in E'. congruence.
  - cbn [dict_get]. now rewrite IH.
Qed.

Section RemovePresent.
Context {coord : Type}.


(** X5.  [remove] with the identity of an entry of a keypress registry
    deletes that entry and nothing else: it returns without an error, runs
    the cleanup hook when there is one, prints the message; afterwards the
    identity designates no entry, the other entries of the key keep their
    order and every other key its bucket. *)
Theorem keypress_remove_deletes_only_the_named_entry
  (c : container keypress_cbs) (ID name key : string) (v : partial) :
  PyStr.split_dunder ID = [name; key] ->
  keypress_lookup (cbs c) name key = Some v ->
  exists c',
    keypress_container.remove (coord:=coord) (Some ID) c =
      (Ok tt, c', removal_calls c name ID) /\
    keypress_lookup (cbs c') name key = None /\
    key_bucket_of (cbs c') key =
      dict_del String.eqb name (key_bucket_of (cbs c) key) /\
    (forall name', name' <> name ->
       keypress_lookup (cbs c') name' key = keypress_lookup (cbs c) name' key) /\
    (forall key', key' <> key ->
       key_bucket_of (cbs c') key' = key_bucket_of (cbs c) key') /\
    _fwd_cbs c' = _fwd_cbs c.
Proof.
  intros Hs Hl.
  rewrite keypress_remove_run. unfold keypress_remove_outcome. rewrite Hs.
  pose proof Hl as Hl'. unfold keypress_lookup in Hl'.
  destruct (dict_get String.eqb key (cbs c)) as [cbdict|] eqn:Hk; [|discriminate].
  unfold dict_mem. rewrite Hl'.
  eexists. split; [reflexivity|]. cbn [cbs set_cbs _fwd_cbs].
  split; [apply keypress_lookup_after_remove|].
  split; [|split; [|split; [|reflexivity]]].
  - unfold key_bucket_of. rewrite Hk.
    now rewrite (dict_get_set_same String.eqb string_eqb_eq).
  - intros name' Hne. unfold keypress_lookup.
    rewrite (dict_get_set_same String.eqb string_eqb_eq), Hk.
    apply (dict_get_del_other String.eqb string_eqb_eq). congruence.
  - intros key' Hne. unfold key_bucket_of.
    rewrite (dict_get_set_other String.eqb string_eqb_eq) by congruence.
    reflexivity.
Qed.

(** X6.  Attaching a pre-defined callback by a name that the callback
    class does not have raises the assertion error on unknown callbacks
    and changes nothing: the registry is not even read, so no level of it
    is created.  Click, pick and keypress containers alike. *)
Theorem unknown_callback_is_rejected
  (c : container click_cbs) (k : container keypress_cbs) (s sk : string)
  (dbl : bool) (button : Z) (kw : kwargs) (key : string) (kwk : kwargs) :
  hasattr c s = false ->
  hasattr k sk = false ->
  dict_get String.eqb "button" kw = None ->
  _click_container._add_callback (coord:=coord) (CbStr s) dbl button kw c =
    (Raise (AssertionError (UnknownCallback s)), c, []) /\
  keypress_container._add_callback (coord:=coord) (CbStr sk) key kwk k =
    (Raise (AssertionError (UnknownCallback sk)), k, []).
Proof.
  intros Hc Hk Hkw.
  assert (Hr : forall R (x : container (coord:=coord) R) n,
            hasattr x n = false -> resolves x (CbStr n) = false).
  { intros R x n H. cbn [resolves]. unfold hasattr, dict_mem in H.
    now destruct (dict_get String.eqb n (_cb x)). }
  split.
  - rewrite click_add_callback_run. unfold click_attach_outcome. cbv zeta.
    rewrite (reserved_check_passes kw Hkw), (Hr _ c s Hc).
    cbn [negb turned_down]. now rewrite Hc.
  - rewrite keypress_add_callback_run. unfold keypress_attach_outcome. cbv zeta.
    rewrite (Hr _ k sk Hk). cbn [negb turned_down]. now rewrite Hk.
Qed.

End RemovePresent.


Lemma keypress_remove_deletes_only_the_named_entry_witness :
  exists k',
    keypress_container.remove (coord:=Z) (Some "show_help_0__a")
      Example.keys_attached =
      (Ok tt, k', [Print "Removed the keypress callback: 'show_help_0__a'."]) /\
    dict_keys (key_bucket_of (cbs k') "a") = ["switch_layer_0"].
Proof.
  destruct (keypress_remove_deletes_only_the_named_entry (coord:=Z)
              Example.keys_attached "show_help_0__a" "show_help_0" "a"
              (mk_partial "show_help" []) eq_refl eq_refl)
    as (k' & H1 & _ & H3 & _).
  exists k'. split; [exact H1|]. rewrite H3. reflexivity.
Defined.

Lemma unknown_callback_is_rejected_witness :
  _click_container._add_callback (coord:=Z) (CbStr "switch_layer") false 1 []
    Example.click0 =
    (Raise (AssertionError (UnknownCallback "switch_layer")), Example.click0, []) /\
  keypress_container._add_callback (coord:=Z) (CbStr "mark") "a" []
    Example.keypress0 =
    (Raise (AssertionError (UnknownCallback "mark")), Example.keypress0, []).
Proof.
  exact (unknown_callback_is_rejected (coord:=Z) Example.click0 Example.keypress0
           "switch_layer" "mark" false 1 [] "a" [] eq_refl eq_refl eq_refl).
Defined.

(** ** Registries reached from an empty one *)

Section ReachableBuckets.
Context {coord : Type}.
Variable P : bucket -> Prop.
Hypothesis P_append :
  forall d name ncb v,
    P d -> ncb_of name (dict_keys d) = Ok ncb ->
    P (d ++ [(entry_key name (next_count ncb), v)]).
Hypothesis P_del : forall d name, P d -> P (dict_del String.eqb name d).

Lemma run_op_buckets (o : op) (c : container click_cbs) :
  (forall ds b, P (bucket_of (cbs c) ds b)) ->
  forall ds b, P (bucket_of (cbs (run_op (coord:=coord) o c)) ds b).
Proof.
  intros Hinv. destruct o as [cb dbl button kw | ID | e | ds0 | args]; cbn [run_op];
    [| |assumption| |].
  - rewrite click_add_callback_run. unfold click_attach_outcome. cbv zeta.
    destruct (forallb _ _); [assumption|].
    assert (Ht : forall ds b, P (bucket_of (touch (ds_of dbl) button (cbs c)) ds b))
      by (intros ds b; rewrite (same_buckets_touch (ds_of dbl) button (cbs c)); apply Hinv).
    destruct (negb (resolves c cb)).
    { match goal with
      | |- context [turned_down ?cb ?m ?k ?c ?t] =>
          destruct (turned_down_raises cb m k c t) as [e [H|H]]; rewrite H;
          assumption
      end. }
    destruct (ncb_of _ _) as [ncb|e] eqn:Hncb; [|assumption].
    destruct (_ && _); [assumption|].
    cbn [state_of fst snd cbs set_cbs]. intros ds b.
    rewrite bucket_of_set_bucket.
    destruct (_ && _); [|apply Ht].
    apply P_append; [apply Hinv|assumption].
  - destruct (click_remove_state (coord:=coord) ID c) as [-> | (name & ds0 & b0 & ->)];
      [assumption|].
    cbn [cbs set_cbs]. intros ds b. rewrite bucket_of_set_bucket.
    destruct (_ && _); [|apply Hinv]. apply P_del, Hinv.
  - rewrite cbs_ds_run. cbn [state_of fst snd cbs set_cbs]. intros ds b.
    rewrite (same_buckets_touch_ds ds0 (cbs c)). apply Hinv.
  - now rewrite forward_events_cbs.
Qed.

Lemma run_ops_buckets (ops : list op) (c : container click_cbs) :
  (forall ds b, P (bucket_of (cbs c) ds b)) ->
  forall ds b, P (bucket_of (cbs (run_ops (coord:=coord) ops c)) ds b).
Proof.
  unfold run_ops. revert c.
  induction ops as [|o ops IH]; intros c Hinv; [assumption|].
  cbn [fold_left]. apply IH. now apply run_op_buckets.
Qed.

End ReachableBuckets.

Lemma keys_formed_filter (p : string -> bool) (l : list string) :
  Forall (fun k => exists name n, k = entry_key name n) l ->
  Forall (fun k => exists name n, k = entry_key name n) (filter p l).
Proof.
  intros H. apply Forall_forall. intros k Hk. apply filter_In in Hk.
  rewrite Forall_forall in H. now apply H.
Qed.

Lemma reachable_keys_formed {coord : Type} (ops : list op) (method : string)
  (cb_list : list string) (attrs : dict string attr) (fwd : list nat)
  (ds : string) (b : Z) :
  keys_formed
    (bucket_of (cbs (run_ops (coord:=coord) ops
                       (mk_container method cb_list attrs [] fwd None))) ds b).
Proof.
  apply (run_ops_buckets (coord:=coord) keys_formed).
  - intros d name ncb v Hd _. unfold keys_formed in *.
    rewrite dict_keys_app. apply Forall_app. split; [assumption|].
    constructor; [|constructor]. now exists name, (next_count ncb).
  - intros d name Hd. unfold keys_formed in *.
    rewrite dict_keys_del. now apply keys_formed_filter.
  - intros ds' b'. constructor.
Qed.

(** On keys of that form the sequence numbers can always be read. *)
Lemma ncb_of_formed (name : string) (keys : list string) :
  Forall (fun k => exists name n, k = entry_key name n) keys ->
  exists ncb, ncb_of name keys = Ok ncb.
Proof.
  induction 1 as [|k keys (nm & n & ->) _ (ncb & IH)]; [now exists []|].
  cbn [ncb_of]. destruct (PyStr.startswith (entry_key nm n) name).
  - unfold PyStr.rsplit_tail. rewrite rsplit1_entry_key, int_of_str_of_nat, IH.
    now eexists.
  - now exists ncb.
Qed.

Lemma touch_present (ds : string) (b : Z) (r : click_cbs) (k : string) :
  In k (dict_keys (bucket_of r ds b)) -> touch ds b r = r.
Proof.
  unfold touch, touch_ds, bucket_of, dsdict_of.
  destruct (dict_get String.eqb ds r) as [D|]; [|intros []].
  destruct (dict_get Z.eqb b D); [reflexivity|intros []].
Qed.

Lemma prefix_app (p s t : string) :
  String.prefix p s = true -> String.prefix p (s ++ t) = true.
Proof.
  revert s. induction p as [|c p IH]; intros s H;
    [destruct (s ++ t)%string; reflexivity|].
  destruct s as [|c' s]; [discriminate|]. cbn in *.
  destruct (ascii_dec c c'); [now apply IH|discriminate].
Qed.

Section AttachReachable.
Context {coord : Type}.

(** X7.  In a click or pick container reached from an empty registry by
    any sequence of attach, remove, dispatch-read and forward calls,
    reading the sequence numbers of the keys in a bucket never fails:
    [_add_callback] never raises IndexError, ValueError or KeyError.  It
    either succeeds, and the identity returned is then attached, or it
    raises an assertion error, AttributeError or TypeError, the last two
    only for a callback that cannot be attached (a name of an attribute
    that is no method, or an object that is not a function).  It makes no
    call on a collaborator, and a rejected attachment attaches nothing:
    every bucket and the list of attached callbacks are as before. *)
Theorem attach_never_fails_on_a_reachable_bucket
  (method : string) (cb_list : list string) (attrs : dict string attr)
  (fwd : list nat) (ops : list op) (cb : callback) (dbl : bool) (button : Z)
  (kw : kwargs) :
  let c := run_ops (coord:=coord) ops
             (mk_container method cb_list attrs [] fwd None) in
  (exists id c',
     _click_container._add_callback (coord:=coord) cb dbl button kw c =
       (Ok id, c', []) /\
     resolves c cb = true /\
     In id (_click_container.attached_callbacks (cbs c'))) \/
  (exists e c',
     _click_container._add_callback (coord:=coord) cb dbl button kw c =
       (Raise e, c', []) /\
     ((exists why, e = AssertionError why) \/
      (resolves c cb = false /\ (e = AttributeError \/ e = TypeError))) /\
     same_buckets (cbs c) (cbs c') /\
     _click_container.attached_callbacks (cbs c') =
       _click_container.attached_callbacks (cbs c)).
Proof.
  intros c.
  assert (Hformed : forall name, exists ncb,
            ncb_of name (dict_keys (bucket_of (cbs c) (ds_of dbl) button)) = Ok ncb).
  { intros name. apply ncb_of_formed.
    apply (reachable_keys_formed (coord:=coord) ops method cb_list attrs fwd
             (ds_of dbl) button). }
  assert (Hsame :
            same_buckets (cbs c) (cbs c) /\
            _click_container.attached_callbacks (cbs c) =
              _click_container.attached_callbacks (cbs c))
    by (split; [now intros ? ?|reflexivity]).
  assert (Htouch :
            same_buckets (cbs c)
              (cbs (set_cbs (touch (ds_of dbl) button (cbs c)) c)) /\
            _click_container.attached_callbacks
              (cbs (set_cbs (touch (ds_of dbl) button (cbs c)) c)) =
              _click_container.attached_callbacks (cbs c)).
  { cbn [cbs set_cbs].
    split; [apply same_buckets_touch|apply attached_callbacks_touch]. }
  rewrite click_add_callback_run. unfold click_attach_outcome. cbv zeta.
  destruct (forallb _ _).
  { right. eexists. exists c. split; [reflexivity|].
    split; [left; now eexists|exact Hsame]. }
  destruct (resolves c cb) eqn:Hres; cbn [negb].
  2:{ right. unfold turned_down.
      destruct cb as [s|s|[|] [|] [n|]]; cbn in Hres; try discriminate;
        try destruct (hasattr c s);
        try (cbn [cb_name]; destruct (Hformed n) as [ncb ->];
             destruct (_ && _));
        eexists; eexists; (split; [reflexivity|]);
        first
          [ split; [left; now eexists|first [exact Hsame|exact Htouch]]
          | split;
            [right; split; [reflexivity|first [now left|now right]]
            |first [exact Hsame|exact Htouch]] ]. }
  destruct (Hformed (cb_name cb)) as [ncb ->].
  destruct (_ && _).
  - right. eexists. eexists. split; [reflexivity|]. split; [|exact Htouch].
    left. now eexists.
  - left. eexists. eexists. split; [reflexivity|]. split; [reflexivity|].
    cbn [cbs set_cbs]. unfold set_bucket, _click_container.attached_callbacks.
    apply (in_flat_map_dict_set String.eqb string_eqb_eq). cbn [fst snd].
    apply (in_flat_map_dict_set Z.eqb Z_eqb_eq). cbn [fst snd].
    rewrite dict_keys_app, map_app. apply in_or_app. right. now left.
Qed.

(** X8.  The check on multiple assignments counts every key of the bucket
    that starts with the name.  In a reachable click or pick container, a
    callback other than [mark] and [annotate] is rejected with the
    assertion error on multiple assignments as soon as the bucket holds an
    entry of a callback whose name starts with its name, whether or not
    the callback itself is attached; the registry is left as it is. *)
Theorem attach_is_rejected_by_a_longer_name
  (method : string) (cb_list : list string) (attrs : dict string attr)
  (fwd : list nat) (ops : list op) (cb : callback) (dbl : bool) (button : Z)
  (kw : kwargs) (longer : string) (n : nat) :
  let c := run_ops (coord:=coord) ops
             (mk_container method cb_list attrs [] fwd None) in
  resolves c cb = true ->
  dict_get String.eqb "button" kw = None ->
  existsb (String.eqb (cb_name cb)) _click_container.multi_cb_functions = false ->
  PyStr.startswith longer (cb_name cb) = true ->
  In (entry_key longer n) (dict_keys (bucket_of (cbs c) (ds_of dbl) button)) ->
  _click_container._add_callback (coord:=coord) cb dbl button kw c =
    (Raise (AssertionError (MultipleAssignment (cb_name cb))), c, []).
Proof.
  intros c Hres Hkw Hmulti Hpre Hin.
  destruct (ncb_of_formed (cb_name cb) _
              (reachable_keys_formed (coord:=coord) ops method cb_list attrs fwd
                 (ds_of dbl) button)) as [ncb Hncb].
  fold c in Hncb.
  rewrite click_add_callback_run. unfold click_attach_outcome. cbv zeta.
  rewrite (reserved_check_passes kw Hkw), Hres, Hncb, Hmulti. cbn [negb andb].
  assert (Hs : PyStr.startswith (entry_key longer n) (cb_name cb) = true)
    by (unfold PyStr.startswith, entry_key in *; now apply prefix_app).
  destruct (ncb_of_in _ _ _ _ Hncb Hin Hs) as [_ Hseq].
  destruct ncb as [|x ncb]; [destruct Hseq|]. cbn [List.length Nat.eqb negb].
  rewrite (touch_present _ _ _ _ Hin). now rewrite set_cbs_same.
Qed.

End AttachReachable.

Lemma attach_is_rejected_by_a_longer_name_witness :
  let c := run_ops (coord:=Z) [Attach (CbFunc "plot_profile") false 1 []]
             Example.click0 in
  count_base "plot" (bucket_of (cbs c) "single" 1) = 0 /\
  _click_container._add_callback (coord:=Z) (CbStr "plot") false 1 [] c =
    (Raise (AssertionError (MultipleAssignment "plot")), c, []).
Proof.
  split; [reflexivity|].
  apply (attach_is_rejected_by_a_longer_name (coord:=Z) "click"
           Example.click_catalog Example.click_attrs []
           [Attach (CbFunc "plot_profile") false 1 []]
           (CbStr "plot") false 1 [] "plot_profile" 0
           eq_refl eq_refl eq_refl eq_refl).
  left. reflexivity.
Defined.

(** ** Attaching, then dispatching *)

Lemma in_invoke_all {coord : Type} (method : string) (d : bucket)
  (kw : cb_kwargs coord) (order : list string) (key : string) (v : partial) :
  In key order -> dict_get String.eqb key d = Some v ->
  In (Invoke method key v kw) (invoke_all method d kw order).
Proof.
  intros Hin Hget. unfold invoke_all. apply in_flat_map.
  exists key. split; [assumption|]. rewrite Hget. now left.
Qed.

Lemma touch_ds_present (ds : string) (r : click_cbs) (D : dict Z bucket) :
  dict_get String.eqb ds r = Some D -> touch_ds ds r = r.
Proof. unfold touch_ds. now intros ->. Qed.

Section AttachDispatch.
Context {coord crs : Type} {RT : Runtime coord crs}.
Hypothesis set_to_list_members :
  forall l x, In x (set_to_list l) <-> In x l.

(** X9.  A callback attached to a click container runs on the clicks it
    was attached for, and on no other.  After a successful
    [_add_callback], a click with that arity and button executes the
    entries of the bucket, the new one among them, each once; the new
    entry is called with the keyword arguments given when attaching and
    with the position of the click, [ID], [val] and [ind] being [None];
    the dispatch changes nothing in the container but [_event], which it
    sets to the event.  A click with another arity or another button
    makes the same calls as before the attachment. *)
Theorem attached_callback_runs_on_matching_clicks
  (c c1 : container click_cbs) (cb : callback) (dbl : bool) (b : Z)
  (kw : kwargs) (id : string) (tr : list (call coord))
  (event : mouse_event coord) :
  _click_container._add_callback cb dbl b kw c = (Ok id, c1, tr) ->
  exists n,
    id = click_identity (cb_name cb) n (ds_of dbl) b /\
    (dblclick event = dbl -> button event = Some b ->
     exists tr1,
       cb_click_container._onclick event c1 =
         (Ok tt, set_event (MouseEvent event) c1, tr1) /\
       In (Invoke (_method c) (entry_key (cb_name cb) n)
             (mk_partial (cb_name cb) kw)
             (ClickKw (mk_clickdict (xdata event, ydata event) PyNone PyNone None)))
          tr1 /\
       Permutation (invoked_keys tr1)
         (dict_keys (bucket_of (cbs c) (ds_of dbl) b)
          ++ [entry_key (cb_name cb) n])) /\
    ((dblclick event, button event) <> (dbl, Some b) ->
     snd (cb_click_container._onclick event c1) =
     snd (cb_click_container._onclick event c)).
Proof.
  intros Hc.
  destruct (click_attach_ok _ _ _ _ _ _ _ _ Hc) as (ncb & _ & Hncb & -> & -> & ->).
  pose proof (fresh_key _ _ _ Hncb) as Hfresh.
  exists (next_count ncb). split; [reflexivity|].
  set (name := cb_name cb) in *. set (key := entry_key name (next_count ncb)) in *.
  set (d := bucket_of (cbs c) (ds_of dbl) b) in *.
  set (c1 := set_cbs _ c).
  split.
  - intros Hd Hb. rewrite (onclick_run set_to_list_members). cbv zeta.
    rewrite Hd, Hb. cbn [matching_bucket].
    assert (Hbk : bucket_of (cbs c1) (ds_of dbl) b = d ++ [(key, mk_partial name kw)])
      by (subst c1; cbn [cbs set_cbs]; apply bucket_of_set_bucket_same).
    rewrite Hbk.
    assert (Ht : touch_ds (ds_of dbl) (cbs c1) = cbs c1).
    { subst c1. cbn [cbs set_cbs]. unfold set_bucket.
      eapply touch_ds_present. apply (dict_get_set_same String.eqb string_eqb_eq). }
    rewrite Ht, set_cbs_set_event.
    eexists. split; [reflexivity|]. split.
    + apply in_invoke_all.
      * apply (Permutation_in _ (Permutation_sym
                 (sort_order_perm _ _))).
        rewrite dict_keys_app. apply in_or_app. right. now left.
      * apply (dict_get_app_last String.eqb string_eqb_eq _ _ _ Hfresh).
    + rewrite invoked_keys_onclick.
      rewrite <- (dict_keys_app d key (mk_partial name kw)).
      apply sort_order_perm.
  - intros Hne. rewrite !(onclick_run set_to_list_members). cbv zeta. cbn [snd].
    change (_method c1) with (_method c). change (_cb_list c1) with (_cb_list c).
    assert (Hm : matching_bucket (cbs c1) (dblclick event) (button event) =
                 matching_bucket (cbs c) (dblclick event) (button event)).
    { unfold matching_bucket. destruct (button event) as [b'|]; [|reflexivity].
      subst c1. cbn [cbs set_cbs]. rewrite bucket_of_set_bucket.
      destruct (String.eqb _ _ && Z.eqb _ _) eqn:E.
      - apply andb_true_iff in E. destruct E as [E1 E2].
        apply Z_eqb_eq in E2. subst b'. apply string_eqb_eq in E1.
        exfalso. apply Hne. f_equal.
        destruct (dblclick event), dbl; try reflexivity; discriminate.
      - apply same_buckets_touch. }
    now rewrite Hm.
Qed.

(** X10.  Dispatching a click raises no error of its own and never
    changes what is attached: [_onclick] executes exactly the entries of
    the bucket of the arity and the button of the event, each once, and
    leaves every bucket, the list of attached callbacks and the forwarding
    dictionary as they were.  A motion event without a button executes
    nothing.  (The callbacks executed are calls on collaborators; what
    they do is not part of the container.) *)
Theorem click_dispatch_keeps_the_registry
  (c : container click_cbs) (event : mouse_event coord) :
  exists c' tr,
    cb_click_container._onclick event c = (Ok tt, c', tr) /\
    Permutation (invoked_keys tr)
      (dict_keys (matching_bucket (cbs c) (dblclick event) (button event))) /\
    (button event = None -> tr = []) /\
    same_buckets (cbs c) (cbs c') /\
    _click_container.attached_callbacks (cbs c') =
      _click_container.attached_callbacks (cbs c) /\
    _fwd_cbs c' = _fwd_cbs c.
Proof.
  rewrite (onclick_run set_to_list_members). cbv zeta.
  eexists. eexists. split; [reflexivity|]. cbn [cbs set_cbs _fwd_cbs].
  split; [|split; [|split; [|split]]].
  - rewrite invoked_keys_onclick.
    apply sort_order_perm.
  - intros ->. reflexivity.
  - apply same_buckets_touch_ds.
  - apply attached_callbacks_touch_ds.
  - reflexivity.
Qed.

End AttachDispatch.

Lemma attached_callback_runs_on_matching_clicks_witness :
  let c1 :=
    set_cbs [("single",
              [(1%Z, [("mark_0", mk_partial "mark" [("permanent", PyBool true)])])])]
      Example.click0 in
  _click_container._add_callback (coord:=Z) (CbStr "mark") false 1
    [("permanent", PyBool true)] Example.click0 =
    (Ok "mark_0__single__1", c1, []) /\
  exists tr1,
    cb_click_container._onclick (RT:=Example.runtime) Example.click_event c1 =
      (Ok tt, set_event (MouseEvent Example.click_event) c1, tr1) /\
    In (Invoke "click" "mark_0" (mk_partial "mark" [("permanent", PyBool true)])
          (ClickKw (mk_clickdict (5, 6)%Z PyNone PyNone None))) tr1.
Proof.
  intros c1. split; [reflexivity|].
  destruct (attached_callback_runs_on_matching_clicks (RT:=Example.runtime)
              (fun l x => nodup_In string_dec l x)
              Example.click0 c1 (CbStr "mark") false 1
              [("permanent", PyBool true)] "mark_0__single__1" []
              Example.click_event eq_refl)
    as (n & Hid & H & _).
  assert (Hn : n = 0%nat).
  { apply (f_equal (fun s => sequence (hd EmptyString (PyStr.split_dunder s)))) in Hid.
    change (sequence (hd EmptyString (PyStr.split_dunder "mark_0__single__1")) =
            sequence (hd EmptyString
                        (PyStr.split_dunder
                           (click_identity "mark" n (ds_of false) 1)))) in Hid.
    rewrite (split_click_identity "mark" n false 1 eq_refl) in Hid.
    cbn [hd] in Hid. rewrite sequence_entry_key in Hid. now symmetry. }
  destruct (H eq_refl eq_refl) as (tr1 & Hrun & Hin & _).
  exists tr1. split; [exact Hrun|]. subst n. exact Hin.
Defined.

Lemma click_dispatch_keeps_the_registry_witness :
  exists c' tr,
    cb_click_container._onclick (RT:=Example.runtime) Example.click_event
      Example.click_marked = (Ok tt, c', tr) /\
    _click_container.attached_callbacks (cbs c') = ["mark_0__single__1"].
Proof.
  destruct (click_dispatch_keeps_the_registry (RT:=Example.runtime)
              (fun l x => nodup_In string_dec l x)
              Example.click_marked Example.click_event)
    as (c' & tr & Hrun & _ & _ & _ & Hatt & _).
  exists c', tr. split; [exact Hrun|]. rewrite Hatt. reflexivity.
Defined.

(** ** Key presses *)

Lemma for_each_emit {E S X} (l : list X) (f : X -> E) (s : S) :
  for_each l (fun x => emit (f x)) s = (Ok tt, s, map f l).
Proof.
  induction l as [|x l IH]; [reflexivity|].
  cbn [for_each map]. erewrite bind_ok by reflexivity. now rewrite IH.
Qed.

Section KeyPress.
Context {coord : Type}.

Lemma onpress_run (key : string) (c : container keypress_cbs) :
  keypress_container._onpress (coord:=coord) key c =
    (Ok tt, set_event (KeyEvent key) c,
     map (fun item => Invoke (_method c) (fst item) (snd item) (KeyKw key))
       (key_bucket_of (cbs c) key)).
Proof.
  unfold keypress_container._onpress, key_bucket_of.
  erewrite bind_ok by reflexivity.
  erewrite bind_ok by reflexivity. cbn [cbs set_event _method app].
  destruct (dict_get String.eqb key (cbs c)) as [d|]; [|reflexivity].
  rewrite for_each_emit. reflexivity.
Qed.

(** X11.  A key press executes the callbacks attached to that key in the
    order in which they were attached, and a new attachment runs last.
    [_onpress] raises no error of its own and changes nothing in the
    container but [_event], which it sets to the event; it creates no
    bucket for a key that has none.  After a successful [_add_callback]
    for a key, pressing the key makes the calls it made before, then calls
    the new entry with the keyword arguments given when attaching and with
    [key]; pressing another key makes the calls it made before. *)
Theorem attached_keypress_callback_runs_last
  (c c1 : container keypress_cbs) (cb : callback) (key : string)
  (kw : kwargs) (id : string) (tr : list (call coord)) :
  keypress_container._add_callback cb key kw c = (Ok id, c1, tr) ->
  exists n,
    id = keypress_identity (cb_name cb) n key /\
    keypress_container._onpress (coord:=coord) key c1 =
      (Ok tt, set_event (KeyEvent key) c1,
       snd (keypress_container._onpress (coord:=coord) key c)
       ++ [Invoke (_method c) (entry_key (cb_name cb) n)
             (mk_partial (cb_name cb) kw) (KeyKw key)]) /\
    (forall key', key' <> key ->
       keypress_container._onpress (coord:=coord) key' c1 =
         (Ok tt, set_event (KeyEvent key') c1,
          snd (keypress_container._onpress (coord:=coord) key' c))) /\
    fst (keypress_container._onpress (coord:=coord) key c) =
      (Ok tt, set_event (KeyEvent key) c).
Proof.
  intros Hc.
  destruct (keypress_attach_ok _ _ _ _ _ _ _ Hc) as (ncb & _ & Hncb & -> & -> & ->).
  exists (next_count ncb). split; [reflexivity|].
  set (d := key_bucket_of (cbs c) key) in *.
  set (v := mk_partial (cb_name cb) kw).
  set (k := entry_key (cb_name cb) (next_count ncb)).
  set (c1 := set_cbs (dict_set String.eqb key (d ++ [(k, v)]) (cbs c)) c).
  assert (Hsame : key_bucket_of (cbs c1) key = d ++ [(k, v)]).
  { subst c1. cbn [cbs set_cbs]. unfold key_bucket_of at 1.
    now rewrite (dict_get_set_same String.eqb string_eqb_eq). }
  assert (Hother : forall key', key' <> key ->
            key_bucket_of (cbs c1) key' = key_bucket_of (cbs c) key').
  { intros key' Hne. subst c1. cbn [cbs set_cbs]. unfold key_bucket_of.
    rewrite (dict_get_set_other String.eqb string_eqb_eq) by congruence.
    reflexivity. }
  split; [|split].
  - rewrite !onpress_run. cbn [snd]. rewrite Hsame, map_app. reflexivity.
  - intros key' Hne. rewrite !onpress_run. cbn [snd]. now rewrite Hother.
  - now rewrite onpress_run.
Qed.

End KeyPress.

Lemma attached_keypress_callback_runs_last_witness :
  exists k2,
    keypress_container._add_callback (coord:=Z) (CbStr "switch_layer") "a"
      [("layer", PyInt 2)] Example.keys_attached =
      (Ok "switch_layer_1__a", k2, []) /\
    keypress_container._onpress (coord:=Z) "a" k2 =
      (Ok tt, set_event (KeyEvent "a") k2,
       [Invoke "keypress" "show_help_0" (mk_partial "show_help" []) (KeyKw "a");
        Invoke "keypress" "switch_layer_0" (mk_partial "switch_layer" [])
          (KeyKw "a");
        Invoke "keypress" "switch_layer_1"
          (mk_partial "switch_layer" [("layer", PyInt 2)]) (KeyKw "a")]).
Proof.
  eexists. split; [reflexivity|].
  destruct (attached_keypress_callback_runs_last (coord:=Z) Example.keys_attached
              _ (CbStr "switch_layer") "a" [("layer", PyInt 2)] _ _ eq_refl)
    as (n & Hid & Hrun & _).
  assert (Hn : n = 1%nat).
  { apply (f_equal (fun s => sequence (hd EmptyString (PyStr.split_dunder s)))) in Hid.
    change (sequence (hd EmptyString (PyStr.split_dunder "switch_layer_1__a")) =
            sequence (hd EmptyString
                        (PyStr.split_dunder
                           (keypress_identity "switch_layer" n "a")))) in Hid.
    rewrite (split_keypress_identity "switch_layer" n "a" eq_refl eq_refl) in Hid.
    cbn [hd] in Hid. rewrite sequence_entry_key in Hid. now symmetry. }
  subst n. exact Hrun.
Defined.

(** ** The index of a pick event *)

Section PickIndex.
Context {coord crs : Type} {RT : Runtime coord crs}.

Lemma item_out_of_range {A} (l : list A) (i : nat) :
  (List.length l <= i)%nat -> cb_pick_container.item l i = Raise IndexError.
Proof.
  intros H. unfold cb_pick_container.item.
  now rewrite (proj2 (nth_error_None l i) H).
Qed.

Lemma get_pickdict_out_of_range (m : Maps coord crs) (event : pick_event coord)
  (i : nat) :
  p_ind event = Some i ->
  cb_pick_container.option_nat_eqb (artist event) (figure_coll m) = true ->
  (List.length (props_x0 m) <= i \/ List.length (props_y0 m) <= i \/
   List.length (props_ids m) <= i \/ List.length (props_z_data m) <= i)%nat ->
  cb_pick_container._get_pickdict m event = Raise IndexError.
Proof.
  intros Hi Ha Hlen. unfold cb_pick_container._get_pickdict. rewrite Hi, Ha.
  assert (Hitem : forall A (l : list A),
            cb_pick_container.item l i = Raise IndexError \/
            exists v, cb_pick_container.item l i = Ok v).
  { intros A l. unfold cb_pick_container.item.
    destruct (nth_error l i); [right; eauto|now left]. }
  destruct Hlen as [H | [H | [H | H]]]; apply item_out_of_range in H; rewrite H.
  - reflexivity.
  - destruct (Hitem _ (props_x0 m)) as [-> | [v ->]]; reflexivity.
  - destruct (Hitem _ (props_x0 m)) as [-> | [v ->]]; [reflexivity|].
    destruct (Hitem _ (props_y0 m)) as [-> | [v' ->]]; reflexivity.
  - destruct (Hitem _ (props_x0 m)) as [-> | [v ->]]; [reflexivity|].
    destruct (Hitem _ (props_y0 m)) as [-> | [v' ->]]; [reflexivity|].
    destruct (Hitem _ (props_ids m)) as [-> | [v'' ->]]; reflexivity.
Qed.

(** X12.  A pick event on the collection of the Maps object whose index
    lies beyond one of the per-point arrays ([x0], [y0], [ids], [z_data])
    raises IndexError before any callback is executed: no call is made,
    and nothing of the Maps object changes but [_event] of its pick
    container, which is set to the event before the index is used.  With
    the index in range of the four arrays, the keyword arguments of the
    callbacks are the position, the [ID] and the value of that data point
    and the index itself. *)
Theorem pick_index_out_of_range_raises
  (m : Maps coord crs) (event : pick_event coord) (i : nat) :
  cb_click_container.toolbar_active m = false ->
  cb_pick_container.option_nat_eqb (artist event) (figure_coll m) = true ->
  p_ind event = Some i ->
  ((List.length (props_x0 m) <= i \/ List.length (props_y0 m) <= i \/
    List.length (props_ids m) <= i \/ List.length (props_z_data m) <= i)%nat ->
   cb_pick_container._onpick event m =
     (Raise IndexError,
      set_cb_pick (set_event (PickEvent event) (cb_pick m)) m, [])) /\
  (forall x y id z,
     nth_error (props_x0 m) i = Some x -> nth_error (props_y0 m) i = Some y ->
     nth_error (props_ids m) i = Some id ->
     nth_error (props_z_data m) i = Some z ->
     cb_pick_container._get_pickdict m event =
       Ok (Some (mk_clickdict (x, y) id z (Some i)))).
Proof.
  intros Ht Ha Hi. split.
  - intros Hlen. destruct (onpick_stopped m event) as (_ & _ & H3).
    apply H3; [assumption..|].
    apply (get_pickdict_out_of_range m event i Hi Ha Hlen).
  - intros x y id z Hx Hy Hid Hz.
    unfold cb_pick_container._get_pickdict, cb_pick_container.item.
    now rewrite Hi, Ha, Hx, Hy, Hid, Hz.
Qed.

End PickIndex.

Lemma pick_index_out_of_range_raises_witness :
  let m := Example.maps 0 0 Example.click0 Example.pick_annotated
             Example.keypress0 in
  let event :=
    mk_pick_event (Some 0) false (Some 1%Z) (Some 2) (Some Example.click_event) in
  cb_pick_container._onpick (RT:=Example.runtime) event m =
    (Raise IndexError,
     set_cb_pick (set_event (PickEvent event) Example.pick_annotated) m, []).
Proof.
  intros m event.
  apply (pick_index_out_of_range_raises (RT:=Example.runtime) m event 2
           eq_refl eq_refl eq_refl).
  left. cbn. lia.
Defined.

(** ** Motion events *)

Section Motion.
Context {coord crs : Type} {RT : Runtime coord crs}.

(** X13.  A motion event with a mouse button held down is handled
    exactly like a click with that button: [movecb] and [clickcb] agree on
    every such event and every state.  A motion event without a button
    ([None] or 0) does nothing. *)
Theorem motion_with_a_button_held_is_a_click
  (self : nat) (event : mouse_event coord) (w : world coord crs) :
  (forall b, button event = Some b -> b <> 0%Z ->
     cb_click_container.movecb self event w =
     cb_click_container.clickcb self event w) /\
  (button event = None \/ button event = Some 0%Z ->
     cb_click_container.movecb self event w = (Ok tt, w, [])).
Proof.
  unfold cb_click_container.movecb, cb_click_container.clickcb. run_monad.
  split.
  - intros b Hb Hne. rewrite Hb.
    destruct (_modifier_pressed (w self)); [reflexivity|].
    destruct (cb_click_container.toolbar_active (w self)); [reflexivity|].
    destruct b; [contradiction|reflexivity|reflexivity].
  - intros [H | H]; rewrite H;
      destruct (_modifier_pressed (w self)); try reflexivity;
      destruct (cb_click_container.toolbar_active (w self)); reflexivity.
Qed.

End Motion.

(** ** Forwarding dictionaries *)

Lemma existsb_nat_in (m : nat) (f : list nat) :
  existsb (Nat.eqb m) f = true <-> In m f.
Proof.
  rewrite existsb_exists. split.
  - intros (x & Hx & E). apply Nat.eqb_eq in E. now subst.
  - intros H. exists m. split; [assumption|apply Nat.eqb_refl].
Qed.

Lemma fold_fwd_add (args f : list nat) :
  exists new,
    fold_left (fun f m => fwd_add m f) args f = f ++ new /\
    (forall x, In x new <-> In x args /\ ~ In x f) /\
    NoDup new.
Proof.
  revert f. induction args as [|m args IH]; intros f.
  - exists []. cbn. rewrite app_nil_r. repeat split; try tauto; constructor.
  - cbn [fold_left]. unfold fwd_add at 2.
    destruct (existsb (Nat.eqb m) f) eqn:E.
    + apply existsb_nat_in in E.
      destruct (IH f) as (new & Hf & Hin & Hnd). exists new.
      split; [assumption|]. split; [|assumption].
      intros x. rewrite Hin. cbn [In]. split; [tauto|].
      intros [[<- | H] Hn]; [contradiction|tauto].
    + assert (Hm : ~ In m f).
      { intros H. apply existsb_nat_in in H. congruence. }
      destruct (IH (f ++ [m])) as (new & Hf & Hin & Hnd). exists (m :: new).
      split; [rewrite Hf, <- app_assoc; reflexivity|]. split.
      * intros x. cbn [In]. rewrite Hin, in_app_iff. cbn [In].
        destruct (Nat.eq_dec m x) as [<- | Hne]; tauto.
      * constructor; [|assumption]. rewrite Hin, in_app_iff. cbn [In]. tauto.
Qed.

Lemma fold_fwd_add_present (args f : list nat) :
  (forall x, In x args -> In x f) ->
  fold_left (fun f m => fwd_add m f) args f = f.
Proof.
  induction args as [|m args IH]; intros H; [reflexivity|].
  cbn [fold_left]. unfold fwd_add at 2.
  rewrite (proj2 (existsb_nat_in m f)) by (apply H; now left).
  apply IH. intros x Hx. apply H. now right.
Qed.

Section ForwardEvents.
Context {coord : Type} {R : Type}.

Lemma forward_events_run (args : list nat) (c : container R) :
  forward_events (coord:=coord) args c =
    (Ok tt, set_fwd_cbs (fold_left (fun f m => fwd_add m f) args (_fwd_cbs c)) c, []).
Proof.
  unfold forward_events. revert c.
  induction args as [|m args IH]; intros c.
  - cbn. now destruct c.
  - cbn [for_each fold_left]. erewrite bind_ok by reflexivity.
    rewrite IH. reflexivity.
Qed.

(** X14.  [forward_events] adds each of its arguments to the forwarding
    dictionary once.  It never raises and makes no call; the peers already
    there keep their place, the new ones follow in the order of their
    first mention, none of them twice; the registry is untouched; and
    calling it again with the same arguments changes nothing. *)
Theorem forward_events_adds_each_peer_once (args : list nat) (c : container R) :
  exists c' new,
    forward_events (coord:=coord) args c = (Ok tt, c', []) /\
    cbs c' = cbs c /\
    _fwd_cbs c' = _fwd_cbs c ++ new /\
    (forall x, In x new <-> In x args /\ ~ In x (_fwd_cbs c)) /\
    NoDup new /\
    forward_events (coord:=coord) args c' = (Ok tt, c', []).
Proof.
  destruct (fold_fwd_add args (_fwd_cbs c)) as (new & Hf & Hin & Hnd).
  eexists. exists new. rewrite forward_events_run.
  split; [reflexivity|]. cbn [cbs _fwd_cbs set_fwd_cbs].
  split; [reflexivity|]. split; [assumption|]. split; [assumption|].
  split; [assumption|].
  rewrite forward_events_run. cbn [cbs _fwd_cbs set_fwd_cbs].
  rewrite fold_fwd_add_present; [reflexivity|].
  intros x Hx. rewrite Hf, in_app_iff.
  destruct (in_dec Nat.eq_dec x (_fwd_cbs c)) as [H | H]; [now left|].
  right. apply Hin. tauto.
Qed.

End ForwardEvents.

(** ** Who runs when a click is forwarded *)

Section OneHop.
Context {coord crs : Type} {RT : Runtime coord crs}.
Hypothesis set_to_list_members :
  forall l x, In x (set_to_list l) <-> In x l.

(** X15.  Forwarding is not transitive.  When Maps object [X] forwards
    its clicks to [Y], and [Y] forwards its clicks to [Z], a click on [X]
    runs the entries of [X] and of [Y] for that click, and none of [Z],
    unless [X] itself forwards to [Z]. *)
Theorem click_forwarding_is_one_hop
  (X Y Z : nat) (event : mouse_event coord) (w : world coord crs) :
  NoDup (X :: _fwd_cbs (cb_click (w X))) ->
  _modifier_pressed (w X) = false ->
  cb_click_container.toolbar_active (w X) = false ->
  inaxes event = Some (figure_ax (w X)) ->
  (forall ch, In ch (_children (w X)) -> figure_ax (w ch) <> figure_ax (w X)) ->
  In Y (_fwd_cbs (cb_click (w X))) ->
  In Z (_fwd_cbs (cb_click (w Y))) ->
  ~ In Z (X :: _fwd_cbs (cb_click (w X))) ->
  exists w' tr,
    cb_click_container.clickcb X event w = (Ok tt, w', tr) /\
    invoked_on X tr = click_order (w X) (dblclick event) (button event) /\
    invoked_on Y tr = click_order (w Y) (dblclick event) (button event) /\
    invoked_on Z tr = [].
Proof.
  intros Hnd Hmod Htb Hax Hch HY HZ HnZ.
  destruct (clickcb_run set_to_list_members X event w Hnd Hmod Htb Hax Hch)
    as (w' & tr & Hrun & Hinv).
  exists w', tr. split; [assumption|].
  repeat split.
  - rewrite Hinv. destruct (in_dec _ _ _) as [_ | H]; [reflexivity|].
    exfalso. apply H. now left.
  - rewrite Hinv. destruct (in_dec _ _ _) as [_ | H]; [reflexivity|].
    exfalso. apply H. now right.
  - rewrite Hinv. destruct (in_dec _ _ _) as [H | _]; [contradiction|reflexivity].
Qed.

End OneHop.

Lemma click_forwarding_is_one_hop_witness :
  _fwd_cbs (cb_click (Chain.maps3 0)) = [1] /\
  _fwd_cbs (cb_click (Chain.maps3 1)) = [2] /\
  dict_keys (bucket_of (cbs (cb_click (Chain.maps3 2))) "single" 1) = ["mark_0"] /\
  exists w' tr,
    cb_click_container.clickcb (RT:=Example.runtime) 0 Example.click_event
      Chain.maps3 = (Ok tt, w', tr) /\
    invoked_on 0 tr = ["mark_0"] /\
    invoked_on 1 tr = ["mark_0"] /\
    invoked_on 2 tr = [].
Proof.
  split; [reflexivity|]. split; [reflexivity|]. split; [reflexivity|].
  destruct (click_forwarding_is_one_hop (RT:=Example.runtime)
              (fun l x => nodup_In string_dec l x)
              0 1 2 Example.click_event Chain.maps3
              ltac:(repeat constructor; cbn; intuition discriminate)
              eq_refl eq_refl eq_refl
              ltac:(intros ch [])
              (or_introl eq_refl) (or_introl eq_refl)
              ltac:(cbn; intuition discriminate))
    as (w' & tr & Hrun & H0 & H1 & H2).
  exists w', tr. split; [exact Hrun|]. split; [exact H0|]. split; [exact H1|exact H2].
Defined.

(** ** Sharing *)

Section ShareEvents.
Context {coord crs : Type}.

(** X16.  [share_events] on click containers links exactly the Maps
    objects of the group, both ways.  It never raises and makes no call.
    Afterwards a Maps object forwards to those it forwarded to before and,
    when it belongs to the group (the owner and the arguments), to every
    other member of the group, and to nothing else: in particular it never
    comes to forward to itself, and objects outside the group are not
    touched.  Keys of the forwarding dictionaries stay unique, and no
    registry and no other attribute of a Maps object changes. *)
Theorem share_events_links_exactly_the_group
  (self : nat) (args : list nat) (w : world coord crs) :
  exists w',
    share_events click_obj self args w = (Ok tt, w', []) /\
    forall i,
      (forall x, In x (_fwd_cbs (cb_click (w' i))) <->
                 In x (_fwd_cbs (cb_click (w i))) \/
                 (In i (self :: args) /\ In x (self :: args) /\ x <> i)) /\
      (NoDup (_fwd_cbs (cb_click (w i))) -> NoDup (_fwd_cbs (cb_click (w' i)))) /\
      cbs (cb_click (w' i)) = cbs (cb_click (w i)) /\
      click_variant (w i) (w' i).
Proof.
  destruct (share_events_run self args w) as (w' & Hrun & Hsh & Hpairs).
  exists w'. split; [assumption|]. intros i.
  destruct (Hsh i) as (Hv & Hcbs & Hin & Hout & Hnd).
  split; [|split; [assumption|split; assumption]].
  intros x. split; [apply Hout|].
  intros [H | (Hi & Hx & Hne)]; [now apply Hin|].
  apply Hpairs; auto.
Qed.

End ShareEvents.

(** ** Temporary artists *)

(** X17.  [_clear_temporary_artists] terminates, hands every temporary
    artist to the blit manager exactly once, the one created last first,
    each under the method of the container, and leaves the list of
    temporary artists empty. *)
Theorem temporary_artists_are_handed_over_newest_first
  (method : string) (temp : list nat) :
  artists._clear_temporary_artists method temp =
    ([], map (pair method) (rev temp)).
Proof.
  induction temp as [|x l IH] using rev_ind.
  - now rewrite artists._clear_temporary_artists_equation.
  - rewrite artists._clear_temporary_artists_equation.
    rewrite length_app. cbn [List.length].
    replace (0 <? List.length l + 1)%nat with true
      by (symmetry; apply Nat.ltb_lt; lia).
    rewrite last_last, removelast_last, IH, rev_app_distr. reflexivity.
Qed.

(** ** Default keymaps *)

Lemma dict_keys_set_present {K V} (keq : K -> K -> bool) (k : K) (v v0 : V)
  (d : dict K V) :
  dict_get keq k d = Some v0 -> dict_keys (dict_set keq k v d) = dict_keys d.
Proof.
  induction d as [|[k' v'] d IH]; [discriminate|].
  cbn [dict_get dict_set]. destruct (keq k k'); [reflexivity|].
  intros H. change (k' :: dict_keys (dict_set keq k v d) = k' :: dict_keys d).
  f_equal. now apply IH.
Qed.

Lemma dict_get_update (k key : string) (f : list string -> list string)
  (rc : keymaps.rcParams) :
  dict_get String.eqb k (update key f rc) =
  if String.eqb k key then option_map f (dict_get String.eqb k rc)
  else dict_get String.eqb k rc.
Proof.
  unfold update. destruct (String.eqb k key) eqn:E.
  - apply string_eqb_eq in E. subst k.
    destruct (dict_get String.eqb key rc) as [l|] eqn:Hl.
    + now rewrite (dict_get_set_same String.eqb string_eqb_eq).
    + now rewrite Hl.
  - destruct (dict_get String.eqb key rc) as [l|]; [|reflexivity].
    apply (dict_get_set_other String.eqb string_eqb_eq).
    intros ->. now rewrite String.eqb_refl in E.
Qed.

Lemma dict_keys_update (key : string) (f : list string -> list string)
  (rc : keymaps.rcParams) :
  dict_keys (update key f rc) = dict_keys rc.
Proof.
  unfold update. destruct (dict_get String.eqb key rc) as [l|] eqn:Hl;
    [|reflexivity].
  apply (dict_keys_set_present String.eqb _ _ _ _ Hl).
Qed.

Section Keymaps.
Context {E : Type}.

Lemma try_remove_run (key v : string) (rc : keymaps.rcParams) :
  keymaps.try_pass (keymaps.remove_key (E:=E) key v) rc =
    (Ok tt, update key (remove_first v) rc, []).
Proof.
  unfold keymaps.try_pass, keymaps.remove_key, update, remove_first. run_monad.
  destruct (dict_get String.eqb key rc) as [l|] eqn:Hl; [|reflexivity].
  destruct (keymaps.list_remove v l) as [l'|]; [reflexivity|].
  now rewrite (dict_set_same_value String.eqb _ _ _ Hl).
Qed.

Lemma remove_keys_run (key : string) (vals : list string) (rc : keymaps.rcParams) :
  for_each vals (fun v => keymaps.try_pass (keymaps.remove_key (E:=E) key v)) rc =
    (Ok tt, fold_left (fun rc v => update key (remove_first v) rc) vals rc, []).
Proof.
  revert rc. induction vals as [|v vals IH]; intros rc; [reflexivity|].
  cbn [for_each fold_left]. erewrite bind_ok by apply try_remove_run.
  now rewrite IH.
Qed.

Lemma remove_default_keymaps_run (asg : dict string (list string))
  (rc : keymaps.rcParams) :
  for_each asg (fun item =>
    for_each (snd item)
      (fun v => keymaps.try_pass (keymaps.remove_key (E:=E) (fst item) v))) rc =
    (Ok tt,
     fold_left (fun rc item =>
                  fold_left (fun rc v => update (fst item) (remove_first v) rc)
                    (snd item) rc) asg rc,
     []).
Proof.
  revert rc. induction asg as [|item asg IH]; intros rc; [reflexivity|].
  cbn [for_each fold_left]. erewrite bind_ok by apply remove_keys_run.
  now rewrite IH.
Qed.

End Keymaps.

Lemma option_map_id {A} (o : option A) : option_map (fun x => x) o = o.
Proof. now destruct o. Qed.

Lemma dict_get_remove_keys (k key : string) (vals : list string)
  (rc : keymaps.rcParams) :
  dict_get String.eqb k
    (fold_left (fun rc v => update key (remove_first v) rc) vals rc) =
  if String.eqb k key
  then option_map (fun l => fold_left (fun l v => remove_first v l) vals l)
         (dict_get String.eqb k rc)
  else dict_get String.eqb k rc.
Proof.
  revert rc. induction vals as [|v vals IH]; intros rc.
  - cbn [fold_left]. destruct (String.eqb k key); [|reflexivity].
    now rewrite option_map_id.
  - cbn [fold_left]. rewrite IH, dict_get_update.
    destruct (String.eqb k key); [|reflexivity].
    now destruct (dict_get String.eqb k rc).
Qed.

Lemma dict_keys_remove_keys (key : string) (vals : list string)
  (rc : keymaps.rcParams) :
  dict_keys (fold_left (fun rc v => update key (remove_first v) rc) vals rc) =
  dict_keys rc.
Proof.
  revert rc. induction vals as [|v vals IH]; intros rc; [reflexivity|].
  cbn [fold_left]. now rewrite IH, dict_keys_update.
Qed.

(** What the loops over an assignment dictionary do to one setting. *)
Lemma dict_get_remove_all (k : string) (asg : dict string (list string))
  (rc : keymaps.rcParams) :
  NoDup (dict_keys asg) ->
  dict_get String.eqb k
    (fold_left (fun rc item =>
                  fold_left (fun rc v => update (fst item) (remove_first v) rc)
                    (snd item) rc) asg rc) =
  option_map
    (fun l => fold_left (fun l v => remove_first v l)
                (match dict_get String.eqb k asg with Some vs => vs | None => [] end)
                l)
    (dict_get String.eqb k rc).
Proof.
  revert rc. induction asg as [|[key vals] asg IH]; intros rc Hnd.
  - cbn. now rewrite option_map_id.
  - cbn [dict_keys map fst] in Hnd. inversion Hnd as [|? ? Hnot Hnd']; subst.
    cbn [fold_left fst snd dict_get]. rewrite (IH _ Hnd'), dict_get_remove_keys.
    destruct (String.eqb k key) eqn:E.
    + apply string_eqb_eq in E. subst k.
      assert (Hnone : dict_get String.eqb key asg = None).
      { destruct (dict_get String.eqb key asg) eqn:Hg; [|reflexivity].
        exfalso. apply Hnot.
        apply (dict_get_in_keys String.eqb string_eqb_eq _ _ _ Hg). }
      rewrite Hnone. cbn [fold_left].
      destruct (dict_get String.eqb key rc); [|reflexivity].
      cbn [option_map]. reflexivity.
    + reflexivity.
Qed.

Lemma dict_keys_remove_all (asg : dict string (list string))
  (rc : keymaps.rcParams) :
  dict_keys
    (fold_left (fun rc item =>
                  fold_left (fun rc v => update (fst item) (remove_first v) rc)
                    (snd item) rc) asg rc) =
  dict_keys rc.
Proof.
  revert rc. induction asg as [|item asg IH]; intros rc; [reflexivity|].
  cbn [fold_left]. now rewrite IH, dict_keys_remove_keys.
Qed.

Lemma list_remove_absent (v : string) (l : list string) :
  ~ In v l -> keymaps.list_remove v l = None.
Proof.
  induction l as [|x l IH]; [reflexivity|].
  intros H. cbn [keymaps.list_remove].
  destruct (String.eqb x v) eqn:E.
  - apply string_eqb_eq in E. subst x. exfalso. apply H. now left.
  - rewrite IH; [reflexivity|]. intros Hin. apply H. now right.
Qed.

Lemma filter_all {A} (p : A -> bool) (l : list A) :
  (forall x, In x l -> p x = true) -> filter p l = l.
Proof.
  induction l as [|x l IH]; [reflexivity|]. intros H. cbn [filter].
  rewrite (H x (or_introl eq_refl)). f_equal. apply IH.
  intros y Hy. apply H. now right.
Qed.

(** In a list without repetitions, taking off the first occurrence takes
    off every occurrence. *)
Lemma remove_first_nodup (v : string) (l : list string) :
  NoDup l -> remove_first v l = filter (fun x => negb (String.eqb x v)) l.
Proof.
  unfold remove_first. induction 1 as [|x l Hx Hnd IH]; [reflexivity|].
  cbn [keymaps.list_remove filter].
  destruct (String.eqb x v) eqn:E; cbn [negb].
  - apply string_eqb_eq in E. subst x. symmetry. apply filter_all.
    intros y Hy. apply negb_true_iff.
    destruct (String.eqb y v) eqn:E'; [|reflexivity].
    apply string_eqb_eq in E'. now subst y.
  - destruct (keymaps.list_remove v l) as [l'|]; now rewrite <- IH.
Qed.

Lemma NoDup_filter' {A} (p : A -> bool) (l : list A) :
  NoDup l -> NoDup (filter p l).
Proof.
  induction 1 as [|x l Hx Hnd IH]; [constructor|].
  cbn [filter]. destruct (p x); [|assumption].
  constructor; [|assumption]. intros H. apply filter_In in H. tauto.
Qed.

Lemma remove_firsts_nodup (vals l : list string) :
  NoDup l ->
  fold_left (fun l v => remove_first v l) vals l =
  filter (fun x => negb (existsb (String.eqb x) vals)) l.
Proof.
  revert l. induction vals as [|v vals IH]; intros l Hnd.
  - cbn [fold_left existsb negb]. symmetry. now apply filter_all.
  - cbn [fold_left]. rewrite remove_first_nodup by assumption.
    rewrite IH by now apply NoDup_filter'.
    clear. induction l as [|x l IHl]; [reflexivity|].
    cbn [filter existsb]. destruct (String.eqb x v); cbn [negb orb].
    + apply IHl.
    + cbn [filter]. destruct (existsb (String.eqb x) vals); cbn [negb];
        now rewrite IHl.
Qed.

Lemma remove_first_incl (v : string) (l : list string) (x : string) :
  In x (remove_first v l) -> In x l.
Proof.
  unfold remove_first. revert x. induction l as [|y l IH]; intros x; [tauto|].
  cbn [keymaps.list_remove]. destruct (String.eqb y v).
  - intros H. now right.
  - destruct (keymaps.list_remove v l) as [l'|]; [|tauto].
    intros [<- | H]; [now left|]. right. now apply IH.
Qed.

Section KeymapsTheorem.
Context {E : Type}.

(** X18.  [_remove_default_keymaps] never raises, whatever [rcParams]
    holds: a missing setting and a key that is not bound are passed over.
    It makes no call, creates and deletes no setting, and takes off each
    setting the first occurrence of each key that [assignments] lists for
    it; the other keys stay, in their order.  For a setting whose keys are
    listed once each, none of its keys of
    [assignments] is bound afterwards.  On such settings a second call
    changes nothing. *)
Theorem default_keymaps_are_unbound (rc : keymaps.rcParams) :
  exists rc',
    keymaps._remove_default_keymaps (E:=E) rc = (Ok tt, rc', []) /\
    dict_keys rc' = dict_keys rc /\
    (forall key,
       dict_get String.eqb key rc' =
       option_map (fun l => fold_left (fun l v => remove_first v l) (assigned key) l)
         (dict_get String.eqb key rc)) /\
    (forall key l l',
       dict_get String.eqb key rc = Some l ->
       dict_get String.eqb key rc' = Some l' ->
       (forall v, In v l' -> In v l) /\
       (NoDup l ->
        l' = filter (fun v => negb (existsb (String.eqb v) (assigned key))) l /\
        forall v, In v (assigned key) -> ~ In v l')) /\
    ((forall key l, dict_get String.eqb key rc = Some l -> NoDup l) ->
     forall key,
       dict_get String.eqb key
         (snd (fst (keymaps._remove_default_keymaps (E:=E) rc'))) =
       dict_get String.eqb key rc').
Proof.
  assert (Hnd : NoDup (dict_keys keymaps.assignments)).
  { cbn. repeat constructor; cbn; intuition discriminate. }
  set (run := fun rc : keymaps.rcParams =>
         fold_left (fun rc item =>
                      fold_left (fun rc v => update (fst item) (remove_first v) rc)
                        (snd item) rc) keymaps.assignments rc).
  assert (Hget : forall rc key,
            dict_get String.eqb key (run rc) =
            option_map
              (fun l => fold_left (fun l v => remove_first v l) (assigned key) l)
              (dict_get String.eqb key rc)).
  { intros rc0 key. apply (dict_get_remove_all key _ rc0 Hnd). }
  assert (Hrun : forall rc,
            keymaps._remove_default_keymaps (E:=E) rc = (Ok tt, run rc, [])).
  { intros rc0. apply remove_default_keymaps_run. }
  exists (run rc). split; [apply Hrun|].
  split; [apply dict_keys_remove_all|]. split; [apply Hget|]. split.
  - intros key l l' Hl Hl'. rewrite Hget, Hl in Hl'. cbn [option_map] in Hl'.
    injection Hl' as <-. split.
    + clear Hl. generalize (assigned key). intros vals. revert l.
      induction vals as [|v vals IH]; intros l x; [tauto|].
      cbn [fold_left]. intros H. apply IH in H.
      now apply remove_first_incl in H.
    + intros Hl0. rewrite remove_firsts_nodup by assumption.
      split; [reflexivity|].
      intros v Hv Hin. apply filter_In in Hin. destruct Hin as [_ Hin].
      apply negb_true_iff in Hin.
      assert (Ht : existsb (String.eqb v) (assigned key) = true).
      { apply existsb_exists. exists v. split; [assumption|apply String.eqb_refl]. }
      congruence.
  - intros Hall key. rewrite Hrun. cbn [fst snd]. rewrite !Hget.
    destruct (dict_get String.eqb key rc) as [l|] eqn:Hl; [|reflexivity].
    cbn [option_map]. f_equal.
    pose proof (Hall key l Hl) as Hl0.
    rewrite (remove_firsts_nodup _ l Hl0).
    rewrite remove_firsts_nodup by now apply NoDup_filter'.
    apply filter_all. intros x Hx. apply filter_In in Hx. tauto.
Qed.

End KeymapsTheorem.

(** ** A new container *)

Lemma attached_first (dbl : bool) (button : Z) (key : string) (v : partial) :
  _click_container.attached_callbacks
    (set_bucket (ds_of dbl) button ([] ++ [(key, v)]) (touch (ds_of dbl) button [])) =
  [(key ++ "__" ++ ds_of dbl ++ "__" ++ PyStr.str_of_Z button)%string].
Proof.
  unfold touch, touch_ds, dsdict_of. cbn [dict_get dict_set app].
  rewrite set_bucket_set_bucket.
  unfold set_bucket, dsdict_of. cbn [dict_get dict_set].
  rewrite String.eqb_refl. cbn [dict_set].
  unfold _click_container.attached_callbacks. cbn [flat_map fst snd dict_keys map app].
  reflexivity.
Qed.

Lemma attach_loop_ok (attrs : dict string attr) (catalog : list string)
  (d0 d : dict string construction.accessor_attr) :
  construction.attach_loop attrs catalog d0 = Ok d ->
  (forall cb, In cb catalog ->
     dict_mem String.eqb cb attrs = true /\
     dict_get String.eqb cb d = Some (construction.Predefined cb)) /\
  (forall n, ~ In n catalog -> dict_get String.eqb n d = dict_get String.eqb n d0).
Proof.
  revert d0. induction catalog as [|cb rest IH]; intros d0 H.
  - injection H as <-. split; [intros ? []|reflexivity].
  - cbn [construction.attach_loop] in H.
    destruct (dict_get String.eqb "_parent" d0) as [[|?]|]; try discriminate.
    destruct (dict_mem String.eqb cb attrs) eqn:Hmem; [|discriminate].
    unfold construction.setattr in H.
    destruct (_ || _); [discriminate|].
    destruct (String.eqb cb "__weakref__"); [discriminate|].
    destruct (IH _ H) as [Hin Hout]. split.
    + intros x [<- | Hx]; [|now apply Hin].
      split; [assumption|].
      destruct (in_dec string_dec cb rest) as [Hr | Hr]; [now apply Hin|].
      rewrite (Hout cb Hr).
      apply (dict_get_set_same String.eqb string_eqb_eq).
    + intros n Hn. rewrite Hout by (intros Hr; apply Hn; now right).
      apply (dict_get_set_other String.eqb string_eqb_eq).
      intros ->. apply Hn. now left.
Qed.

Section Construction.
Context {coord : Type}.

(** X19.  On a newly built click or pick container every pre-defined
    callback can be attached through the accessor.  When [__init__]
    succeeds, every name of the catalog [_cb_list] is an attribute of the
    callback-class instance and the container has nothing attached; the
    instance dictionary of the accessor holds, besides [_parent], exactly
    the names of the catalog, each bound to [_add_callback] with that name
    as callback; and for a catalog name that is a method of the callback
    class, the first call through the accessor, for any arity and button,
    returns the identity [<name>_0__<single|double>__<button>], which then
    is the one attached callback. *)
Theorem predefined_callbacks_attach_on_a_new_container
  (cls : construction.cb_class) (method : string) (c0 : container click_cbs)
  (name : string) (dbl : bool) (button : Z) (kw : kwargs) :
  construction.__init__ [] cls method = Ok c0 ->
  dict_get String.eqb "button" kw = None ->
  _click_container.attached_callbacks (cbs c0) = [] /\
  (forall cb, In cb (_cb_list c0) -> hasattr c0 cb = true) /\
  exists d,
    construction.attach_init (construction.cls_attrs cls)
      (construction.cls_cb_list cls) = Ok d /\
    (forall n, n <> "_parent" -> ~ In n (construction.cls_cb_list cls) ->
       dict_get String.eqb n d = None) /\
    (In name (construction.cls_cb_list cls) ->
     dict_get String.eqb name d = Some (construction.Predefined name) /\
     (dict_get String.eqb name (construction.cls_attrs cls) = Some Method ->
      exists c1,
        construction.call_attr (coord:=coord) (construction.Predefined name)
          dbl button kw c0 =
          (Ok (click_identity name 0 (ds_of dbl) button), c1, []) /\
        _click_container.attached_callbacks (cbs c1) =
          [click_identity name 0 (ds_of dbl) button])).
Proof.
  unfold construction.__init__. intros Hinit Hkw.
  destruct (construction.attach_init _ _) as [d|e] eqn:Hd; [|discriminate].
  injection Hinit as <-.
  destruct (attach_loop_ok _ _ _ _ Hd) as [Hin Hout].
  split; [reflexivity|]. split; [intros cb Hcb; now apply Hin|].
  exists d. split; [reflexivity|]. split.
  - intros n Hn Hnot. rewrite (Hout n Hnot). cbn [dict_get].
    destruct (String.eqb_spec n "_parent"); [contradiction|reflexivity].
  - intros Hname. split; [now apply Hin|].
    intros Hmeth. cbn [construction.call_attr].
    rewrite click_add_callback_run. unfold click_attach_outcome. cbv zeta.
    rewrite (reserved_check_passes kw Hkw).
    cbn [resolves cb_name _cb]. rewrite Hmeth.
    cbn [negb cbs bucket_of dsdict_of dict_get dict_keys map ncb_of].
    cbn [List.length Nat.eqb negb andb]. rewrite andb_false_r.
    eexists. split; [reflexivity|].
    cbn [cbs set_cbs]. apply attached_first.
Qed.

End Construction.

Lemma predefined_callbacks_attach_on_a_new_container_witness :
  let cls := construction.mk_cb_class Example.click_catalog Example.click_attrs in
  construction.__init__ [] cls "click" = Ok Example.click0 /\
  exists c1,
    construction.call_attr (coord:=Z) (construction.Predefined "annotate")
      true 3 [] Example.click0 =
      (Ok "annotate_0__double__3", c1, []) /\
    _click_container.attached_callbacks (cbs c1) = ["annotate_0__double__3"].
Proof.
  intros cls. split; [reflexivity|].
  destruct (predefined_callbacks_attach_on_a_new_container (coord:=Z)
              cls "click" Example.click0 "annotate" true 3 [] eq_refl eq_refl)
    as (_ & _ & d & _ & _ & H).
  destruct H as [_ H]; [cbn; tauto|].
  exact (H eq_refl).
Defined.

(** ** Closing the figure *)

Lemma distinct_nodup {K} (keq : K -> K -> bool)
  (keq_eq : forall a b, keq a b = true <-> a = b) (l : list K) :
  distinct keq l = true -> NoDup l.
Proof.
  induction l as [|x l IH]; [constructor|].
  cbn [distinct]. intros H. apply andb_true_iff in H. destruct H as [Hx Hl].
  constructor; [|now apply IH].
  intros Hin. apply negb_true_iff in Hx.
  assert (Ht : existsb (keq x) l = true).
  { apply existsb_exists. exists x. split; [assumption|now apply keq_eq]. }
  congruence.
Qed.

Lemma in_dict_get {K V} (keq : K -> K -> bool)
  (keq_eq : forall a b, keq a b = true <-> a = b) (k : K) (v : V) (d : dict K V) :
  NoDup (dict_keys d) -> In (k, v) d -> dict_get keq k d = Some v.
Proof.
  induction d as [|[k' v'] d IH]; [intros _ []|].
  cbn [dict_keys map fst]. intros Hnd Hin. inversion Hnd as [|? ? Hnot Hnd']; subst.
  cbn [dict_get]. destruct Hin as [Heq | Hin].
  - injection Heq as -> ->. now rewrite (keq_refl keq keq_eq).
  - destruct (keq k k') eqn:E.
    + apply keq_eq in E. subst k'. exfalso. apply Hnot.
      apply (in_map fst) in Hin. exact Hin.
    + now apply IH.
Qed.

(** A loop whose turns all return, keep a relation to the state before
    them and each establish a fact that later turns keep. *)
Lemma for_each_inv {E S X} (l : list X) (body : X -> @M E S unit)
  (R : S -> S -> Prop) (Post : X -> S -> Prop) (T : E -> Prop) :
  (forall s, R s s) ->
  (forall s1 s2 s3, R s1 s2 -> R s2 s3 -> R s1 s3) ->
  (forall x s s', R s s' -> Post x s -> Post x s') ->
  forall s0,
    (forall x s, In x l -> R s0 s ->
       exists s' t, body x s = (Ok tt, s', t) /\ R s s' /\ Post x s' /\ Forall T t) ->
    exists s' t,
      for_each l body s0 = (Ok tt, s', t) /\ R s0 s' /\
      (forall x, In x l -> Post x s') /\ Forall T t.
Proof.
  intros Hrefl Htrans Hstable. induction l as [|x l IH]; intros s0 Hbody.
  - exists s0, []. repeat split; auto. intros x [].
  - destruct (Hbody x s0 (or_introl eq_refl) (Hrefl s0))
      as (s1 & t1 & Hx & HR1 & HP1 & HT1).
    destruct (IH s1) as (s2 & t2 & Hl & HR2 & HP2 & HT2).
    { intros y s Hy HR. apply Hbody; [now right|]. eapply Htrans; eassumption. }
    exists s2, (t1 ++ t2). cbn [for_each].
    erewrite bind_ok by exact Hx. rewrite Hl.
    split; [reflexivity|]. split; [eapply Htrans; eassumption|]. split.
    + intros y [<- | Hy]; [|now apply HP2]. eapply Hstable; eassumption.
    + apply Forall_app. now split.
Qed.

(** A loop of a container, run on its Maps object turn by turn. *)
Lemma for_each_at_obj {coord crs R X} (a : accessor coord crs R)
  (l : list X) (body : X -> CM coord R unit) (m : Maps coord crs) :
  (forall c m, getobj a (setobj a c m) = c) ->
  (forall c c' m, setobj a c' (setobj a c m) = setobj a c' m) ->
  (forall m, setobj a (getobj a m) m = m) ->
  for_each l (fun x => at_obj a (body x)) m =
  match for_each l body (getobj a m) with
  | (r, c', tr) => (r, setobj a c' m, tr)
  end.
Proof.
  intros Hgs Hss Hsg. revert m. induction l as [|x l IH]; intros m.
  - cbn. now rewrite Hsg.
  - cbn [for_each]. unfold bind.
    destruct (body x (getobj a m)) as [[r c1] t1] eqn:Hx.
    rewrite (at_obj_run a (body x) m r c1 t1 Hx).
    destruct r as [[]|e]; [|reflexivity].
    rewrite IH, Hgs.
    destruct (for_each l body c1) as [[r2 c2] t2].
    now rewrite Hss.
Qed.

Lemma click_obj_laws {coord crs : Type} :
  (forall c (m : Maps coord crs), getobj click_obj (setobj click_obj c m) = c) /\
  (forall c c' (m : Maps coord crs),
     setobj click_obj c' (setobj click_obj c m) = setobj click_obj c' m) /\
  (forall m : Maps coord crs, setobj click_obj (getobj click_obj m) m = m).
Proof. repeat split; intros; try reflexivity. now destruct m. Qed.

Lemma keypress_obj_laws {coord crs : Type} :
  (forall c (m : Maps coord crs), getobj keypress_obj (setobj keypress_obj c m) = c) /\
  (forall c c' (m : Maps coord crs),
     setobj keypress_obj c' (setobj keypress_obj c m) = setobj keypress_obj c' m) /\
  (forall m : Maps coord crs, setobj keypress_obj (getobj keypress_obj m) m = m).
Proof. repeat split; intros; try reflexivity. now destruct m. Qed.

(** The identities listed for a registry, entry by entry. *)
Lemma in_attached_callbacks (r : click_cbs) (ID : string) :
  In ID (_click_container.attached_callbacks r) <->
  exists ds D b bd name,
    In (ds, D) r /\ In (b, bd) D /\ In name (dict_keys bd) /\
    ID = (name ++ "__" ++ ds ++ "__" ++ PyStr.str_of_Z b)%string.
Proof.
  unfold _click_container.attached_callbacks. rewrite in_flat_map. split.
  - intros ([ds D] & HD & H). apply in_flat_map in H.
    destruct H as ([b bd] & Hb & H). apply in_map_iff in H.
    destruct H as (name & <- & Hn). cbn [fst snd] in *.
    now exists ds, D, b, bd, name.
  - intros (ds & D & b & bd & name & HD & Hb & Hn & ->).
    exists (ds, D). split; [assumption|]. apply in_flat_map.
    exists (b, bd). split; [assumption|]. apply in_map_iff.
    exists name. now split.
Qed.

Lemma in_keypress_attached_callbacks (r : keypress_cbs) (ID : string) :
  In ID (keypress_container.attached_callbacks r) <->
  exists key bd name,
    In (key, bd) r /\ In name (dict_keys bd) /\ ID = (name ++ "__" ++ key)%string.
Proof.
  unfold keypress_container.attached_callbacks. rewrite in_flat_map. split.
  - intros ([key bd] & Hk & H). apply in_map_iff in H.
    destruct H as (name & <- & Hn). cbn [fst snd] in *.
    now exists key, bd, name.
  - intros (key & bd & name & Hk & Hn & ->).
    exists (key, bd). split; [assumption|]. apply in_map_iff.
    exists name. now split.
Qed.

Lemma click_registry_plain_spec (r : click_cbs) :
  click_registry_plain r = true ->
  NoDup (dict_keys r) /\
  (forall ds D, In (ds, D) r -> NoDup (dict_keys D)) /\
  (forall ds D b bd name,
     In (ds, D) r -> In (b, bd) D -> In name (dict_keys bd) ->
     plain_name name = true /\ plain_name ds = true).
Proof.
  unfold click_registry_plain. intros H. apply andb_true_iff in H.
  destruct H as [H1 H2]. rewrite forallb_forall in H2.
  split; [now apply (distinct_nodup String.eqb string_eqb_eq)|]. split.
  - intros ds D HD. specialize (H2 _ HD). cbn [fst snd] in H2.
    apply andb_true_iff in H2. apply (distinct_nodup Z.eqb Z_eqb_eq), H2.
  - intros ds D b bd name HD Hb Hn. specialize (H2 _ HD). cbn [fst snd] in H2.
    apply andb_true_iff in H2. destruct H2 as [_ H2].
    rewrite forallb_forall in H2. specialize (H2 _ Hb). cbn [fst snd] in H2.
    rewrite forallb_forall in H2. specialize (H2 _ Hn).
    now apply andb_true_iff in H2.
Qed.

Lemma keypress_registry_plain_spec (r : keypress_cbs) :
  keypress_registry_plain r = true ->
  NoDup (dict_keys r) /\
  (forall key bd name,
     In (key, bd) r -> In name (dict_keys bd) ->
     plain_name name = true /\ has_dunder key = false).
Proof.
  unfold keypress_registry_plain. intros H. apply andb_true_iff in H.
  destruct H as [H1 H2]. rewrite forallb_forall in H2.
  split; [now apply (distinct_nodup String.eqb string_eqb_eq)|].
  intros key bd name Hk Hn. specialize (H2 _ Hk). cbn [fst snd] in H2.
  rewrite forallb_forall in H2. specialize (H2 _ Hn).
  apply andb_true_iff in H2. destruct H2 as [Ha Hb].
  split; [assumption|now apply negb_true_iff].
Qed.

(** Identities of plain parts split into these parts. *)
Lemma split_identity3 (name ds : string) (b : Z) :
  plain_name name = true -> plain_name ds = true ->
  PyStr.split_dunder (name ++ "__" ++ ds ++ "__" ++ PyStr.str_of_Z b) =
    [name; ds; PyStr.str_of_Z b].
Proof.
  unfold plain_name. intros H1 H2.
  apply negb_true_iff in H1. apply negb_true_iff in H2.
  rewrite split_dunder_prefix by assumption.
  rewrite split_dunder_prefix by assumption.
  now rewrite split_dunder_whole
    by (apply rsplit1_none_no_dunder, rsplit1_str_of_Z).
Qed.

Lemma split_identity2 (name key : string) :
  plain_name name = true -> has_dunder key = false ->
  PyStr.split_dunder (name ++ "__" ++ key) = [name; key].
Proof.
  unfold plain_name. intros H1 H2. apply negb_true_iff in H1.
  rewrite split_dunder_prefix by assumption.
  now rewrite split_dunder_whole.
Qed.

Lemma shrinks_refl {coord : Type} (c : container (coord:=coord) click_cbs) :
  shrinks c c.
Proof.
  unfold shrinks. rewrite set_cbs_same. repeat split; auto.
  intros ds b. apply incl_refl.
Qed.

Lemma shrinks_trans {coord : Type}
  (c1 c2 c3 : container (coord:=coord) click_cbs) :
  shrinks c1 c2 -> shrinks c2 c3 -> shrinks c1 c3.
Proof.
  intros (E1 & K1 & D1 & B1) (E2 & K2 & D2 & B2). unfold shrinks.
  split; [rewrite E2, E1; reflexivity|]. split; [congruence|]. split.
  - intros ds. now rewrite D2.
  - intros ds b. eapply incl_tran; [apply B2|apply B1].
Qed.

Lemma dict_get_none_of_keys {K V} (keq : K -> K -> bool)
  (keq_eq : forall a b, keq a b = true <-> a = b) (k : K) (d : dict K V) :
  ~ In k (dict_keys d) -> dict_get keq k d = None.
Proof.
  intros H. destruct (dict_get keq k d) as [v|] eqn:E; [|reflexivity].
  exfalso. apply H. apply (dict_get_in_keys keq keq_eq _ _ _ E).
Qed.

Lemma gone_stable {coord : Type} (ID : string)
  (c c' : container (coord:=coord) click_cbs) :
  shrinks c c' -> gone ID c -> gone ID c'.
Proof.
  intros (_ & _ & _ & Hb). unfold gone.
  destruct (PyStr.split_dunder ID) as [|name [|ds [|b [|x l]]]]; auto.
  destruct (PyStr.Z_of_str b) as [button|]; auto.
  rewrite !click_lookup_bucket. intros Hn.
  apply (dict_get_none_of_keys String.eqb string_eqb_eq).
  intros Hin. apply Hb in Hin.
  now apply (dict_get_not_in_keys String.eqb string_eqb_eq) in Hn.
Qed.

Lemma removal_calls_are_removal_calls {coord R : Type} (c : container R)
  (name ID : string) :
  Forall (removal_call (coord:=coord)) (removal_calls c name ID).
Proof.
  unfold removal_calls. apply Forall_app. split.
  - destruct (hasattr c _); repeat constructor. eexists. now left.
  - repeat constructor. eexists. now right.
Qed.

Lemma dict_keys_del_incl {V} (name : string) (d : dict string V) :
  incl (dict_keys (dict_del String.eqb name d)) (dict_keys d).
Proof.
  rewrite dict_keys_del. intros x Hx. apply filter_In in Hx. tauto.
Qed.

Section CloseLoops.
Context {coord : Type}.

(** One turn of the loop of [_on_close] over the identities attached when
    it starts. *)
Lemma click_remove_turn (c0 c : container (coord:=coord) click_cbs) (ID : string) :
  click_registry_plain (cbs c0) = true ->
  In ID (_click_container.attached_callbacks (cbs c0)) ->
  exists c' t,
    _click_container.remove (coord:=coord) (Some ID) c = (Ok tt, c', t) /\
    shrinks c c' /\ gone ID c' /\ Forall removal_call t.
Proof.
  intros Hwf Hin.
  destruct (click_registry_plain_spec _ Hwf) as (_ & _ & Hplain).
  apply in_attached_callbacks in Hin.
  destruct Hin as (ds & D & b & bd & name & HD & Hb & Hn & ->).
  destruct (Hplain _ _ _ _ _ HD Hb Hn) as [Hpn Hpd].
  pose proof (split_identity3 name ds b Hpn Hpd) as Hs.
  rewrite click_remove_run. unfold click_remove_outcome, gone.
  rewrite Hs, Z_of_str_of_Z.
  destruct (dict_get String.eqb ds (cbs c)) as [dsdict|] eqn:Hds.
  2:{ exists c, []. split; [reflexivity|]. split; [apply shrinks_refl|].
      split; [|constructor]. unfold click_lookup. now rewrite Hds. }
  destruct (dict_get Z.eqb b dsdict) as [bdict|] eqn:Hbt.
  2:{ exists c, []. split; [reflexivity|]. split; [apply shrinks_refl|].
      split; [|constructor]. unfold click_lookup. now rewrite Hds, Hbt. }
  unfold dict_mem.
  destruct (dict_get String.eqb name bdict) as [v|] eqn:Hname.
  2:{ exists c, []. split; [reflexivity|]. split; [apply shrinks_refl|].
      split; [|constructor]. unfold click_lookup. now rewrite Hds, Hbt. }
  eexists. eexists. split; [reflexivity|].
  assert (Hbk : bucket_of (cbs c) ds b = bdict)
    by (unfold bucket_of, dsdict_of; now rewrite Hds, Hbt).
  assert (Hdd : dsdict_of (cbs c) ds = dsdict)
    by (unfold dsdict_of; now rewrite Hds).
  split; [|split].
  - unfold shrinks. cbn [cbs set_cbs]. split; [reflexivity|]. split; [|split].
    + unfold set_bucket. apply (dict_keys_set_present String.eqb _ _ _ _ Hds).
    + intros ds'. destruct (String.eqb ds ds') eqn:E.
      * apply string_eqb_eq in E. subst ds'.
        rewrite dsdict_of_set_bucket_same, Hdd.
        apply (dict_keys_set_present Z.eqb _ _ _ _ Hbt).
      * rewrite dsdict_of_set_bucket_other; [reflexivity|].
        intros ->. now rewrite String.eqb_refl in E.
    + intros ds' b'. rewrite bucket_of_set_bucket.
      destruct (String.eqb ds' ds && Z.eqb b' b) eqn:E; [|apply incl_refl].
      apply andb_true_iff in E. destruct E as [E1 E2].
      apply string_eqb_eq in E1. apply Z_eqb_eq in E2. subst ds' b'.
      rewrite Hbk. apply dict_keys_del_incl.
  - cbn [cbs set_cbs]. apply click_lookup_after_remove.
  - apply removal_calls_are_removal_calls.
Qed.

(** The loop over the identities of a click or pick container leaves
    nothing attached. *)
Lemma click_remove_all (c : container click_cbs) :
  click_registry_plain (cbs c) = true ->
  exists c' t,
    for_each (_click_container.attached_callbacks (cbs c))
      (fun key => _click_container.remove (coord:=coord) (Some key)) c =
      (Ok tt, c', t) /\
    _click_container.attached_callbacks (cbs c') = [] /\
    c' = set_cbs (cbs c') c /\
    Forall removal_call t.
Proof.
  intros Hwf.
  destruct (for_each_inv (_click_container.attached_callbacks (cbs c))
              (fun key => _click_container.remove (coord:=coord) (Some key))
              shrinks gone removal_call shrinks_refl shrinks_trans
              (fun x s s' H => gone_stable x s s' H) c)
    as (c' & t & Hrun & Hsh & Hgone & Ht).
  { intros x s Hx _. now apply (click_remove_turn c). }
  exists c', t. split; [assumption|]. split; [|split; [apply Hsh|assumption]].
  destruct (click_registry_plain_spec _ Hwf) as (Hnd & Hndd & Hplain).
  destruct Hsh as (_ & Hk & Hd & Hb).
  destruct (_click_container.attached_callbacks (cbs c')) as [|ID' rest] eqn:Hatt;
    [reflexivity|].
  exfalso.
  assert (Hin : In ID' (_click_container.attached_callbacks (cbs c')))
    by (rewrite Hatt; now left).
  apply in_attached_callbacks in Hin.
  destruct Hin as (ds & D' & b & bd' & name & HD' & Hb' & Hn' & ->).
  assert (HgD' : dict_get String.eqb ds (cbs c') = Some D').
  { apply (in_dict_get String.eqb string_eqb_eq); [now rewrite Hk|assumption]. }
  assert (Hds : In ds (dict_keys (cbs c))).
  { rewrite <- Hk. apply (dict_get_in_keys String.eqb string_eqb_eq _ _ _ HgD'). }
  destruct (in_keys_dict_get String.eqb string_eqb_eq _ _ Hds) as [D HgD].
  pose proof (dict_get_in String.eqb string_eqb_eq _ _ _ HgD) as HD.
  assert (HkD : dict_keys D' = dict_keys D).
  { specialize (Hd ds). unfold dsdict_of in Hd. now rewrite HgD', HgD in Hd. }
  assert (Hgb' : dict_get Z.eqb b D' = Some bd').
  { apply (in_dict_get Z.eqb Z_eqb_eq); [|assumption].
    rewrite HkD. apply (Hndd _ _ HD). }
  assert (Hbk' : bucket_of (cbs c') ds b = bd')
    by (unfold bucket_of, dsdict_of; now rewrite HgD', Hgb').
  assert (Hn : In name (dict_keys (bucket_of (cbs c) ds b)))
    by (apply Hb; now rewrite Hbk').
  unfold bucket_of, dsdict_of in Hn. rewrite HgD in Hn.
  destruct (dict_get Z.eqb b D) as [bd|] eqn:Hgb; [|destruct Hn].
  pose proof (dict_get_in Z.eqb Z_eqb_eq _ _ _ Hgb) as Hbd.
  destruct (Hplain _ _ _ _ _ HD Hbd Hn) as [Hpn Hpd].
  assert (Hin0 : In (name ++ "__" ++ ds ++ "__" ++ PyStr.str_of_Z b)%string
                   (_click_container.attached_callbacks (cbs c))).
  { apply in_attached_callbacks. now exists ds, D, b, bd, name. }
  specialize (Hgone _ Hin0). unfold gone in Hgone.
  rewrite (split_identity3 name ds b Hpn Hpd), Z_of_str_of_Z in Hgone.
  rewrite click_lookup_bucket, Hbk' in Hgone.
  now apply (dict_get_not_in_keys String.eqb string_eqb_eq) in Hgone.
Qed.

End CloseLoops.

Lemma key_shrinks_refl {coord : Type}
  (c : container (coord:=coord) keypress_cbs) : key_shrinks c c.
Proof.
  unfold key_shrinks. rewrite set_cbs_same. repeat split; auto.
  intros key. apply incl_refl.
Qed.

Lemma key_shrinks_trans {coord : Type}
  (c1 c2 c3 : container (coord:=coord) keypress_cbs) :
  key_shrinks c1 c2 -> key_shrinks c2 c3 -> key_shrinks c1 c3.
Proof.
  intros (E1 & K1 & B1) (E2 & K2 & B2). unfold key_shrinks.
  split; [rewrite E2, E1; reflexivity|]. split; [congruence|].
  intros key. eapply incl_tran; [apply B2|apply B1].
Qed.

Lemma keypress_lookup_bucket (r : keypress_cbs) (name key : string) :
  keypress_lookup r name key = dict_get String.eqb name (key_bucket_of r key).
Proof.
  unfold keypress_lookup, key_bucket_of.
  destruct (dict_get String.eqb key r); reflexivity.
Qed.

Lemma key_gone_stable {coord : Type} (ID : string)
  (c c' : container (coord:=coord) keypress_cbs) :
  key_shrinks c c' -> key_gone ID c -> key_gone ID c'.
Proof.
  intros (_ & _ & Hb). unfold key_gone.
  destruct (PyStr.split_dunder ID) as [|name [|key [|x l]]]; auto.
  rewrite !keypress_lookup_bucket. intros Hn.
  apply (dict_get_none_of_keys String.eqb string_eqb_eq).
  intros Hin. apply Hb in Hin.
  now apply (dict_get_not_in_keys String.eqb string_eqb_eq) in Hn.
Qed.

Section CloseKeypress.
Context {coord : Type}.

Lemma keypress_remove_turn (c0 c : container (coord:=coord) keypress_cbs) (ID : string) :
  keypress_registry_plain (cbs c0) = true ->
  In ID (keypress_container.attached_callbacks (cbs c0)) ->
  exists c' t,
    keypress_container.remove (coord:=coord) (Some ID) c = (Ok tt, c', t) /\
    key_shrinks c c' /\ key_gone ID c' /\ Forall removal_call t.
Proof.
  intros Hwf Hin.
  destruct (keypress_registry_plain_spec _ Hwf) as (_ & Hplain).
  apply in_keypress_attached_callbacks in Hin.
  destruct Hin as (key & bd & name & Hk & Hn & ->).
  destruct (Hplain _ _ _ Hk Hn) as [Hpn Hpk].
  pose proof (split_identity2 name key Hpn Hpk) as Hs.
  rewrite keypress_remove_run. unfold keypress_remove_outcome, key_gone.
  rewrite Hs.
  destruct (dict_get String.eqb key (cbs c)) as [cbdict|] eqn:Hkey.
  2:{ exists c, []. split; [reflexivity|]. split; [apply key_shrinks_refl|].
      split; [|constructor]. unfold keypress_lookup. now rewrite Hkey. }
  unfold dict_mem.
  destruct (dict_get String.eqb name cbdict) as [v|] eqn:Hname.
  2:{ exists c, []. split; [reflexivity|]. split; [apply key_shrinks_refl|].
      split; [|constructor]. unfold keypress_lookup. now rewrite Hkey. }
  eexists. eexists. split; [reflexivity|].
  split; [|split].
  - unfold key_shrinks. cbn [cbs set_cbs]. split; [reflexivity|]. split.
    + apply (dict_keys_set_present String.eqb _ _ _ _ Hkey).
    + intros key'. unfold key_bucket_of. destruct (String.eqb key key') eqn:E.
      * apply string_eqb_eq in E. subst key'.
        rewrite (dict_get_set_same String.eqb string_eqb_eq), Hkey.
        apply dict_keys_del_incl.
      * rewrite (dict_get_set_other String.eqb string_eqb_eq);
          [apply incl_refl|].
        intros ->. now rewrite String.eqb_refl in E.
  - cbn [cbs set_cbs]. apply keypress_lookup_after_remove.
  - apply removal_calls_are_removal_calls.
Qed.

Lemma keypress_remove_all (c : container keypress_cbs) :
  keypress_registry_plain (cbs c) = true ->
  exists c' t,
    for_each (keypress_container.attached_callbacks (cbs c))
      (fun key => keypress_container.remove (coord:=coord) (Some key)) c =
      (Ok tt, c', t) /\
    keypress_container.attached_callbacks (cbs c') = [] /\
    c' = set_cbs (cbs c') c /\
    Forall removal_call t.
Proof.
  intros Hwf.
  destruct (for_each_inv (keypress_container.attached_callbacks (cbs c))
              (fun key => keypress_container.remove (coord:=coord) (Some key))
              key_shrinks key_gone removal_call key_shrinks_refl key_shrinks_trans
              (fun x s s' H => key_gone_stable x s s' H) c)
    as (c' & t & Hrun & Hsh & Hgone & Ht).
  { intros x s Hx _. now apply (keypress_remove_turn c). }
  exists c', t. split; [assumption|]. split; [|split; [apply Hsh|assumption]].
  destruct (keypress_registry_plain_spec _ Hwf) as (Hnd & Hplain).
  destruct Hsh as (_ & Hk & Hb).
  destruct (keypress_container.attached_callbacks (cbs c')) as [|ID' rest] eqn:Hatt;
    [reflexivity|].
  exfalso.
  assert (Hin : In ID' (keypress_container.attached_callbacks (cbs c')))
    by (rewrite Hatt; now left).
  apply in_keypress_attached_callbacks in Hin.
  destruct Hin as (key & bd' & name & Hbd' & Hn' & ->).
  assert (Hg' : dict_get String.eqb key (cbs c') = Some bd').
  { apply (in_dict_get String.eqb string_eqb_eq); [now rewrite Hk|assumption]. }
  assert (Hbk' : key_bucket_of (cbs c') key = bd')
    by (unfold key_bucket_of; now rewrite Hg').
  assert (Hn : In name (dict_keys (key_bucket_of (cbs c) key)))
    by (apply Hb; now rewrite Hbk').
  unfold key_bucket_of in Hn.
  destruct (dict_get String.eqb key (cbs c)) as [bd|] eqn:Hg; [|destruct Hn].
  pose proof (dict_get_in String.eqb string_eqb_eq _ _ _ Hg) as Hbd.
  destruct (Hplain _ _ _ Hbd Hn) as [Hpn Hpk].
  assert (Hin0 : In (name ++ "__" ++ key)%string
                   (keypress_container.attached_callbacks (cbs c))).
  { apply in_keypress_attached_callbacks. now exists key, bd, name. }
  specialize (Hgone _ Hin0). unfold key_gone in Hgone.
  rewrite (split_identity2 name key Hpn Hpk) in Hgone.
  rewrite keypress_lookup_bucket, Hbk' in Hgone.
  now apply (dict_get_not_in_keys String.eqb string_eqb_eq) in Hgone.
Qed.

End CloseKeypress.

Section OnClose.
Context {coord crs : Type}.

(** X20.  Closing the figure removes every click and every keypress
    callback, and calls [_reset_axes] last.  For a Maps object whose click
    and keypress registries hold plain names under distinct keys,
    [_on_close] returns without an error; afterwards no click callback and
    no keypress callback is attached; the calls made before [_reset_axes]
    are cleanup hooks and removal messages only; the pick container, with
    whatever is attached to it, and every other attribute of the Maps
    object are as before. *)
Theorem close_removes_click_and_keypress_callbacks (m : Maps coord crs) :
  click_registry_plain (cbs (cb_click m)) = true ->
  keypress_registry_plain (cbs (cb_keypress m)) = true ->
  exists rc rk tr,
    cb_container._on_close m =
      (Ok tt,
       set_cb_keypress (set_cbs rk (cb_keypress m))
         (set_cb_click (set_cbs rc (cb_click m)) m),
       tr ++ [Reset_axes]) /\
    _click_container.attached_callbacks rc = [] /\
    keypress_container.attached_callbacks rk = [] /\
    Forall removal_call tr.
Proof.
  intros Hc Hk.
  destruct (click_remove_all (coord:=coord) (cb_click m) Hc)
    as (c' & t1 & Hrun1 & Hatt1 & Hc' & Ht1).
  destruct (keypress_remove_all (coord:=coord) (cb_keypress m) Hk)
    as (k' & t2 & Hrun2 & Hatt2 & Hk' & Ht2).
  exists (cbs c'), (cbs k'), (t1 ++ t2).
  split; [|split; [assumption|split; [assumption|now apply Forall_app]]].
  destruct (@click_obj_laws coord crs) as (Hc1 & Hc2 & Hc3).
  destruct (@keypress_obj_laws coord crs) as (Hk1 & Hk2 & Hk3).
  unfold cb_container._on_close, cb_container._methods.
  cbn [for_each].
  assert (H1 : cb_container.remove_all "click" m =
               (Ok tt, set_cb_click c' m, t1)).
  { unfold cb_container.remove_all. erewrite bind_ok by reflexivity.
    cbn [String.eqb Ascii.eqb Bool.eqb andb].
    rewrite (for_each_at_obj click_obj _ _ m Hc1 Hc2 Hc3).
    cbn [getobj click_obj]. rewrite Hrun1. now rewrite app_nil_l. }
  assert (H2 : cb_container.remove_all "keypress" (set_cb_click c' m) =
               (Ok tt, set_cb_keypress k' (set_cb_click c' m), t2)).
  { unfold cb_container.remove_all. erewrite bind_ok by reflexivity.
    cbn [String.eqb Ascii.eqb Bool.eqb andb].
    rewrite (for_each_at_obj keypress_obj _ _ _ Hk1 Hk2 Hk3).
    cbn [getobj keypress_obj cb_keypress set_cb_click]. rewrite Hrun2.
    now rewrite app_nil_l. }
  erewrite bind_ok.
  2:{ erewrite bind_ok by exact H1. erewrite bind_ok by exact H2.
      cbn [ret]. reflexivity. }
  unfold emit. rewrite <- Hc', <- Hk'.
  now rewrite app_nil_r.
Qed.

End OnClose.

Lemma close_removes_click_and_keypress_callbacks_witness :
  exists rc rk tr,
    cb_container._on_close (Example.two_maps 0) =
      (Ok tt,
       set_cb_keypress (set_cbs rk Example.key_switched)
         (set_cb_click (set_cbs rc Example.click_marked) (Example.two_maps 0)),
       tr ++ [Reset_axes]) /\
    _click_container.attached_callbacks rc = [] /\
    keypress_container.attached_callbacks rk = [].
Proof.
  destruct (close_removes_click_and_keypress_callbacks (Example.two_maps 0)
              eq_refl eq_refl) as (rc & rk & tr & Hrun & Hc & Hk & _).
  exists rc, rk, tr. split; [exact Hrun|]. split; [exact Hc|exact Hk].
Defined.

(** A loop in which every turn returns or raises [e], and one turn
    raises it whatever the state, raises [e]. *)
Lemma for_each_raises {E S X} (l : list X) (body : X -> @M E S unit) (e : exn)
  (T : E -> Prop) (I : S -> Prop) :
  (forall x s, I s ->
     exists s' t,
       (body x s = (Ok tt, s', t) \/ body x s = (Raise e, s', t)) /\
       I s' /\ Forall T t) ->
  (exists x, In x l /\ forall s, body x s = (Raise e, s, [])) ->
  forall s, I s ->
    exists s' t, for_each l body s = (Raise e, s', t) /\ I s' /\ Forall T t.
Proof.
  intros Hbody (bad & Hin & Hbad).
  induction l as [|x l IH]; [destruct Hin|]. intros s Hs.
  cbn [for_each]. destruct Hin as [-> | Hin].
  - exists s, []. rewrite (bind_raise _ _ _ _ _ _ (Hbad s)). auto.
  - destruct (Hbody x s Hs) as (s1 & t1 & [Hx | Hx] & Hs1 & Ht1).
    + destruct (IH Hin s1 Hs1) as (s2 & t2 & Hl & Hs2 & Ht2).
      exists s2, (t1 ++ t2). erewrite bind_ok by exact Hx. rewrite Hl.
      split; [reflexivity|]. split; [assumption|]. apply Forall_app. now split.
    + exists s1, t1. now rewrite (bind_raise _ _ _ _ _ _ Hx).
Qed.

Section CloseFails.
Context {coord crs : Type}.

Lemma click_remove_returns_or_raises (c0 c : container click_cbs) (ID : string) :
  c = set_cbs (cbs c) c0 ->
  exists c' t,
    (_click_container.remove (coord:=coord) (Some ID) c = (Ok tt, c', t) \/
     _click_container.remove (coord:=coord) (Some ID) c = (Raise ValueError, c', t)) /\
    c' = set_cbs (cbs c') c0 /\ Forall removal_call t.
Proof.
  intros Hc. rewrite click_remove_run. unfold click_remove_outcome.
  destruct (PyStr.split_dunder ID) as [|name [|ds [|b [|x l]]]];
    try (exists c, []; split; [now right|split; [assumption|constructor]]).
  destruct (dict_get String.eqb ds (cbs c)) as [dsdict|];
    [|exists c, []; split; [now left|split; [assumption|constructor]]].
  destruct (PyStr.Z_of_str b) as [button|];
    [|exists c, []; split; [now right|split; [assumption|constructor]]].
  destruct (dict_get Z.eqb button dsdict) as [bdict|];
    [|exists c, []; split; [now left|split; [assumption|constructor]]].
  destruct (dict_mem String.eqb name bdict);
    [|exists c, []; split; [now left|split; [assumption|constructor]]].
  eexists. eexists. split; [left; reflexivity|]. split.
  - cbn [cbs set_cbs]. rewrite Hc. reflexivity.
  - apply removal_calls_are_removal_calls.
Qed.

(** X21.  Closing the figure fails as soon as one click callback has an
    identity that does not split into three parts, as that of a callback
    whose name holds a double underscore: [_on_close] raises ValueError;
    [_reset_axes] is not called; the keypress and the pick container are
    left as they are, whatever is attached to them; the calls made are
    cleanup hooks and removal messages of click callbacks removed before
    the failure. *)
Theorem close_fails_on_an_identity_that_does_not_split
  (m : Maps coord crs) (ID : string) :
  In ID (_click_container.attached_callbacks (cbs (cb_click m))) ->
  parts ID <> 3%nat ->
  exists rc tr,
    cb_container._on_close m =
      (Raise ValueError, set_cb_click (set_cbs rc (cb_click m)) m, tr) /\
    Forall removal_call tr /\
    ~ In Reset_axes tr.
Proof.
  intros Hin Hparts.
  destruct (for_each_raises
              (_click_container.attached_callbacks (cbs (cb_click m)))
              (fun key => _click_container.remove (coord:=coord) (Some key))
              ValueError removal_call
              (fun c => c = set_cbs (cbs c) (cb_click m)))
    with (s := cb_click m) as (c' & t & Hrun & Hc' & Ht).
  - intros x s Hs. apply (click_remove_returns_or_raises _ _ _ Hs).
  - exists ID. split; [assumption|]. intros s.
    rewrite click_remove_run. unfold click_remove_outcome.
    unfold parts in Hparts.
    destruct (PyStr.split_dunder ID) as [|x1 [|x2 [|x3 [|x4 l]]]];
      try reflexivity. now cbn in Hparts.
  - now rewrite set_cbs_same.
  - exists (cbs c'), t.
    destruct (@click_obj_laws coord crs) as (Hc1 & Hc2 & Hc3).
    split; [|split; [assumption|]].
    + unfold cb_container._on_close, cb_container._methods. cbn [for_each].
      apply bind_raise. apply bind_raise.
      unfold cb_container.remove_all. erewrite bind_ok by reflexivity.
      cbn [String.eqb Ascii.eqb Bool.eqb andb].
      rewrite (for_each_at_obj click_obj _ _ m Hc1 Hc2 Hc3).
      cbn [getobj click_obj]. rewrite Hrun. rewrite <- Hc'. reflexivity.
    + intros Hr. rewrite Forall_forall in Ht. destruct (Ht _ Hr) as [s [H | H]];
        discriminate.
Qed.

End CloseFails.

Lemma close_fails_on_an_identity_that_does_not_split_witness :
  let click :=
    run_ops (coord:=Z)
      [Attach (CbStr "mark") false 1 []; Attach (CbFunc "my__callback") false 1 []]
      Example.click0 in
  let m := Example.maps 0 0 click Example.pick0 Example.key_switched in
  _click_container.attached_callbacks (cbs (cb_click m)) =
    ["mark_0__single__1"; "my__callback_0__single__1"] /\
  exists rc tr,
    cb_container._on_close m =
      (Raise ValueError, set_cb_click (set_cbs rc click) m, tr) /\
    ~ In Reset_axes tr.
Proof.
  intros click m. split; [reflexivity|].
  destruct (close_fails_on_an_identity_that_does_not_split m
              "my__callback_0__single__1")
    as (rc & tr & Hrun & _ & Hno).
  - right. left. reflexivity.
  - discriminate.
  - exists rc, tr. split; [exact Hrun|exact Hno].
Defined.

(** ** Identities over time *)

Section IdentityReuse.
Context {coord : Type}.

Lemma click_attach_checks (c c1 : container click_cbs) (cb : callback) (dbl : bool)
  (button : Z) (kw : kwargs) (id : string) (tr : list (call coord)) :
  _click_container._add_callback cb dbl button kw c = (Ok id, c1, tr) ->
  exists ncb,
    ncb_of (cb_name cb) (dict_keys (bucket_of (cbs c) (ds_of dbl) button)) = Ok ncb /\
    resolves c cb = true /\
    negb (existsb (String.eqb (cb_name cb)) _click_container.multi_cb_functions)
    && negb (List.length ncb =? 0)%nat = false.
Proof.
  intros Hc. rewrite click_add_callback_run in Hc. unfold click_attach_outcome in Hc.
  cbv zeta in *.
  destruct (forallb _ _); [discriminate|].
  destruct (resolves c cb);
    [|now apply turned_down_not_ok in Hc]. cbn [negb] in Hc.
  destruct (ncb_of (cb_name cb) _) as [ncb|e] eqn:Hncb; [|discriminate].
  destruct (_ && _) eqn:E; [discriminate|].
  exists ncb. auto.
Qed.

Lemma remove_after_attach (c c1 : container click_cbs) (cb : callback) (dbl : bool)
  (button : Z) (kw : kwargs) (id : string) (tr : list (call coord)) :
  plain_name (cb_name cb) = true ->
  _click_container._add_callback cb dbl button kw c = (Ok id, c1, tr) ->
  _click_container.remove (coord:=coord) (Some id) c1 =
    (Ok tt, set_cbs (touch (ds_of dbl) button (cbs c)) c,
     removal_calls c (entry_key (cb_name cb) 0) id).
Proof.
  intros Hplain Hc.
  destruct (click_attach_ok _ _ _ _ _ _ _ _ Hc) as (ncb & _ & Hncb & -> & -> & ->).
  pose proof (fresh_key _ _ _ Hncb) as Hfresh.
  rewrite click_remove_run. unfold click_remove_outcome.
  rewrite (split_click_identity _ _ _ _ Hplain).
  cbn [cbs set_cbs]. unfold set_bucket at 1.
  rewrite (dict_get_set_same String.eqb string_eqb_eq).
  rewrite Z_of_str_of_Z.
  rewrite (dict_get_set_same Z.eqb Z_eqb_eq).
  unfold dict_mem.
  rewrite (dict_get_app_last String.eqb string_eqb_eq _ _ _ Hfresh).
  rewrite (dict_del_app_last String.eqb string_eqb_eq _ _ _ Hfresh).
  rewrite set_bucket_set_bucket, set_bucket_same.
  unfold removal_calls. rewrite !base_name_entry_key. reflexivity.
Qed.

(** X22.  An identity does not stay with one attachment.  After a
    callback with a plain name has been attached and removed again by the
    identity returned, attaching the same callback to the same bucket
    returns the same identity, which then designates the new entry, with
    the keyword arguments of the second attachment. *)
Theorem removed_identity_is_handed_out_again
  (c c1 : container click_cbs) (cb : callback) (dbl : bool) (button : Z)
  (kw kw' : kwargs) (id : string) (tr : list (call coord)) :
  plain_name (cb_name cb) = true ->
  dict_get String.eqb "button" kw' = None ->
  _click_container._add_callback cb dbl button kw c = (Ok id, c1, tr) ->
  exists c2 tr2 c3 n,
    _click_container.remove (coord:=coord) (Some id) c1 = (Ok tt, c2, tr2) /\
    _click_container._add_callback (coord:=coord) cb dbl button kw' c2 =
      (Ok id, c3, []) /\
    id = click_identity (cb_name cb) n (ds_of dbl) button /\
    click_lookup (cbs c1) (entry_key (cb_name cb) n) (ds_of dbl) button =
      Some (mk_partial (cb_name cb) kw) /\
    click_lookup (cbs c3) (entry_key (cb_name cb) n) (ds_of dbl) button =
      Some (mk_partial (cb_name cb) kw').
Proof.
  intros Hplain Hkw Hc.
  pose proof (remove_after_attach _ _ _ _ _ _ _ _ Hplain Hc) as Hrm.
  destruct (click_attach_checks _ _ _ _ _ _ _ _ Hc) as (ncb & Hncb & Hres & Hmulti).
  destruct (click_attach_ok _ _ _ _ _ _ _ _ Hc) as (ncb' & _ & Hncb' & Hid & Hc1 & _).
  rewrite Hncb in Hncb'. injection Hncb' as <-.
  pose proof (fresh_key _ _ _ Hncb) as Hfresh.
  eexists. eexists. eexists. exists (next_count ncb).
  split; [exact Hrm|].
  rewrite click_add_callback_run. unfold click_attach_outcome. cbv zeta.
  rewrite (reserved_check_passes kw' Hkw).
  change (resolves (set_cbs ?r c) cb) with (resolves c cb).
  rewrite Hres. cbn [negb cbs set_cbs].
  rewrite (same_buckets_touch (ds_of dbl) button (cbs c)).
  rewrite Hncb, Hmulti.
  split; [now rewrite Hid|]. split; [assumption|]. split.
  - subst c1. cbn [cbs set_cbs]. rewrite click_lookup_bucket.
    rewrite bucket_of_set_bucket_same.
    apply (dict_get_app_last String.eqb string_eqb_eq _ _ _ Hfresh).
  - cbn [cbs set_cbs]. rewrite click_lookup_bucket.
    rewrite bucket_of_set_bucket_same.
    apply (dict_get_app_last String.eqb string_eqb_eq _ _ _ Hfresh).
Qed.

End IdentityReuse.

Lemma removed_identity_is_handed_out_again_witness :
  exists c1 c2 tr2 c3,
    _click_container._add_callback (coord:=Z) (CbStr "mark") false 1
      [("permanent", PyBool true)] Example.click0 =
      (Ok "mark_0__single__1", c1, []) /\
    _click_container.remove (coord:=Z) (Some "mark_0__single__1") c1 =
      (Ok tt, c2, tr2) /\
    _click_container._add_callback (coord:=Z) (CbStr "mark") false 1
      [("permanent", PyBool false)] c2 = (Ok "mark_0__single__1", c3, []).
Proof.
  eexists.
  destruct (removed_identity_is_handed_out_again (coord:=Z) Example.click0 _
              (CbStr "mark") false 1 [("permanent", PyBool true)]
              [("permanent", PyBool false)] _ _ eq_refl eq_refl eq_refl)
    as (c2 & tr2 & c3 & n & Hrm & Hadd & _).
  exists c2, tr2, c3. split; [reflexivity|]. split; [exact Hrm|exact Hadd].
Defined.

(** ** One attachment, one identity *)

Lemma perm_flat_map_dict_set {K V B} (keq : K -> K -> bool)
  (keq_eq : forall a b, keq a b = true <-> a = b)
  (f : K * V -> list B) (k : K) (v : V) (d : dict K V) (x : B) :
  (forall v0, dict_get keq k d = Some v0 -> Permutation (f (k, v)) (x :: f (k, v0))) ->
  (dict_get keq k d = None -> Permutation (f (k, v)) [x]) ->
  Permutation (flat_map f (dict_set keq k v d)) (x :: flat_map f d).
Proof.
  induction d as [|[k' v'] d IH]; intros Hs Hn.
  - cbn. rewrite app_nil_r. now apply Hn.
  - cbn [dict_set dict_get] in *. destruct (keq k k') eqn:E.
    + apply keq_eq in E. subst k'. cbn [flat_map].
      change (x :: f (k, v') ++ flat_map f d)
        with ((x :: f (k, v')) ++ flat_map f d).
      apply Permutation_app_tail. now apply Hs.
    + cbn [flat_map]. rewrite IH by assumption.
      apply Permutation_sym, Permutation_middle.
Qed.

Section OneIdentity.
Context {coord : Type}.

(** X23.  A successful attachment adds exactly one identity, the one it
    returns: the attached callbacks afterwards are those of before and
    the new identity, each as often as before.  Click, pick and keypress
    containers alike. *)
Theorem attach_adds_exactly_one_identity
  (c c1 : container click_cbs) (cb : callback) (dbl : bool) (button : Z)
  (kw : kwargs) (id : string) (tr : list (call coord))
  (k k1 : container keypress_cbs) (cbk : callback) (key : string)
  (kwk : kwargs) (idk : string) (trk : list (call coord)) :
  _click_container._add_callback cb dbl button kw c = (Ok id, c1, tr) ->
  keypress_container._add_callback cbk key kwk k = (Ok idk, k1, trk) ->
  Permutation (_click_container.attached_callbacks (cbs c1))
    (id :: _click_container.attached_callbacks (cbs c)) /\
  Permutation (keypress_container.attached_callbacks (cbs k1))
    (idk :: keypress_container.attached_callbacks (cbs k)).
Proof.
  intros Hc Hk. split.
  - destruct (click_attach_ok _ _ _ _ _ _ _ _ Hc) as (ncb & _ & _ & -> & -> & _).
    cbn [cbs set_cbs].
    rewrite <- (attached_callbacks_touch (ds_of dbl) button (cbs c)).
    rewrite <- (same_buckets_touch (ds_of dbl) button (cbs c)).
    generalize (touch (ds_of dbl) button (cbs c)). intros r.
    set (ds := ds_of dbl). set (key0 := entry_key (cb_name cb) (next_count ncb)).
    set (v := mk_partial (cb_name cb) kw).
    unfold set_bucket, _click_container.attached_callbacks.
    apply (perm_flat_map_dict_set String.eqb string_eqb_eq).
    + intros D0 HD0. cbn [fst snd].
      unfold bucket_of, dsdict_of. rewrite HD0.
      apply (perm_flat_map_dict_set Z.eqb Z_eqb_eq).
      * intros bd0 Hbd0. cbn [fst snd]. rewrite Hbd0.
        rewrite dict_keys_app, map_app. cbn [map].
        apply Permutation_sym, Permutation_cons_append.
      * intros Hnone. cbn [fst snd]. rewrite Hnone. reflexivity.
    + intros Hnone. cbn [fst snd].
      unfold bucket_of, dsdict_of. rewrite Hnone. cbn. reflexivity.
  - destruct (keypress_attach_ok _ _ _ _ _ _ _ Hk) as (ncb & _ & _ & -> & -> & _).
    cbn [cbs set_cbs]. unfold keypress_container.attached_callbacks.
    apply (perm_flat_map_dict_set String.eqb string_eqb_eq).
    + intros bd0 Hbd0. cbn [fst snd]. unfold key_bucket_of. rewrite Hbd0.
      rewrite dict_keys_app, map_app. cbn [map].
      apply Permutation_sym, Permutation_cons_append.
    + intros Hnone. cbn [fst snd]. unfold key_bucket_of. rewrite Hnone. reflexivity.
Qed.

End OneIdentity.

Lemma attach_adds_exactly_one_identity_witness :
  exists c1 k1,
    _click_container._add_callback (coord:=Z) (CbStr "mark") false 1 []
      Example.marks_after_removal = (Ok "mark_2__single__1", c1, []) /\
    keypress_container._add_callback (coord:=Z) (CbStr "switch_layer") "b" []
      Example.keys_attached = (Ok "switch_layer_0__b", k1, []) /\
    Permutation (_click_container.attached_callbacks (cbs c1))
      ["mark_2__single__1"; "mark_1__single__1"] /\
    Permutation (keypress_container.attached_callbacks (cbs k1))
      ["switch_layer_0__b"; "show_help_0__a"; "switch_layer_0__a"].
Proof.
  eexists. eexists. split; [reflexivity|]. split; [reflexivity|].
  exact (attach_adds_exactly_one_identity (coord:=Z)
           Example.marks_after_removal _ (CbStr "mark") false 1 [] _ _
           Example.keys_attached _ (CbStr "switch_layer") "b" [] _ _
           eq_refl eq_refl).
Defined.

(** ** A pick forwarded to a peer that finds a data point *)

Lemma option_nat_eqb_refl (a : option nat) :
  cb_pick_container.option_nat_eqb a a = true.
Proof. destruct a; [apply Nat.eqb_refl|reflexivity]. Qed.

Section ForwardedPick.
Context {coord crs : Type} {RT : Runtime coord crs}.
Hypothesis set_to_list_members :
  forall l x, In x (set_to_list l) <-> In x l.

(** X24.  A pick forwarded to a peer runs the pick callbacks of the peer
    on the data point of the peer.  When the pick container of [self]
    forwards to the one Maps object [m], the event lies in the axes of
    [self], no toolbar mode is active on [m], and the picker of [m] finds
    the data point with index [i] at the position of the mouse event,
    taken over as it is, then [_fwd_cb] executes the entries of [m] for
    the arity and the button of the event, in the order of [_sort_cbs],
    with the position, the [ID] and the value that [m] holds at [i], and
    requests the redraw on [m]; no other Maps object changes. *)
Theorem forwarded_pick_runs_the_peer_on_its_own_point
  (self m : nat) (event : pick_event coord) (me : mouse_event coord)
  (w : world coord crs) (i : nat) (x y : coord) (id z : pyval) :
  mouseevent event = Some me ->
  cb_click_container.in_axes_of me (w self) = true ->
  _fwd_cbs (cb_pick (w self)) = [m] ->
  cb_click_container.toolbar_active (w m) = false ->
  _pick_pixel m (w m)
    (mk_mouse_event (Some (figure_ax (w m))) (p_dblclick event) (p_button event)
       (xdata me) (ydata me)) = Some i ->
  nth_error (props_x0 (w m)) i = Some x ->
  nth_error (props_y0 (w m)) i = Some y ->
  nth_error (props_ids (w m)) i = Some id ->
  nth_error (props_z_data (w m)) i = Some z ->
  let c := cb_pick (w m) in
  let d := matching_bucket (cbs c) (p_dblclick event) (p_button event) in
  exists w',
    cb_pick_container._fwd_cb self event w =
      (Ok tt, w',
       map (pair m)
         (invoke_all (_method c) d (ClickKw (mk_clickdict (x, y) id z (Some i)))
            (sort_order (_cb_list c) d)
          ++ pick_redraw c (p_dblclick event) (p_button event))) /\
    (forall j, j <> m -> w' j = w j).
Proof.
  intros Hme Hax Hfwd Htb Hpick Hx Hy Hid Hz c d.
  set (dummy := mk_pick_event (coord:=coord) (figure_coll (w m))
                  (p_dblclick event) (p_button event) (Some i) None).
  assert (Hget : cb_pick_container._get_pickdict (w m) dummy =
                 Ok (Some (mk_clickdict (x, y) id z (Some i)))).
  { unfold cb_pick_container._get_pickdict, cb_pick_container.item.
    cbn [p_ind artist dummy]. rewrite option_nat_eqb_refl.
    now rewrite Hx, Hy, Hid, Hz. }
  pose proof (onpick_run set_to_list_members (w m) dummy _ Htb
                (option_nat_eqb_refl _) Hget) as Hrun.
  cbv zeta in Hrun. cbn [p_dblclick p_button dummy] in Hrun.
  eexists. split.
  - unfold cb_pick_container._fwd_cb. rewrite Hme.
    erewrite bind_ok by reflexivity. rewrite Hax. cbn [negb]. rewrite Hfwd.
    cbn [for_each]. erewrite bind_ok.
    2:{ unfold cb_pick_container.forward_to. erewrite bind_ok by reflexivity.
        rewrite Hpick. fold dummy. erewrite at_maps_run by exact Hrun.
        reflexivity. }
    cbn [ret]. rewrite !app_nil_r, app_nil_l. reflexivity.
  - intros j Hj. now apply world_set_other.
Qed.

End ForwardedPick.

(** ** A Maps object that forwards to itself *)

Section SelfForwarding.
Context {coord crs : Type} {RT : Runtime coord crs}.
Hypothesis set_to_list_members :
  forall l x, In x (set_to_list l) <-> In x l.

(** X25.  [forward_events] does not refuse the Maps object of the
    container itself, and a Maps object that forwards its clicks to itself
    runs its click callbacks twice on every click: once for the click, and
    once more for the click forwarded to itself. *)
Theorem forwarding_to_itself_runs_the_callbacks_twice
  (X : nat) (event : mouse_event coord) (w : world coord crs) :
  _fwd_cbs (cb_click (w X)) = [] ->
  _modifier_pressed (w X) = false ->
  cb_click_container.toolbar_active (w X) = false ->
  inaxes event = Some (figure_ax (w X)) ->
  (forall ch, In ch (_children (w X)) -> figure_ax (w ch) <> figure_ax (w X)) ->
  exists w1 w2 tr,
    at_maps X (at_obj click_obj (forward_events [X])) w = (Ok tt, w1, []) /\
    _fwd_cbs (cb_click (w1 X)) = [X] /\
    cb_click_container.clickcb X event w1 = (Ok tt, w2, tr) /\
    invoked_on X tr =
      click_order (w X) (dblclick event) (button event)
      ++ click_order (w X) (dblclick event) (button event).
Proof.
  intros Hempty Hmod Htool Hax Hch.
  set (mX := set_cb_click (set_fwd_cbs [X] (cb_click (w X))) (w X)).
  set (w1 := world_set X mX w).
  assert (Hfe : at_maps X (at_obj click_obj (forward_events [X])) w =
                (Ok tt, w1, [])).
  { erewrite at_maps_run
      by (erewrite at_obj_run by (rewrite forward_events_run; reflexivity);
          reflexivity).
    cbn [fold_left getobj setobj click_obj map]. rewrite Hempty. reflexivity. }
  assert (HwX : w1 X = mX) by apply world_set_same.
  assert (Hord : forall m', click_touched mX m' ->
            same_buckets (cbs (cb_click mX)) (cbs (cb_click m')) ->
            click_order m' (dblclick event) (button event) =
            click_order (w X) (dblclick event) (button event)).
  { intros m' Hv Hb. unfold click_order.
    destruct (click_touched_guards _ _ Hv) as (_ & _ & _ & ->).
    cbn [mX cb_click set_cb_click _cb_list set_fwd_cbs].
    unfold matching_bucket. destruct (button event) as [b|]; [|reflexivity].
    rewrite (Hb _ _). reflexivity. }
  (* the click on X itself *)
  pose proof (onclick_run set_to_list_members (cb_click (w1 X)) event) as Hon.
  cbv zeta in Hon.
  set (cX := set_cbs (touch_ds (ds_of (dblclick event)) (cbs (cb_click (w1 X))))
               (set_event (MouseEvent event) (cb_click (w1 X)))) in *.
  set (w2 := world_set X (set_cb_click cX (w1 X)) w1).
  assert (H1 : at_maps X (at_obj click_obj (cb_click_container._onclick event)) w1 =
               (Ok tt, w2,
                map (pair X)
                  (invoke_all (_method (cb_click (w1 X)))
                     (matching_bucket (cbs (cb_click (w1 X))) (dblclick event)
                        (button event))
                     (ClickKw (cb_click_container._get_clickdict event))
                     (sort_order (_cb_list (cb_click (w1 X)))
                        (matching_bucket (cbs (cb_click (w1 X))) (dblclick event)
                           (button event)))))).
  { erewrite at_maps_run
      by (erewrite at_obj_run by exact Hon; reflexivity).
    reflexivity. }
  match type of H1 with _ = (_, _, ?t) => set (t1 := t) in * end.
  assert (Hw2X : w2 X = set_cb_click cX (w1 X)) by apply world_set_same.
  assert (Hfw2 : _fwd_cbs (cb_click (w2 X)) = [X]).
  { rewrite Hw2X. unfold cX. cbn [cb_click set_cb_click _fwd_cbs set_cbs].
    rewrite HwX. reflexivity. }
  destruct (forward_loop_run set_to_list_members X event [X]
              ltac:(repeat constructor; intros []) w2)
    as (w3 & t3 & H3 & O3 & V3 & I3).
  assert (Hax2 : cb_click_container.in_axes_of event (w2 X) = true).
  { unfold cb_click_container.in_axes_of. rewrite Hax, Hw2X, HwX.
    cbn [figure_ax set_cb_click mX]. apply Nat.eqb_refl. }
  assert (Hfwd : cb_click_container._fwd_cb X event w2 = (Ok tt, w3, t3)).
  { unfold cb_click_container._fwd_cb. erewrite bind_ok by reflexivity.
    rewrite Hax2. cbn [negb]. rewrite Hfw2. now rewrite H3. }
  assert (Hax1 : cb_click_container.in_axes_of event (w1 X) = true).
  { unfold cb_click_container.in_axes_of. rewrite Hax, HwX.
    cbn [figure_ax set_cb_click mX]. apply Nat.eqb_refl. }
  assert (HonX : cb_click_container.click_on event X w1 =
                 (Ok tt, w3, t1 ++ t3 ++ [(X, After_update X "click")])).
  { unfold cb_click_container.click_on. erewrite bind_ok by reflexivity.
    rewrite Hax1.
    erewrite bind_ok by exact H1. erewrite bind_ok by exact Hfwd.
    reflexivity. }
  assert (Hfig : forall i, figure_ax (w3 i) = figure_ax (w i)).
  { intros i. rewrite (click_touched_figure_ax _ _ (proj1 (V3 i))).
    unfold w2, w1, world_set. destruct (Nat.eqb i X) eqn:E; [|reflexivity].
    apply Nat.eqb_eq in E. subst i. rewrite Nat.eqb_refl. reflexivity. }
  assert (Hchildren : _children (w1 X) = _children (w X))
    by (rewrite HwX; reflexivity).
  assert (Hskip : for_each (_children (w X)) (cb_click_container.click_on event) w3
                  = (Ok tt, w3, [])).
  { apply (click_on_skip event (figure_ax (w X))); [assumption|].
    intros ch Hin. rewrite Hfig. now apply Hch. }
  exists w1. eexists. eexists. split; [exact Hfe|].
  split; [rewrite HwX; reflexivity|]. split.
  { unfold cb_click_container.clickcb. erewrite bind_ok by reflexivity.
    rewrite HwX. cbn [_modifier_pressed set_cb_click mX].
    rewrite Hmod.
    change (cb_click_container.toolbar_active mX)
      with (cb_click_container.toolbar_active (w X)).
    rewrite Htool. unfold cb_click_container.click_family.
    erewrite bind_ok by reflexivity. rewrite Hchildren. cbn [for_each].
    erewrite bind_ok.
    2:{ erewrite bind_ok by exact HonX. rewrite Hskip. reflexivity. }
    erewrite bind_ok by reflexivity. reflexivity. }
  rewrite !app_nil_r, !invoked_on_app, I3.
  unfold t1. rewrite invoked_on_tagged, Nat.eqb_refl.
  rewrite (invoked_keys_onclick (cb_click (w1 X))).
  replace (invoked_on X [(X, After_update X "click")]) with (@nil string)
    by (unfold invoked_on; cbn [filter fst]; now rewrite Nat.eqb_refl).
  replace (invoked_on X [(X, BM_update (_method (cb_click (w3 X))) None)])
    with (@nil string)
    by (unfold invoked_on; cbn [filter fst]; now rewrite Nat.eqb_refl).
  rewrite !app_nil_r.
  destruct (in_dec Nat.eq_dec X [X]) as [_ | Hn]; [|exfalso; apply Hn; now left].
  change (invoked_on X []) with (@nil string). cbn [app].
  f_equal.
  - apply (Hord (w1 X)); rewrite HwX; [apply click_touched_refl|now intros ? ?].
  - apply (Hord (w2 X)).
    + rewrite Hw2X. unfold cX. rewrite HwX.
      now apply click_touched_set.
    + rewrite Hw2X. unfold cX. rewrite HwX.
      cbn [cb_click set_cb_click cbs set_cbs].
      apply same_buckets_touch_ds.
Qed.

End SelfForwarding.

Lemma forwarded_pick_runs_the_peer_on_its_own_point_witness :
  exists w',
    cb_pick_container._fwd_cb (RT:=Picking.runtime) 0 Example.pick_event0
      Example.forwarding =
      (Ok tt, w',
       [(1, Invoke "pick" "annotate_0" (mk_partial "annotate" [])
              (ClickKw (mk_clickdict (10, 30)%Z (PyInt 7) (PyStr "a") (Some 0))));
        (1, BM_update "pick" (Some false))]).
Proof.
  destruct (forwarded_pick_runs_the_peer_on_its_own_point (RT:=Picking.runtime)
              (fun l x => nodup_In string_dec l x)
              0 1 Example.pick_event0 Example.click_event Example.forwarding
              0 10%Z 30%Z (PyInt 7) (PyStr "a")
              eq_refl eq_refl eq_refl eq_refl eq_refl
              eq_refl eq_refl eq_refl eq_refl)
    as (w' & Hrun & _).
  exists w'. exact Hrun.
Defined.

Lemma forwarding_to_itself_runs_the_callbacks_twice_witness :
  exists w1 w2 tr,
    at_maps 0 (at_obj click_obj (forward_events [0])) Example.two_maps =
      (Ok tt, w1, []) /\
    cb_click_container.clickcb (RT:=Example.runtime) 0 Example.click_event w1 =
      (Ok tt, w2, tr) /\
    invoked_on 0 tr = ["mark_0"; "mark_0"].
Proof.
  destruct (forwarding_to_itself_runs_the_callbacks_twice (RT:=Example.runtime)
              (fun l x => nodup_In string_dec l x)
              0 Example.click_event Example.two_maps
              eq_refl eq_refl eq_refl eq_refl ltac:(intros ch []))
    as (w1 & w2 & tr & Hfe & _ & Hrun & Hinv).
  exists w1, w2, tr. split; [exact Hfe|]. split; [exact Hrun|exact Hinv].
Defined.

(** ** Examples for the properties without hypothesis *)

Lemma motion_with_a_button_held_is_a_click_witness :
  cb_click_container.movecb (RT:=Example.runtime) 0 Example.click_event
    Example.two_maps =
  cb_click_container.clickcb (RT:=Example.runtime) 0 Example.click_event
    Example.two_maps /\
  invoked_on 0
    (snd (cb_click_container.movecb (RT:=Example.runtime) 0 Example.click_event
            Example.two_maps)) = ["mark_0"].
Proof.
  split; [|reflexivity].
  apply (proj1 (motion_with_a_button_held_is_a_click (RT:=Example.runtime) 0
                  Example.click_event Example.two_maps) 1%Z eq_refl).
  discriminate.
Defined.

Lemma default_keymaps_are_unbound_witness :
  let rc := [("keymap.quit", ["ctrl+w"; "cmd+w"; "q"]);
             ("keymap.save", ["s"; "ctrl+s"]);
             ("keymap.fullscreen", ["f"; "ctrl+f"])] in
  exists rc',
    keymaps._remove_default_keymaps (E:=unit) rc = (Ok tt, rc', []) /\
    dict_get String.eqb "keymap.quit" rc' = Some ["ctrl+w"; "cmd+w"] /\
    dict_get String.eqb "keymap.save" rc' = Some ["ctrl+s"] /\
    dict_get String.eqb "keymap.fullscreen" rc' = Some ["f"; "ctrl+f"] /\
    dict_get String.eqb "keymap.home" rc' = None.
Proof.
  intros rc.
  destruct (default_keymaps_are_unbound (E:=unit) rc)
    as (rc' & Hrun & _ & Hget & _).
  exists rc'. split; [exact Hrun|]. rewrite !Hget. repeat split.
Defined.
